(** * FocusFusion front-end: the client-side reconciliation logic

    A shallow embedding of the handlers of [LearningPlanPage.jsx],
    [EventsPage.jsx], [ResourcesPage.jsx], [CommentComponent.jsx] and
    [ConfirmModal.jsx], and the properties of the collection store that
    the specification states about them.

    Conventions of the embedding.
    - A React state cell is a field of the page's state record; a setter
      writes the field.  A handler closes over the value a cell had when
      the component was rendered, so a handler reads the cells once, at
      its start, and keeps using that snapshot after an [await]; a setter
      that is given a function computes from the value the cell has then.
    - [async]/[await] is run to completion: a handler is one sequential
      run in which every awaited request has been answered.
    - An exception is an outcome of the run; [try]/[catch]/[finally] are
      combinators of the monad.
    - The REST layer (the [api/] modules and [axios]) is a parameter: a
      record with one function per request, answering with a parsed body
      or a failure.  Every request that is issued is written to a log. *)

From Stdlib Require Import ZArith String List Lia.
From stdpp Require Import base decidable option list strings.

Open Scope string_scope.
Open Scope list_scope.

(** ** JavaScript values that occur as identifiers *)

(** Identifiers come from JSON: numbers or strings.  [===] on two such
    values is equality of type and value. *)
Inductive Prim :=
| PNum (n : Z)
| PStr (s : string).

#[global] Instance Prim_eq_dec : EqDecision Prim.
Proof. solve_decision. Defined.

(** Truthiness of a primitive: [0] and the empty string are falsy. *)
Definition truthy (p : Prim) : bool :=
  match p with
  | PNum n => negb (n =? 0)%Z
  | PStr s => negb (String.eqb s "")
  end.

(** [s.trim()] is empty exactly when [s] holds white space only.  A
    character of a string is a code unit below 256 here; of these, tab,
    line feed, vertical tab, form feed, carriage return, space and the
    no-break space are white space to [trim]. *)
Definition is_space (c : Ascii.ascii) : bool :=
  let n := Ascii.nat_of_ascii c in
  ((9 <=? n) && (n <=? 13) || (n =? 32) || (n =? 160))%nat.

Fixpoint blank (s : string) : bool :=
  match s with
  | EmptyString => true
  | String c s' => is_space c && blank s'
  end.

(** ** Data model *)

Module Like.
Record t := mk { userId : Prim; userName : string }.
End Like.

Module Comment.
Record t := mk {
  id : Prim;
  userId : Prim;
  userName : string;
  content : string;
  createdAt : Z;
  updatedAt : Z
}.

(** [{...comment, content: c, updatedAt: now}] *)
Definition edit (c : string) (now : Z) (x : t) : t :=
  mk (id x) (userId x) (userName x) c (createdAt x) now.
End Comment.

Module Item.
Record t := mk {
  id : Prim;
  userId : Prim;
  userName : string;
  fields : list (string * string);
  createdAt : Z;
  updatedAt : Z;
  likes : list Like.t;
  comments : list Comment.t
}.

(** [item.name] for a content field; a resource the server returns has
    its title, description and url. *)
Definition field (name : string) (x : t) : string :=
  match find (fun kv => String.eqb (fst kv) name) (fields x) with
  | Some kv => snd kv
  | None => ""
  end.

(** [{...item, likes: l}] *)
Definition with_likes (l : list Like.t) (x : t) : t :=
  mk (id x) (userId x) (userName x) (fields x) (createdAt x) (updatedAt x)
     l (comments x).

(** [{...item, comments: cs}] *)
Definition with_comments (cs : list Comment.t) (x : t) : t :=
  mk (id x) (userId x) (userName x) (fields x) (createdAt x) (updatedAt x)
     (likes x) cs.
End Item.

Module User.
Record t := mk {
  id : Prim;
  name : string;
  profileImage : string;
  token : string
}.
End User.

#[global] Instance Like_eq_dec : EqDecision Like.t.
Proof. solve_decision. Defined.
#[global] Instance Comment_eq_dec : EqDecision Comment.t.
Proof. solve_decision. Defined.
#[global] Instance Item_eq_dec : EqDecision Item.t.
Proof. solve_decision. Defined.
#[global] Instance User_eq_dec : EqDecision User.t.
Proof. solve_decision. Defined.

(** ** Requests, answers and notifications *)

(** The form of a learning plan, and what [handlePlanSubmit] sends. *)
Record PlanForm := {
  pf_title : string;
  pf_description : string;
  pf_topics : string;
  pf_resources : string
}.

Record PlanData := {
  pd_userId : Prim;
  pd_userName : string;
  pd_userProfileImage : string;
  pd_form : PlanForm
}.

(** What [CommentForm] sends. *)
Record CommentData := {
  cd_userId : Prim;
  cd_userName : string;
  cd_content : string
}.

(** The form of an event; [ev_id] is present when an event is edited. *)
Record EventForm := {
  ev_id : option Prim;
  ev_title : string;
  ev_description : string;
  ev_date : string;
  ev_location : string;
  ev_category : string;
  ev_maxParticipants : string
}.

Record ResourcePayload := {
  rp_title : string;
  rp_description : string;
  rp_url : string
}.

(** The [commentType] property of a comment. *)
Inductive CommentType :=
| SKILL_SHARING
| LEARNING_PROGRESS
| LEARNING_PLANS
| OtherType (s : string).

#[global] Instance PlanForm_eq_dec : EqDecision PlanForm.
Proof. solve_decision. Defined.
#[global] Instance PlanData_eq_dec : EqDecision PlanData.
Proof. solve_decision. Defined.
#[global] Instance CommentData_eq_dec : EqDecision CommentData.
Proof. solve_decision. Defined.
#[global] Instance EventForm_eq_dec : EqDecision EventForm.
Proof. solve_decision. Defined.
#[global] Instance ResourcePayload_eq_dec : EqDecision ResourcePayload.
Proof. solve_decision. Defined.
#[global] Instance CommentType_eq_dec : EqDecision CommentType.
Proof. solve_decision. Defined.

(** A parsed response body of unknown shape, as [fetchResources] inspects
    it.  The elements of an array are items. *)
#[warnings="-register-all"] Inductive Body :=
| BNull
| BBool (b : bool)
| BNum (n : Z)
| BStr (s : string)
| BArr (l : list Item.t)
| BObj (props : list (string * Body)).

(** One entry per request the pages issue. *)
Inductive Request :=
| GetAllLearningPlans (token : option string)
| CreateLearningPlan (userId : Prim) (planData : PlanData) (token : string)
| DeleteLearningPlan (planId : Prim) (token : string)
| AddLike (planId : Prim) (likeData : Like.t) (token : string)
| RemoveLike (planId userId : Prim) (token : string)
| AddComment (planId : Prim) (commentData : CommentData) (token : string)
| UpdateComment (ty : CommentType) (postId commentId : Prim)
    (updatedComment : Comment.t) (token : option string)
| DeleteComment (ty : CommentType) (postId commentId userId : Prim)
    (token : option string)
| EventsGet
| EventsPut (id userId : Prim) (data : EventForm)
| EventsPost (userId : Prim) (data : EventForm)
| EventsDelete (id userId : Prim)
| EventsRegister (id userId : Prim)
| ResourcesGet
| ResourcesPost (userId : Prim) (payload : ResourcePayload)
| ResourcesPut (id : option Prim) (userId : Prim) (payload : ResourcePayload)
| ResourcesDelete (id userId : Prim).

#[global] Instance Request_eq_dec : EqDecision Request.
Proof. solve_decision. Defined.

Inductive GatewayError :=
| NetworkError
| AuthError
| ServerError (status : Z).

Inductive Resp (A : Type) :=
| Ok (data : A)
| Fail (e : GatewayError).
Arguments Ok {A} data.
Arguments Fail {A} e.

Definition succeeded {A} (r : Resp A) : Prop :=
  match r with Ok _ => True | Fail _ => False end.

Definition failed {A} (r : Resp A) : Prop :=
  match r with Ok _ => False | Fail _ => True end.

(** The REST layer.  A request that answers with no content the caller
    reads has a body of type [Body]. *)
Record Gateway := {
  getAllLearningPlans : option string -> Resp (list Item.t);
  createLearningPlan : Prim -> PlanData -> string -> Resp Item.t;
  deleteLearningPlan : Prim -> string -> Resp Body;
  addLike : Prim -> Like.t -> string -> Resp Item.t;
  removeLike : Prim -> Prim -> string -> Resp Body;
  addComment : Prim -> CommentData -> string -> Resp Item.t;
  updateComment :
    CommentType -> Prim -> Prim -> Comment.t -> option string -> Resp Body;
  deleteComment :
    CommentType -> Prim -> Prim -> Prim -> option string -> Resp Body;
  eventsGet : Resp (list Item.t);
  eventsPut : Prim -> Prim -> EventForm -> Resp Body;
  eventsPost : Prim -> EventForm -> Resp Body;
  eventsDelete : Prim -> Prim -> Resp Body;
  eventsRegister : Prim -> Prim -> Resp Body;
  resourcesGet : Resp Body;
  resourcesPost : Prim -> ResourcePayload -> Resp Item.t;
  resourcesPut : option Prim -> Prim -> ResourcePayload -> Resp Item.t;
  resourcesDelete : Prim -> Prim -> Resp Body
}.

Inductive ToastKind := TError | TSuccess.

Record Toast := { kind : ToastKind; message : string }.

#[global] Instance ToastKind_eq_dec : EqDecision ToastKind.
Proof. solve_decision. Defined.
#[global] Instance Toast_eq_dec : EqDecision Toast.
Proof. solve_decision. Defined.

Definition is_error (t : Toast) : Prop := kind t = TError.

#[global] Instance is_error_dec t : Decision (is_error t).
Proof. unfold is_error. apply _. Defined.

(** ** The monad of a handler run *)

Inductive Exn :=
| TypeError
| GatewayFailure (e : GatewayError).

Inductive Outcome (A : Type) :=
| Returned (a : A)
| Thrown (e : Exn).
Arguments Returned {A} a.
Arguments Thrown {A} e.

(** What a run leaves behind for an observer, in order of occurrence: the
    notifications shown, the requests issued (and whether each was
    answered with success) and the native confirmation dialogs answered. *)
Inductive Event :=
| Toasted (t : Toast)
| Requested (r : Request) (ok : bool)
| Asked (question : string) (answer : bool).

(** What a run sees and leaves behind: the component's state cells and
    the events so far. *)
Record World (S : Type) := mkWorld {
  page : S;
  trace : list Event
}.
Arguments mkWorld {S} page trace.
Arguments page {S} w.
Arguments trace {S} w.

Definition toasts_of (tr : list Event) : list Toast :=
  omap (fun e => match e with Toasted t => Some t | _ => None end) tr.

Definition calls_of (tr : list Event) : list Request :=
  omap (fun e => match e with Requested r _ => Some r | _ => None end) tr.

(** The requests that were answered with a failure. *)
Definition failures_of (tr : list Event) : list Request :=
  omap (fun e => match e with Requested r false => Some r | _ => None end) tr.

Definition toasts {S} (w : World S) : list Toast := toasts_of (trace w).
Definition calls {S} (w : World S) : list Request := calls_of (trace w).
Definition failures {S} (w : World S) : list Request :=
  failures_of (trace w).

Definition M (S A : Type) : Type := World S -> Outcome A * World S.

Definition ret {S A} (a : A) : M S A := fun w => (Returned a, w).

Definition bind {S A B} (m : M S A) (k : A -> M S B) : M S B :=
  fun w =>
    match m w with
    | (Returned a, w') => k a w'
    | (Thrown e, w') => (Thrown e, w')
    end.

#[global] Instance M_ret S : MRet (M S) := fun A a => ret a.
#[global] Instance M_bind S : MBind (M S) := fun A B k m => bind m k.

Definition throw {S A} (e : Exn) : M S A := fun w => (Thrown e, w).

(** [try { m } catch (error) { h error }] *)
Definition try_catch {S A} (m : M S A) (h : Exn -> M S A) : M S A :=
  fun w =>
    match m w with
    | (Returned a, w') => (Returned a, w')
    | (Thrown e, w') => h e w'
    end.

(** [try { m } finally { f }]: [f] runs either way, and the outcome of
    [m] stands unless [f] throws. *)
Definition try_finally {S A} (m : M S A) (f : M S unit) : M S A :=
  fun w =>
    match m w with
    | (o, w') =>
        match f w' with
        | (Returned _, w'') => (o, w'')
        | (Thrown e, w'') => (Thrown e, w'')
        end
    end.

Definition get_page {S} : M S S := fun w => (Returned (page w), w).

Definition set_page {S} (f : S -> S) : M S unit :=
  fun w => (Returned tt, mkWorld (f (page w)) (trace w)).

Definition emit {S} (e : Event) : M S unit :=
  fun w => (Returned tt, mkWorld (page w) (trace w ++ [e])).

Definition toast_error {S} (msg : string) : M S unit :=
  emit (Toasted (Build_Toast TError msg)).

Definition toast_success {S} (msg : string) : M S unit :=
  emit (Toasted (Build_Toast TSuccess msg)).

(** Issue a request: log it, then return the parsed answer or throw. *)
Definition request {S A} (r : Request) (answer : Resp A) : M S A :=
  match answer with
  | Ok a => emit (Requested r true);; ret a
  | Fail e => emit (Requested r false);; throw (GatewayFailure e)
  end.

(** [window.confirm(question)], which blocks until the user answers. *)
Definition window_confirm {S} (question : string) (answer : bool)
    : M S bool :=
  emit (Asked question answer);;
  ret answer.

(** [currentUser.x] for a possibly absent [currentUser]. *)
Definition deref {S} (currentUser : option User.t) : M S User.t :=
  match currentUser with
  | Some u => ret u
  | None => throw TypeError
  end.

Definition run {S A} (m : M S A) (s : S) : Outcome A * World S :=
  m (mkWorld s []).

(** A promise nobody awaits: the call is made, and a rejection does not
    reach the caller. *)
Definition detached {S} (m : M S unit) : M S unit :=
  try_catch m (fun _ => ret tt).

(** ** The by-id operations of the collection store *)

(** [items.map(item => item.id === id ? updater(item) : item)] *)
Definition patchById (id : Prim) (updater : Item.t -> Item.t)
    (items : list Item.t) : list Item.t :=
  map (fun item => if decide (Item.id item = id) then updater item else item)
      items.

(** [items.filter(item => item.id !== id)] *)
Definition removeById (id : Prim) (items : list Item.t) : list Item.t :=
  filter (fun item => Item.id item <> id) items.

(** ** ConfirmModal and the hook that holds its state *)

Module ConfirmModal.

(** What [openModal] is given; [C] is the type of the callback. *)
Record Config (C : Type) := mkConfig {
  title : string;
  message : string;
  confirmText : string;
  cancelText : string;
  type : string;
  onConfirm : C
}.
Arguments mkConfig {C}.
Arguments title {C}.
Arguments message {C}.
Arguments confirmText {C}.
Arguments cancelText {C}.
Arguments type {C}.
Arguments onConfirm {C}.

(** Modelled from the spec: the hook [useConfirmModal] is not among the
    sources.  Its states are closed and open; [openModal(config)] captures
    title, message, button labels and callback; the state is overwritten,
    not queued. *)
Inductive ModalState (C : Type) :=
| Closed
| Open (config : Config C).
Arguments Closed {C}.
Arguments Open {C}.

(** Modelled from the spec: [openModal] of the missing hook. *)
Definition openModal {C} (config : Config C) (st : ModalState C)
    : ModalState C :=
  Open config.

(** Modelled from the spec: [closeModal] of the missing hook. *)
Definition closeModal {C} (st : ModalState C) : ModalState C := Closed.

Definition isOpen {C} (st : ModalState C) : bool :=
  match st with Closed => false | Open _ => true end.

(** Where a click can land on the rendered modal. *)
Inductive Click :=
| Backdrop      (* the outer [motion.div] *)
| Panel         (* the inner [motion.div], outside every button *)
| CloseButton   (* the X of the header *)
| CancelButton
| ConfirmButton.

(** The properties the component calls on a click. *)
Inductive PropCall :=
| CallOnConfirm
| CallOnClose.

(** [ConfirmModal.jsx]: nothing is rendered unless [isOpen]; the panel
    stops the propagation of clicks inside it, so a click on a button
    does not reach the backdrop; the confirm button runs
    [onConfirm(); onClose();]. *)
Definition clicked (isOpen : bool) (c : Click) : list PropCall :=
  if isOpen then
    match c with
    | Backdrop => [CallOnClose]
    | Panel => []
    | CloseButton => [CallOnClose]
    | CancelButton => [CallOnClose]
    | ConfirmButton => [CallOnConfirm; CallOnClose]
    end
  else [].

(** The inputs of the state machine, and what an observer sees of it. *)
Inductive Input (C : Type) :=
| OpenModal (config : Config C)
| Press (c : Click).
Arguments OpenModal {C}.
Arguments Press {C}.

Inductive Output (C : Type) :=
| Invoke (callback : C)
| Close.
Arguments Invoke {C}.
Arguments Close {C}.

(** A page passes [onConfirm={modalState.onConfirm}] and
    [onClose={closeModal}]: the calls of one click act on the state the
    component was rendered with. *)
Fixpoint perform {C} (config : Config C) (st : ModalState C)
    (cs : list PropCall) : ModalState C * list (Output C) :=
  match cs with
  | [] => (st, [])
  | CallOnConfirm :: cs' =>
      let '(st', out) := perform config st cs' in
      (st', Invoke (onConfirm config) :: out)
  | CallOnClose :: cs' =>
      let '(st', out) := perform config (closeModal st) cs' in
      (st', Close :: out)
  end.

Definition step {C} (st : ModalState C) (i : Input C)
    : ModalState C * list (Output C) :=
  match i with
  | OpenModal config => (openModal config st, [])
  | Press c =>
      match st with
      | Closed => (st, [])
      | Open config => perform config st (clicked (isOpen st) c)
      end
  end.

Fixpoint steps {C} (st : ModalState C) (inputs : list (Input C))
    : ModalState C * list (Output C) :=
  match inputs with
  | [] => (st, [])
  | i :: inputs' =>
      let '(st1, out1) := step st i in
      let '(st2, out2) := steps st1 inputs' in
      (st2, out1 ++ out2)
  end.

(** The outputs in which every invocation of a callback is followed at
    once by a close; [pending] tells that the output before was an
    invocation. *)
Fixpoint well_closed {C} (pending : bool) (out : list (Output C)) : bool :=
  match out with
  | [] => negb pending
  | Invoke _ :: out' => negb pending && well_closed true out'
  | Close :: out' => well_closed false out'
  end.

(** The configurations the inputs open the modal with, in order. *)
Definition opened {C} (inputs : list (Input C)) : list (Config C) :=
  omap (fun i => match i with OpenModal config => Some config | _ => None end)
       inputs.

End ConfirmModal.

(** ** LearningPlanPage *)

Module LearningPlanPage.

(** What the confirm button of the page's modal will run: the closure that
    [handleDelete] builds, with the variables it captured. *)
Record DeleteClosure := mkDeleteClosure {
  dc_planId : Prim;
  dc_currentUser : option User.t;
  dc_learningPlans : list Item.t
}.

Record State := mkState {
  learningPlans : list Item.t;
  loading : bool;
  isSubmitting : bool;
  editingPlan : option Item.t;
  modalState : ConfirmModal.ModalState DeleteClosure;
  resets : nat  (* how often the form was reset *)
}.

Definition initial : State :=
  mkState [] true false None ConfirmModal.Closed 0.

Definition setLearningPlans (l : list Item.t) : M State unit :=
  set_page (fun s =>
    mkState l (loading s) (isSubmitting s) (editingPlan s) (modalState s)
            (resets s)).

Definition setLoading (b : bool) : M State unit :=
  set_page (fun s =>
    mkState (learningPlans s) b (isSubmitting s) (editingPlan s)
            (modalState s) (resets s)).

Definition setIsSubmitting (b : bool) : M State unit :=
  set_page (fun s =>
    mkState (learningPlans s) (loading s) b (editingPlan s) (modalState s)
            (resets s)).

Definition setEditingPlan (p : option Item.t) : M State unit :=
  set_page (fun s =>
    mkState (learningPlans s) (loading s) (isSubmitting s) p (modalState s)
            (resets s)).

Definition setModalState
    (f : ConfirmModal.ModalState DeleteClosure ->
         ConfirmModal.ModalState DeleteClosure) : M State unit :=
  set_page (fun s =>
    mkState (learningPlans s) (loading s) (isSubmitting s) (editingPlan s)
            (f (modalState s)) (resets s)).

Definition reset : M State unit :=
  set_page (fun s =>
    mkState (learningPlans s) (loading s) (isSubmitting s) (editingPlan s)
            (modalState s) (S (resets s))).

Section Handlers.
Variable gw : Gateway.
Variable currentUser : option User.t.

Definition fetchLearningPlans : M State unit :=
  setLoading true;;
  try_finally
    (try_catch
       (data ← request (GetAllLearningPlans (User.token <$> currentUser))
                 (getAllLearningPlans gw (User.token <$> currentUser));
        setLearningPlans data)
       (fun _ => toast_error "Failed to load learning plans"))
    (setLoading false).

Definition handlePlanSubmit (data : PlanForm) : M State unit :=
  s ← get_page;
  match currentUser with
  | None => toast_error "You must be logged in to share a learning plan"
  | Some cu =>
      if blank (pf_title data) || blank (pf_description data) then
        toast_error "Title and description are required"
      else
        setIsSubmitting true;;
        try_finally
          (try_catch
             (let planData :=
                Build_PlanData (User.id cu) (User.name cu)
                               (User.profileImage cu) data in
              response ← request
                (CreateLearningPlan (User.id cu) planData (User.token cu))
                (createLearningPlan gw (User.id cu) planData (User.token cu));
              toast_success "Learning plan shared successfully";;
              setLearningPlans (response :: learningPlans s);;
              reset)
             (fun _ => toast_error "Failed to share learning plan"))
          (setIsSubmitting false)
  end.

(** [learningPlans.find(p => p.id === planId)?.likes?.some(like =>
    like.userId === currentUser.id)]; the result is used as a condition,
    and [undefined] counts as false. *)
Definition isLiked (cu : User.t) (planId : Prim) (plans : list Item.t)
    : bool :=
  match find (fun p => bool_decide (Item.id p = planId)) plans with
  | Some p =>
      existsb (fun like => bool_decide (Like.userId like = User.id cu))
              (Item.likes p)
  | None => false
  end.

Definition handleLike (planId : Prim) : M State unit :=
  s ← get_page;
  match currentUser with
  | None => toast_error "You must be logged in to like this plan"
  | Some cu =>
      try_catch
        (if isLiked cu planId (learningPlans s) then
           request (RemoveLike planId (User.id cu) (User.token cu))
                   (removeLike gw planId (User.id cu) (User.token cu));;
           setLearningPlans
             (map (fun plan =>
                     if decide (Item.id plan = planId) then
                       Item.with_likes
                         (filter (fun like => Like.userId like <> User.id cu)
                                 (Item.likes plan))
                         plan
                     else plan)
                  (learningPlans s))
         else
           let likeData := Like.mk (User.id cu) (User.name cu) in
           response ← request (AddLike planId likeData (User.token cu))
                        (addLike gw planId likeData (User.token cu));
           setLearningPlans
             (map (fun plan =>
                     if decide (Item.id plan = planId) then response
                     else plan)
                  (learningPlans s)))
        (fun _ => toast_error "Failed to process like")
  end.

Definition handleAddComment (planId : Prim) (commentData : CommentData)
    : M State unit :=
  s ← get_page;
  match currentUser with
  | None => toast_error "You must be logged in to comment"
  | Some cu =>
      try_catch
        (response ← request (AddComment planId commentData (User.token cu))
                      (addComment gw planId commentData (User.token cu));
         setLearningPlans
           (map (fun plan =>
                   if decide (Item.id plan = planId) then response
                   else plan)
                (learningPlans s)))
        (fun error => toast_error "Failed to add comment";; throw error)
  end.

(** [now] is what [new Date()] reads. *)
Definition handleUpdateComment (now : Z) (planId commentId : Prim)
    (updatedContent : string) : M State unit :=
  s ← get_page;
  setLearningPlans
    (map (fun plan =>
            if decide (Item.id plan = planId) then
              Item.with_comments
                (map (fun comment =>
                        if decide (Comment.id comment = commentId) then
                          Comment.edit updatedContent now comment
                        else comment)
                     (Item.comments plan))
                plan
            else plan)
         (learningPlans s)).

Definition handleDeleteComment (planId commentId : Prim) : M State unit :=
  s ← get_page;
  setLearningPlans
    (map (fun plan =>
            if decide (Item.id plan = planId) then
              Item.with_comments
                (filter (fun comment => Comment.id comment <> commentId)
                        (Item.comments plan))
                plan
            else plan)
         (learningPlans s)).

Definition handleEdit (plan : Item.t) : M State unit :=
  setEditingPlan (Some plan).

Definition handlePlanUpdated : M State unit :=
  fetchLearningPlans;;
  setEditingPlan None.

Definition handleDelete (planId : Prim) : M State unit :=
  s ← get_page;
  setModalState
    (ConfirmModal.openModal
       (ConfirmModal.mkConfig
          "Delete Learning Plan"
          "Are you sure you want to delete this learning plan? This action cannot be undone."
          "Delete" "Cancel" "danger"
          (mkDeleteClosure planId currentUser (learningPlans s)))).

End Handlers.

(** The body of the [onConfirm] closure of [handleDelete]. *)
Definition onConfirm (gw : Gateway) (c : DeleteClosure) : M State unit :=
  try_catch
    (cu ← deref (dc_currentUser c);
     request (DeleteLearningPlan (dc_planId c) (User.token cu))
             (deleteLearningPlan gw (dc_planId c) (User.token cu));;
     setLearningPlans
       (filter (fun plan => Item.id plan <> dc_planId c)
               (dc_learningPlans c));;
     toast_success "Learning plan deleted")
    (fun _ => toast_error "Failed to delete learning plan").

(** A click on the page's [ConfirmModal]: [onConfirm] is the callback of
    the modal state, [onClose] is [closeModal].  The callback is [async]
    and is not awaited. *)
Definition effect (gw : Gateway) (o : ConfirmModal.Output DeleteClosure)
    : M State unit :=
  match o with
  | ConfirmModal.Invoke c => detached (onConfirm gw c)
  | ConfirmModal.Close => setModalState ConfirmModal.closeModal
  end.

Fixpoint effects (gw : Gateway)
    (os : list (ConfirmModal.Output DeleteClosure)) : M State unit :=
  match os with
  | [] => ret tt
  | o :: os' => effect gw o;; effects gw os'
  end.

Definition press (gw : Gateway) (c : ConfirmModal.Click) : M State unit :=
  s ← get_page;
  effects gw (snd (ConfirmModal.step (modalState s) (ConfirmModal.Press c))).

End LearningPlanPage.

(** ** CommentComponent *)

(** The handlers of [CommentForm] and [Comment].  The component is used
    inside a page with state [S], and is given the page's callbacks.  Its
    own cells [isSubmitting], [isEditing] and [isDeleting] only disable
    buttons; no handler branches on them, and they are left out.  The
    state of the component's own modal is passed explicitly. *)
Module CommentComponent.
Section Component.
Context {S : Type}.
Variable gw : Gateway.
Variable now : Z.  (* what [new Date()] reads *)

(** [CommentForm]'s [onSubmit] *)
Definition onSubmit (postId : Prim)
    (onAddComment : Prim -> CommentData -> M S unit)
    (currentUser : option User.t) (commentText : string) : M S unit :=
  if blank commentText then ret tt
  else
    try_catch
      (cu ← deref currentUser;
       let commentData :=
         Build_CommentData (User.id cu) (User.name cu) commentText in
       onAddComment postId commentData)
      (fun _ => ret tt).

(** The properties of a [Comment]. *)
Record Props := mkProps {
  comment : Comment.t;
  postId : Prim;
  currentUser : option User.t;
  onCommentUpdated : Prim -> Prim -> string -> M S unit;
  onCommentDeleted : Prim -> Prim -> M S unit;
  token : option string;
  commentType : CommentType
}.

Definition known (ty : CommentType) : bool :=
  match ty with
  | SKILL_SHARING | LEARNING_PROGRESS | LEARNING_PLANS => true
  | OtherType _ => false
  end.

(** The body of the [onConfirm] closure of [handleDelete]. *)
Definition onConfirm (p : Props) : M S unit :=
  try_catch
    (if known (commentType p) then
       cu ← deref (currentUser p);
       request
         (DeleteComment (commentType p) (postId p) (Comment.id (comment p))
                        (User.id cu) (token p))
         (deleteComment gw (commentType p) (postId p) (Comment.id (comment p))
                        (User.id cu) (token p));;
       detached (onCommentDeleted p (postId p) (Comment.id (comment p)));;
       toast_success "Comment deleted"
     else
       toast_error "Invalid comment type")
    (fun _ => toast_error "Failed to delete comment").

Definition handleDelete (p : Props)
    (st : ConfirmModal.ModalState (M S unit))
    : ConfirmModal.ModalState (M S unit) :=
  ConfirmModal.openModal
    (ConfirmModal.mkConfig
       "Delete Comment"
       "Are you sure you want to delete this comment? This action cannot be undone."
       "Delete" "Cancel" "danger" (onConfirm p))
    st.

Definition handleUpdate (p : Props) (updatedContent : string) : M S unit :=
  if blank updatedContent then ret tt
  else
    try_catch
      (let updatedComment :=
         Comment.edit updatedContent now (comment p) in
       if known (commentType p) then
         request
           (UpdateComment (commentType p) (postId p) (Comment.id (comment p))
                          updatedComment (token p))
           (updateComment gw (commentType p) (postId p)
                          (Comment.id (comment p)) updatedComment (token p));;
         detached
           (onCommentUpdated p (postId p) (Comment.id (comment p))
                             updatedContent);;
         toast_success "Comment updated"
       else
         toast_error "Invalid comment type")
      (fun _ => toast_error "Failed to update comment").

(** A click on the component's [ConfirmModal]. *)
Fixpoint effects (os : list (ConfirmModal.Output (M S unit))) : M S unit :=
  match os with
  | [] => ret tt
  | ConfirmModal.Invoke callback :: os' => detached callback;; effects os'
  | ConfirmModal.Close :: os' => effects os'
  end.

Definition press (st : ConfirmModal.ModalState (M S unit))
    (c : ConfirmModal.Click)
    : M S (ConfirmModal.ModalState (M S unit)) :=
  let '(st', os) := ConfirmModal.step st (ConfirmModal.Press c) in
  effects os;;
  ret st'.

End Component.
End CommentComponent.

(** ** EventsPage *)

Module EventsPage.

Record State := mkState {
  events : list Item.t;
  loading : bool;
  error : option Exn;  (* the exception whose message the cell holds *)
  modalOpen : bool;
  editData : option EventForm
}.

Definition initial : State := mkState [] true None false None.

Definition setEvents (l : list Item.t) : M State unit :=
  set_page (fun s =>
    mkState l (loading s) (error s) (modalOpen s) (editData s)).

Definition setLoading (b : bool) : M State unit :=
  set_page (fun s =>
    mkState (events s) b (error s) (modalOpen s) (editData s)).

Definition setError (e : option Exn) : M State unit :=
  set_page (fun s =>
    mkState (events s) (loading s) e (modalOpen s) (editData s)).

Definition setModalOpen (b : bool) : M State unit :=
  set_page (fun s =>
    mkState (events s) (loading s) (error s) b (editData s)).

Definition setEditData (d : option EventForm) : M State unit :=
  set_page (fun s =>
    mkState (events s) (loading s) (error s) (modalOpen s) d).

(** [data.id] as a condition. *)
Definition has_id (data : EventForm) : bool :=
  match ev_id data with
  | Some i => truthy i
  | None => false
  end.

Section Handlers.
Variable gw : Gateway.
Variable currentUser : option User.t.

(** The effect that runs when the page is mounted. *)
Definition mount : M State unit :=
  try_finally
    (try_catch
       (data ← request EventsGet (eventsGet gw);
        setEvents data)
       (fun err => setError (Some err)))
    (setLoading false).

(** The request is built before the promise chain starts: reading
    [currentUser.id] happens outside every handler of the chain. *)
Definition handleSubmit (data : EventForm) : M State unit :=
  cu ← deref currentUser;
  try_finally
    (try_catch
       (match ev_id data with
        | Some i =>
            if truthy i then
              request (EventsPut i (User.id cu) data)
                      (eventsPut gw i (User.id cu) data);;
              ret tt
            else
              request (EventsPost (User.id cu) data)
                      (eventsPost gw (User.id cu) data);;
              ret tt
        | None =>
            request (EventsPost (User.id cu) data)
                    (eventsPost gw (User.id cu) data);;
            ret tt
        end;;
        toast_success
          (if has_id data then "Event updated successfully!"
           else "Event created successfully!");;
        res ← request EventsGet (eventsGet gw);
        setEvents res)
       (fun _ =>
          toast_error
            (if has_id data then "Failed to update event."
             else "Failed to create event.")))
    (setModalOpen false;; setEditData None).

Definition handleDelete (id : Prim) : M State unit :=
  s ← get_page;
  cu ← deref currentUser;
  try_catch
    (request (EventsDelete id (User.id cu)) (eventsDelete gw id (User.id cu));;
     setEvents (filter (fun e => Item.id e <> id) (events s));;
     toast_success "Event deleted successfully!")
    (fun _ => toast_error "Failed to delete event.").

Definition handleRegister (id : Prim) : M State unit :=
  cu ← deref currentUser;
  try_catch
    (request (EventsRegister id (User.id cu))
             (eventsRegister gw id (User.id cu));;
     toast_success "Registered successfully!")
    (fun _ => toast_error "Failed to register for event.").

End Handlers.
End EventsPage.

(** ** ResourcesPage *)

Module ResourcesPage.

Record State := mkState {
  resources : list Item.t;
  loading : bool;
  error : option Exn;  (* the exception whose message the cell holds *)
  showCreate : bool;
  newTitle : string;
  newDescription : string;
  newUrl : string;
  editingId : option Prim;
  editTitle : string;
  editDescription : string;
  editUrl : string
}.

Definition initial : State :=
  mkState [] true None false "" "" "" None "" "" "".

(** [setResources(prev => f(prev))]: the new value is computed from the
    value the cell has when the update is made. *)
Definition setResources (f : list Item.t -> list Item.t) : M State unit :=
  set_page (fun s =>
    mkState (f (resources s)) (loading s) (error s) (showCreate s)
            (newTitle s) (newDescription s) (newUrl s) (editingId s)
            (editTitle s) (editDescription s) (editUrl s)).

Definition setLoading (b : bool) : M State unit :=
  set_page (fun s =>
    mkState (resources s) b (error s) (showCreate s)
            (newTitle s) (newDescription s) (newUrl s) (editingId s)
            (editTitle s) (editDescription s) (editUrl s)).

Definition setError (e : option Exn) : M State unit :=
  set_page (fun s =>
    mkState (resources s) (loading s) e (showCreate s)
            (newTitle s) (newDescription s) (newUrl s) (editingId s)
            (editTitle s) (editDescription s) (editUrl s)).

(** [setShowCreate(false); setNewTitle(''); setNewDescription('');
    setNewUrl('');] *)
Definition closeCreate : M State unit :=
  set_page (fun s =>
    mkState (resources s) (loading s) (error s) false "" "" "" (editingId s)
            (editTitle s) (editDescription s) (editUrl s)).

Definition setEditingId (i : option Prim) : M State unit :=
  set_page (fun s =>
    mkState (resources s) (loading s) (error s) (showCreate s)
            (newTitle s) (newDescription s) (newUrl s) i
            (editTitle s) (editDescription s) (editUrl s)).

(** [data.resources] for a parsed body [data]: reading a property of
    [null] throws; a boolean, a number, a string and an array have no such
    property; an object has it when it was in the JSON text. *)
Fixpoint property (name : string) (props : list (string * Body))
    : option Body :=
  match props with
  | [] => None
  | (k, v) :: props' =>
      if String.eqb k name then Some v else property name props'
  end.

Definition get_resources {S} (data : Body) : M S (option Body) :=
  match data with
  | BNull => throw TypeError
  | BObj props => ret (property "resources" props)
  | BBool _ | BNum _ | BStr _ | BArr _ => ret None
  end.

(** [Array.isArray(data) ? data : Array.isArray(data.resources) ?
    data.resources : []] *)
Definition normalize {S} (data : Body) : M S (list Item.t) :=
  match data with
  | BArr l => ret l
  | _ =>
      r ← get_resources data;
      match r with
      | Some (BArr l) => ret l
      | _ => ret []
      end
  end.

Section Handlers.
Variable gw : Gateway.
Variable currentUser : option User.t.

Definition fetchResources : M State unit :=
  setLoading true;;
  try_finally
    (try_catch
       (data ← request ResourcesGet (resourcesGet gw);
        list ← normalize data;
        setResources (fun _ => list);;
        toast_success "Resources Loaded Successfully")
       (fun err =>
          setError (Some err);;
          toast_error "Failed to load resources"))
    (setLoading false).

Definition handleCreate : M State unit :=
  s ← get_page;
  try_catch
    (let payload :=
       Build_ResourcePayload (newTitle s) (newDescription s) (newUrl s) in
     cu ← deref currentUser;
     data ← request (ResourcesPost (User.id cu) payload)
               (resourcesPost gw (User.id cu) payload);
     setResources (fun prev => data :: prev);;
     toast_success "Resource created";;
     closeCreate)
    (fun _ => toast_error "Failed to create").

Definition startEdit (resource : Item.t) : M State unit :=
  set_page (fun s =>
    mkState (resources s) (loading s) (error s) (showCreate s)
            (newTitle s) (newDescription s) (newUrl s)
            (Some (Item.id resource)) (Item.field "title" resource)
            (Item.field "description" resource) (Item.field "url" resource)).

Definition handleUpdate : M State unit :=
  s ← get_page;
  try_catch
    (let payload :=
       Build_ResourcePayload (editTitle s) (editDescription s) (editUrl s) in
     cu ← deref currentUser;
     data ← request (ResourcesPut (editingId s) (User.id cu) payload)
               (resourcesPut gw (editingId s) (User.id cu) payload);
     setResources
       (map (fun r =>
               if decide (Some (Item.id r) = editingId s) then data else r));;
     toast_success "Resource updated";;
     setEditingId None)
    (fun _ => toast_error "Failed to update").

(** [answer] is what the user answers to [window.confirm]. *)
Definition handleDelete (answer : bool) (id : Prim) : M State unit :=
  ok ← window_confirm "Are you sure you want to delete this resource?" answer;
  if negb ok then ret tt
  else
    try_catch
      (cu ← deref currentUser;
       request (ResourcesDelete id (User.id cu))
               (resourcesDelete gw id (User.id cu));;
       setResources (filter (fun r => Item.id r <> id));;
       toast_success "Resource deleted")
      (fun _ => toast_error "Failed to delete resource").

End Handlers.
End ResourcesPage.

(** ** The by-id map on object references *)

(** The store of a page is an array of references to item objects.  Here
    the objects live in a heap, addressed by position; an object literal
    allocates at the end of the heap, and nothing ever writes to an
    address that is in use.  The arrays [likes] and [comments] of an item
    are kept as values inside the item object. *)
Module Ref.

Definition loc := nat.
Definition Heap := list Item.t.

Definition alloc (o : Item.t) (h : Heap) : Heap * loc :=
  (h ++ [o], length h).

(** An updater is given the reference of the matching item and answers
    with the reference of its replacement. *)
Definition Updater := Heap -> loc -> Heap * loc.

(** [items.map(item => item.id === id ? updater(item) : item)] *)
Fixpoint patchById (id : Prim) (updater : Updater) (h : Heap)
    (items : list loc) : Heap * list loc :=
  match items with
  | [] => (h, [])
  | l :: rest =>
      let '(h1, l') :=
        match h !! l with
        | Some o => if decide (Item.id o = id) then updater h l else (h, l)
        | None => (h, l)
        end in
      let '(h2, rest') := patchById id updater h1 rest in
      (h2, l' :: rest')
  end.

(** [item => ({...item, ...})]: a fresh object with the fields [f]
    computes from the old one. *)
Definition copy (f : Item.t -> Item.t) : Updater :=
  fun h l =>
    match h !! l with
    | Some o => alloc (f o) h
    | None => (h, l)
    end.

(** [item => data], for an object [data] that exists already. *)
Definition const (data : loc) : Updater := fun h _ => (h, data).

(** An updater that allocates and writes to no object in use. *)
Definition pure (updater : Updater) : Prop :=
  forall h l, exists ext, fst (updater h l) = h ++ ext.

(** The by-id maps of the handlers. *)
Definition handleUpdateComment (now : Z) (planId commentId : Prim)
    (updatedContent : string) : Heap -> list loc -> Heap * list loc :=
  patchById planId
    (copy (fun plan =>
             Item.with_comments
               (map (fun comment =>
                       if decide (Comment.id comment = commentId) then
                         Comment.edit updatedContent now comment
                       else comment)
                    (Item.comments plan))
               plan)).

Definition handleDeleteComment (planId commentId : Prim)
    : Heap -> list loc -> Heap * list loc :=
  patchById planId
    (copy (fun plan =>
             Item.with_comments
               (filter (fun comment => Comment.id comment <> commentId)
                       (Item.comments plan))
               plan)).

(** [prev.map(r => (r.id === editingId ? data : r))] of [ResourcesPage],
    for an [editingId] that is set. *)
Definition handleUpdate (editingId : Prim) (data : loc)
    : Heap -> list loc -> Heap * list loc :=
  patchById editingId (const data).

(** The values an array of references stands for. *)
Definition reads (h : Heap) (items : list loc) (values : list Item.t)
    : Prop :=
  Forall2 (fun l o => h !! l = Some o) items values.

End Ref.

(** ** The operations of the reconciler, side by side *)

Module Reconciler.

(** One constructor per operation, with its arguments and the state of
    the page it starts from.  The comment operations are those of a
    comment shown on the learning plan page, which hands its handlers
    [handleAddComment], [handleUpdateComment] and [handleDeleteComment]
    down to the component. *)
Inductive Op :=
| PlanFetch (s : LearningPlanPage.State)
| PlanCreate (data : PlanForm) (s : LearningPlanPage.State)
| PlanLike (planId : Prim) (s : LearningPlanPage.State)
| PlanAddComment (planId : Prim) (commentData : CommentData)
    (s : LearningPlanPage.State)
| PlanUpdateComment (now : Z) (planId commentId : Prim)
    (updatedContent : string) (s : LearningPlanPage.State)
| PlanDeleteComment (planId commentId : Prim) (s : LearningPlanPage.State)
| PlanDelete (planId : Prim) (c : ConfirmModal.Click)
    (s : LearningPlanPage.State)
| CommentSubmit (postId : Prim) (commentText : string)
    (s : LearningPlanPage.State)
| CommentUpdate (now now' : Z) (comment : Comment.t) (postId : Prim)
    (ty : CommentType) (updatedContent : string) (s : LearningPlanPage.State)
| CommentDelete (comment : Comment.t) (postId : Prim) (ty : CommentType)
    (c : ConfirmModal.Click) (s : LearningPlanPage.State)
| EventSubmit (data : EventForm) (s : EventsPage.State)
| EventDelete (id : Prim) (s : EventsPage.State)
| EventRegister (id : Prim) (s : EventsPage.State)
| ResourceFetch (s : ResourcesPage.State)
| ResourceCreate (s : ResourcesPage.State)
| ResourceUpdate (s : ResourcesPage.State)
| ResourceDelete (answer : bool) (id : Prim) (s : ResourcesPage.State).

(** What is observed of one operation: the store before and after, whether
    the handler ended with an exception, and the events of the run. *)
Record Summary := mkSummary {
  before : list Item.t;
  after : list Item.t;
  raised : bool;
  events : list Event
}.

Definition summary {S A} (store : S -> list Item.t) (s : S)
    (r : Outcome A * World S) : Summary :=
  mkSummary (store s) (store (page (snd r)))
            (match fst r with Thrown _ => true | Returned _ => false end)
            (trace (snd r)).

(** The properties the learning plan page gives a comment. *)
Definition props (currentUser : option User.t) (now' : Z)
    (comment : Comment.t) (postId : Prim) (ty : CommentType)
    : CommentComponent.Props :=
  CommentComponent.mkProps comment postId currentUser
    (LearningPlanPage.handleUpdateComment now')
    LearningPlanPage.handleDeleteComment
    (User.token <$> currentUser) ty.

Definition exec (gw : Gateway) (currentUser : option User.t) (op : Op)
    : Summary :=
  match op with
  | PlanFetch s =>
      summary LearningPlanPage.learningPlans s
        (run (LearningPlanPage.handlePlanUpdated gw currentUser) s)
  | PlanCreate data s =>
      summary LearningPlanPage.learningPlans s
        (run (LearningPlanPage.handlePlanSubmit gw currentUser data) s)
  | PlanLike planId s =>
      summary LearningPlanPage.learningPlans s
        (run (LearningPlanPage.handleLike gw currentUser planId) s)
  | PlanAddComment planId commentData s =>
      summary LearningPlanPage.learningPlans s
        (run (LearningPlanPage.handleAddComment gw currentUser planId
                commentData) s)
  | PlanUpdateComment now planId commentId updatedContent s =>
      summary LearningPlanPage.learningPlans s
        (run (LearningPlanPage.handleUpdateComment now planId commentId
                updatedContent) s)
  | PlanDeleteComment planId commentId s =>
      summary LearningPlanPage.learningPlans s
        (run (LearningPlanPage.handleDeleteComment planId commentId) s)
  | PlanDelete planId c s =>
      summary LearningPlanPage.learningPlans s
        (run (LearningPlanPage.handleDelete currentUser planId;;
              LearningPlanPage.press gw c) s)
  | CommentSubmit postId commentText s =>
      summary LearningPlanPage.learningPlans s
        (run (CommentComponent.onSubmit postId
                (LearningPlanPage.handleAddComment gw currentUser)
                currentUser commentText) s)
  | CommentUpdate now now' comment postId ty updatedContent s =>
      summary LearningPlanPage.learningPlans s
        (run (CommentComponent.handleUpdate gw now
                (props currentUser now' comment postId ty)
                updatedContent) s)
  | CommentDelete comment postId ty c s =>
      summary LearningPlanPage.learningPlans s
        (run (CommentComponent.press
                (CommentComponent.handleDelete gw
                   (props currentUser 0 comment postId ty)
                   ConfirmModal.Closed)
                c) s)
  | EventSubmit data s =>
      summary EventsPage.events s
        (run (EventsPage.handleSubmit gw currentUser data) s)
  | EventDelete id s =>
      summary EventsPage.events s
        (run (EventsPage.handleDelete gw currentUser id) s)
  | EventRegister id s =>
      summary EventsPage.events s
        (run (EventsPage.handleRegister gw currentUser id) s)
  | ResourceFetch s =>
      summary ResourcesPage.resources s
        (run (ResourcesPage.fetchResources gw) s)
  | ResourceCreate s =>
      summary ResourcesPage.resources s
        (run (ResourcesPage.handleCreate gw currentUser) s)
  | ResourceUpdate s =>
      summary ResourcesPage.resources s
        (run (ResourcesPage.handleUpdate gw currentUser) s)
  | ResourceDelete answer id s =>
      summary ResourcesPage.resources s
        (run (ResourcesPage.handleDelete gw currentUser answer id) s)
  end.


(** The operation that has a request after its first one: a submitted
    event is followed by a fetch of the list. *)
Definition refetches (op : Op) : bool :=
  match op with
  | EventSubmit _ _ => true
  | _ => false
  end.

(** The operations that, with no current user, stop before any request
    and say so once: plan create, like-toggle and comment add test for
    the user first; in resource create and update and in the confirmed
    deletes the read of a field of the missing user throws inside the
    handler's [try]. *)
Definition stops_without_user (op : Op) : bool :=
  match op with
  | PlanCreate _ _ | PlanLike _ _ | PlanAddComment _ _ _ => true
  | PlanDelete _ ConfirmModal.ConfirmButton _ => true
  | CommentDelete _ _ _ ConfirmModal.ConfirmButton _ => true
  | ResourceCreate _ | ResourceUpdate _ | ResourceDelete true _ _ => true
  | _ => false
  end.

End Reconciler.

(** ** The invariants of the collection store *)

Definition ids (l : list Item.t) : list Prim := map Item.id l.

Definition likers (x : Item.t) : list Prim := map Like.userId (Item.likes x).

Definition commentIds (x : Item.t) : list Prim :=
  map Comment.id (Item.comments x).

(** At most one like per user. *)
Definition item_inv (x : Item.t) : Prop := NoDup (likers x).

(** Ids are unique within the store, and every item is well formed. *)
Definition store_inv (l : list Item.t) : Prop :=
  NoDup (ids l) /\ Forall item_inv l.

(** What the invariants ask of the server, for a client that holds
    [store]: an item it answers with is well formed; the answer to a
    request about an item is that item; a created item has an id that is
    not in use; a list it answers with satisfies the invariants. *)
Record well_behaved (gw : Gateway) (store : list Item.t) : Prop := {
  wb_list : forall token l,
    getAllLearningPlans gw token = Ok l -> store_inv l;
  wb_create : forall userId planData token r,
    createLearningPlan gw userId planData token = Ok r ->
    item_inv r /\ Item.id r ∉ ids store;
  wb_like : forall planId likeData token r,
    addLike gw planId likeData token = Ok r ->
    item_inv r /\ Item.id r = planId;
  wb_comment : forall planId commentData token r,
    addComment gw planId commentData token = Ok r ->
    item_inv r /\ Item.id r = planId;
  wb_events : forall l, eventsGet gw = Ok l -> store_inv l;
  wb_resources : forall l,
    resourcesGet gw = Ok (BArr l) -> store_inv l;
  wb_resources_obj : forall props l,
    resourcesGet gw = Ok (BObj props) ->
    ResourcesPage.property "resources" props = Some (BArr l) ->
    store_inv l;
  wb_post : forall userId payload r,
    resourcesPost gw userId payload = Ok r ->
    item_inv r /\ Item.id r ∉ ids store;
  wb_put : forall id userId payload r,
    resourcesPut gw (Some id) userId payload = Ok r ->
    item_inv r /\ Item.id r = id
}.

(** An item the gateway answers with. *)
Definition from_server (gw : Gateway) (x : Item.t) : Prop :=
  (exists token l, getAllLearningPlans gw token = Ok l /\ x ∈ l) \/
  (exists userId planData token,
     createLearningPlan gw userId planData token = Ok x) \/
  (exists planId likeData token, addLike gw planId likeData token = Ok x) \/
  (exists planId commentData token,
     addComment gw planId commentData token = Ok x) \/
  (exists l, eventsGet gw = Ok l /\ x ∈ l) \/
  (exists l, resourcesGet gw = Ok (BArr l) /\ x ∈ l) \/
  (exists props l, resourcesGet gw = Ok (BObj props) /\
     ResourcesPage.property "resources" props = Some (BArr l) /\ x ∈ l) \/
  (exists userId payload, resourcesPost gw userId payload = Ok x) \/
  (exists id userId payload, resourcesPut gw id userId payload = Ok x).

(** The comments of [x'] are comments of [x], in the order they have in
    [x]. *)
Definition keeps_comment_order (x x' : Item.t) : Prop :=
  Item.id x' = Item.id x /\ commentIds x' `sublist_of` commentIds x.

(** What an operation that takes the store from [l] to [l'] keeps: the
    invariants hold of [l'], and every item of [l'] came from the server
    or is an item of [l], under its id, with comments of that item in
    their order. *)
Definition preserved (gw : Gateway) (l l' : list Item.t) : Prop :=
  store_inv l' /\
  forall x', x' ∈ l' ->
    from_server gw x' \/ exists x, x ∈ l /\ keeps_comment_order x x'.

(** ** Like-toggle against a server that keeps the likes *)

(** The answers like-toggle needs from the gateway when the client holds
    [plans]: remove-like succeeds, and add-like answers with the item
    asked about, liked by exactly the users who liked it and the viewer. *)
Definition faithful (gw : Gateway) (cu : User.t) (planId : Prim)
    (plans : list Item.t) : Prop :=
  succeeded (removeLike gw planId (User.id cu) (User.token cu)) /\
  forall item,
    find (fun p => bool_decide (Item.id p = planId)) plans = Some item ->
    exists r,
      addLike gw planId (Like.mk (User.id cu) (User.name cu)) (User.token cu)
        = Ok r /\
      Item.id r = planId /\
      forall u, u ∈ likers r <-> u ∈ likers item \/ u = User.id cu.

(** ** Gateways and inputs for examples *)

Module Examples.

(** A gateway that answers the requests [ok] selects, with [item] where
    an item is expected, [items] where a list is, and [body] elsewhere;
    every other request fails. *)
Definition answering (ok : Request -> bool) (item : Item.t)
    (items : list Item.t) (body : Body) : Gateway :=
  let answer {A} (r : Request) (a : A) : Resp A :=
    if ok r then Ok a else Fail NetworkError in
  {| getAllLearningPlans token := answer (GetAllLearningPlans token) items;
     createLearningPlan u d t := answer (CreateLearningPlan u d t) item;
     deleteLearningPlan p t := answer (DeleteLearningPlan p t) body;
     addLike p l t := answer (AddLike p l t) item;
     removeLike p u t := answer (RemoveLike p u t) body;
     addComment p c t := answer (AddComment p c t) item;
     updateComment ty p c x t := answer (UpdateComment ty p c x t) body;
     deleteComment ty p c u t := answer (DeleteComment ty p c u t) body;
     eventsGet := answer EventsGet items;
     eventsPut i u d := answer (EventsPut i u d) body;
     eventsPost u d := answer (EventsPost u d) body;
     eventsDelete i u := answer (EventsDelete i u) body;
     eventsRegister i u := answer (EventsRegister i u) body;
     resourcesGet := answer ResourcesGet body;
     resourcesPost u x := answer (ResourcesPost u x) item;
     resourcesPut i u x := answer (ResourcesPut i u x) item;
     resourcesDelete i u := answer (ResourcesDelete i u) body |}.

Definition offline : Gateway := answering (fun _ => false)
  (Item.mk (PNum 0) (PNum 0) "" [] 0 0 [] []) [] BNull.

(** The viewer ["u1"] and the item [{id: 1, likes: []}]. *)
Definition u1 : User.t := User.mk (PStr "u1") "Una" "" "token-u1".

Definition plan1 : Item.t := Item.mk (PNum 1) (PStr "u0") "Olu" [] 0 0 [] [].

Definition plan2 : Item.t :=
  Item.mk (PNum 2) (PStr "u1") "Una" [] 0 0 []
    [Comment.mk (PNum 7) (PStr "u1") "Una" "first" 5 5;
     Comment.mk (PNum 8) (PStr "u0") "Olu" "second" 6 6].

(** [{id: 1, likes: [{userId: "u1"}]}] *)
Definition plan1_liked : Item.t :=
  Item.with_likes [Like.mk (PStr "u1") "Una"] plan1.

(** A server on which like and unlike of item 1 succeed. *)
Definition likes_server : Gateway :=
  answering
    (fun r =>
       match r with
       | AddLike p _ _ | RemoveLike p _ _ => bool_decide (p = PNum 1)
       | _ => false
       end)
    plan1_liked [] BNull.

Definition page1 : LearningPlanPage.State :=
  LearningPlanPage.mkState [plan1] false false None ConfirmModal.Closed 0.

Definition page12 : LearningPlanPage.State :=
  LearningPlanPage.mkState [plan1; plan2] false false None
    ConfirmModal.Closed 0.

Definition new_event : EventForm :=
  Build_EventForm None "Meetup" "Study group" "2025-05-01" "Library"
                  "study" "10".


(** A server that answers every request. *)
Definition online : Gateway := answering (fun _ => true) plan1 [plan1] BNull.

Definition events12 : EventsPage.State :=
  EventsPage.mkState [plan1; plan2] false None false None.

Definition resources12 : ResourcesPage.State :=
  ResourcesPage.mkState [plan1; plan2] false None false "" "" "" None "" ""
    "".

(** A server that answers the list of resources with [null]. *)
Definition null_server : Gateway :=
  answering (fun r => match r with ResourcesGet => true | _ => false end)
            plan1 [] BNull.

Definition comment7 : Comment.t :=
  Comment.mk (PNum 7) (PStr "u1") "Una" "first" 5 5.

(** A configuration of the modal whose callback is the number [n]. *)
Definition ask (n : nat) : ConfirmModal.Config nat :=
  ConfirmModal.mkConfig "Delete" "Are you sure?" "Delete" "Cancel" "danger" n.

End Examples.

(** ** Strings as the pages use them *)

Module Str.

(** One code unit of [s.toLowerCase()], for code units below 256: the
    letters A to Z, and the capital letters of the Latin-1 range (all of
    192 to 222 but the multiplication sign), move up by 32. *)
Definition toLowerChar (c : Ascii.ascii) : Ascii.ascii :=
  let n := Ascii.nat_of_ascii c in
  if ((65 <=? n) && (n <=? 90)
      || (192 <=? n) && (n <=? 222) && negb (n =? 215))%nat
  then Ascii.ascii_of_nat (n + 32)
  else c.

Fixpoint toLowerCase (s : string) : string :=
  match s with
  | EmptyString => EmptyString
  | String c s' => String (toLowerChar c) (toLowerCase s')
  end.

(** [s.startsWith(q)] *)
Fixpoint startsWith (s q : string) : bool :=
  match q, s with
  | EmptyString, _ => true
  | String _ _, EmptyString => false
  | String b q', String a s' => Ascii.eqb a b && startsWith s' q'
  end.

(** [s.includes(q)] *)
Fixpoint includes (s q : string) : bool :=
  startsWith s q ||
  match s with
  | EmptyString => false
  | String _ s' => includes s' q
  end.

(** The character [_]. *)
Definition underscore : Ascii.ascii := Ascii.ascii_of_nat 95.

(** [s.replace(/\s+/g, '_')]: every maximal run of white space becomes
    one underscore; [inRun] tells that the character before was white
    space. *)
Fixpoint underscored (inRun : bool) (s : string) : string :=
  match s with
  | EmptyString => EmptyString
  | String c s' =>
      if is_space c then
        if inRun then underscored true s'
        else String underscore (underscored true s')
      else String c (underscored false s')
  end.

(** The characters of a string. *)
Fixpoint chars (s : string) : list Ascii.ascii :=
  match s with
  | EmptyString => []
  | String c s' => c :: chars s'
  end.

End Str.

(** ** What the pages show *)

(** [item.name] for a content field, [None] when the item has no such
    property. *)
Definition prop (name : string) (x : Item.t) : option string :=
  snd <$> find (fun kv => String.eqb (fst kv) name) (Item.fields x).

Module LearningPlanView.

(** The feed of [LearningPlanPage]: a spinner while loading, a note when
    there is no plan, the cards otherwise. *)
Inductive View :=
| Spinner
| NoPlans
| Cards (plans : list Item.t).

Definition render (s : LearningPlanPage.State) : View :=
  if LearningPlanPage.loading s then Spinner
  else if (length (LearningPlanPage.learningPlans s) =? 0)%nat then NoPlans
  else Cards (LearningPlanPage.learningPlans s).

End LearningPlanView.

Module ResourcesView.

(** The callback of the search filter:
    [resource.title.toLowerCase().includes(q) ||
     resource.description.toLowerCase().includes(q)], with
    [q = searchQuery.toLowerCase()]; [None] is the [TypeError] of a call
    on a missing property. *)
Definition matches (searchQuery : string) (resource : Item.t)
    : option bool :=
  match prop "title" resource with
  | None => None
  | Some title =>
      if Str.includes (Str.toLowerCase title) (Str.toLowerCase searchQuery)
      then Some true
      else
        match prop "description" resource with
        | None => None
        | Some description =>
            Some (Str.includes (Str.toLowerCase description)
                               (Str.toLowerCase searchQuery))
        end
  end.

(** [resources.filter(...)] with that callback. *)
Fixpoint filtered (searchQuery : string) (resources : list Item.t)
    : option (list Item.t) :=
  match resources with
  | [] => Some []
  | r :: resources' =>
      match matches searchQuery r with
      | None => None
      | Some b =>
          match filtered searchQuery resources' with
          | None => None
          | Some rest => Some (if b then r :: rest else rest)
          end
      end
  end.

(** What is under the search box: nothing while loading or after an
    error; a note when the store is empty; otherwise one card per
    resource that passes the filter, as an edit form when it is the one
    being edited. *)
Inductive Listing :=
| NoResources
| Cards (cards : list (Item.t * bool)).

Record Page := mkPage {
  loadingNote : bool;
  errorNote : option Exn;
  listing : option Listing
}.

Inductive View :=
| CheckingAuth
| MustLogin
| Shown (p : Page).

(** [None] is a [TypeError] while rendering. *)
Definition render (authLoading : bool) (currentUser : option User.t)
    (searchQuery : string) (s : ResourcesPage.State) : option View :=
  if authLoading then Some CheckingAuth
  else
    match currentUser with
    | None => Some MustLogin
    | Some _ =>
        if negb (ResourcesPage.loading s)
           && bool_decide (ResourcesPage.error s = None) then
          if (length (ResourcesPage.resources s) =? 0)%nat then
            Some (Shown (mkPage (ResourcesPage.loading s)
                                (ResourcesPage.error s) (Some NoResources)))
          else
            match filtered searchQuery (ResourcesPage.resources s) with
            | None => None
            | Some l =>
                Some (Shown
                        (mkPage (ResourcesPage.loading s)
                           (ResourcesPage.error s)
                           (Some (Cards
                                    (map (fun r =>
                                            (r, bool_decide
                                                  (ResourcesPage.editingId s
                                                   = Some (Item.id r))))
                                         l)))))
            end
        else
          Some (Shown (mkPage (ResourcesPage.loading s)
                              (ResourcesPage.error s) None))
    end.

(** The effect of the page: [if (!authLoading && currentUser)
    fetchResources()]. *)
Definition effect (gw : Gateway) (authLoading : bool)
    (currentUser : option User.t) : M ResourcesPage.State unit :=
  if negb authLoading && bool_decide (currentUser <> None) then
    ResourcesPage.fetchResources gw
  else ret tt.

(** The name [handleDownloadPDF] saves the document under, for a resource
    with the title [title]. *)
Definition fileName (title : string) : string :=
  (Str.underscored false title ++ "_resource.pdf")%string.

End ResourcesView.

(** ** Running a handler on a part of the state *)

(** [m] acts on the part [get] reads and [set] writes. *)
Definition focus {T S A} (get : T -> S) (set : S -> T -> T) (m : M S A)
    : M T A :=
  fun w =>
    let r := m (mkWorld (get (page w)) (trace w)) in
    (fst r, mkWorld (set (page (snd r)) (page w)) (trace (snd r))).

(** ** EventsPage with its modal *)

Module EventsView.

Definition emptyForm : EventForm := Build_EventForm None "" "" "" "" "" "".

(** The inputs of [EventModal], by their [name]. *)
Inductive Field :=
| title
| description
| date
| location
| category
| maxParticipants.

(** [setForm({ ...form, [e.target.name]: e.target.value })] *)
Definition handleChange (name : Field) (value : string) (form : EventForm)
    : EventForm :=
  match name with
  | title =>
      Build_EventForm (ev_id form) value (ev_description form) (ev_date form)
        (ev_location form) (ev_category form) (ev_maxParticipants form)
  | description =>
      Build_EventForm (ev_id form) (ev_title form) value (ev_date form)
        (ev_location form) (ev_category form) (ev_maxParticipants form)
  | date =>
      Build_EventForm (ev_id form) (ev_title form) (ev_description form) value
        (ev_location form) (ev_category form) (ev_maxParticipants form)
  | location =>
      Build_EventForm (ev_id form) (ev_title form) (ev_description form)
        (ev_date form) value (ev_category form) (ev_maxParticipants form)
  | category =>
      Build_EventForm (ev_id form) (ev_title form) (ev_description form)
        (ev_date form) (ev_location form) value (ev_maxParticipants form)
  | maxParticipants =>
      Build_EventForm (ev_id form) (ev_title form) (ev_description form)
        (ev_date form) (ev_location form) (ev_category form) value
  end.

(** [{ ...e, id: e.id }], as far as the form reads it. *)
Definition editDataOf (e : Item.t) : EventForm :=
  Build_EventForm (Some (Item.id e)) (Item.field "title" e)
    (Item.field "description" e) (Item.field "date" e)
    (Item.field "location" e) (Item.field "category" e)
    (Item.field "maxParticipants" e).

(** The page and the form that [EventModal] keeps. *)
Record State := mkState {
  eventsPage : EventsPage.State;
  form : EventForm
}.

Definition onPage {A} (m : M EventsPage.State A) : M State A :=
  focus eventsPage (fun p s => mkState p (form s)) m.

Definition setForm (f : EventForm) : M State unit :=
  set_page (fun s => mkState (eventsPage s) f).

(** The effect of [EventModal] on [initialData]: it runs when
    [initialData] has changed, and [editData] goes from an object to
    [null] here ([null] after [null] is no change). *)
Definition cleared (before : option EventForm) (f : EventForm) : EventForm :=
  match before with
  | Some _ => emptyForm
  | None => f
  end.

(** What the page shows: the loading note, the error, or the cards, over
    them the modal when it is open (and whether it edits). *)
Inductive View :=
| LoadingEvents
| ErrorText (e : Exn)
| Cards (events : list Item.t) (modal : option (bool * EventForm)).

Definition render (s : State) : View :=
  if EventsPage.loading (eventsPage s) then LoadingEvents
  else
    match EventsPage.error (eventsPage s) with
    | Some e => ErrorText e
    | None =>
        Cards (EventsPage.events (eventsPage s))
              (if EventsPage.modalOpen (eventsPage s) then
                 Some (bool_decide (EventsPage.editData (eventsPage s)
                                    <> None),
                       form s)
               else None)
    end.

(** What the user can do on the page. *)
Inductive Action :=
| ClickCreate
| ClickEdit (e : Item.t)
| Change (name : Field) (value : string)
| ClickCancel
| Submit
| ClickDelete (id : Prim)
| ClickRegister (id : Prim).

Definition shown (s : State) : bool :=
  match render s with Cards _ _ => true | _ => false end.

Definition modalShown (s : State) : bool :=
  match render s with Cards _ (Some _) => true | _ => false end.

Section Actions.
Variable gw : Gateway.
Variable currentUser : option User.t.

(** One action; an action on something that is not rendered does not
    happen. *)
Definition act (a : Action) : M State unit :=
  s ← get_page;
  match a with
  | ClickCreate =>
      if shown s then onPage (EventsPage.setModalOpen true) else ret tt
  | ClickEdit e =>
      if shown s then
        onPage (EventsPage.setEditData (Some (editDataOf e));;
                EventsPage.setModalOpen true);;
        setForm (editDataOf e)
      else ret tt
  | Change name value =>
      if modalShown s then setForm (handleChange name value (form s))
      else ret tt
  | ClickCancel =>
      if modalShown s then
        onPage (EventsPage.setModalOpen false;; EventsPage.setEditData None);;
        setForm (cleared (EventsPage.editData (eventsPage s)) (form s))
      else ret tt
  | Submit =>
      if modalShown s then
        onPage (EventsPage.handleSubmit gw currentUser (form s));;
        setForm (cleared (EventsPage.editData (eventsPage s)) (form s))
      else ret tt
  | ClickDelete id =>
      if shown s then onPage (EventsPage.handleDelete gw currentUser id)
      else ret tt
  | ClickRegister id =>
      if shown s then onPage (EventsPage.handleRegister gw currentUser id)
      else ret tt
  end.

(** Actions one after the other; an exception that no handler catches
    ends the event it arose in, not the page. *)
Fixpoint acts (l : list Action) : M State unit :=
  match l with
  | [] => ret tt
  | a :: l' => detached (act a);; acts l'
  end.

End Actions.

(** The changes among a list of actions, applied to a form. *)
Fixpoint typed (l : list Action) (f : EventForm) : EventForm :=
  match l with
  | [] => f
  | Change name value :: l' => typed l' (handleChange name value f)
  | _ :: l' => typed l' f
  end.

Definition is_edit (a : Action) : bool :=
  match a with ClickEdit _ => true | _ => false end.

End EventsView.

(** ** The comment component with its own cells *)

(** [CommentForm] and [Comment] once more, now with the cells the
    components keep for themselves: the state of a run is the pair of
    these cells and the state of the page. *)
Module CommentView.
Section View.
Context {S : Type}.
Variable gw : Gateway.
Variable now : Z.  (* what [new Date()] reads *)

(** The cells of [CommentForm]; [resets] counts the calls of [reset]. *)
Record FormCells := mkFormCells {
  isSubmitting : bool;
  resets : nat
}.

Definition onPageF {A} (m : M S A) : M (FormCells * S) A :=
  focus snd (fun s t => (fst t, s)) m.

Definition setIsSubmitting (b : bool) : M (FormCells * S) unit :=
  set_page (fun t => (mkFormCells b (resets (fst t)), snd t)).

Definition reset : M (FormCells * S) unit :=
  set_page (fun t =>
    (mkFormCells (isSubmitting (fst t)) (Datatypes.S (resets (fst t))),
     snd t)).

(** [CommentForm]'s [onSubmit] *)
Definition onSubmit (postId : Prim)
    (onAddComment : Prim -> CommentData -> M S unit)
    (currentUser : option User.t) (commentText : string)
    : M (FormCells * S) unit :=
  if blank commentText then ret tt
  else
    setIsSubmitting true;;
    try_finally
      (try_catch
         (cu ← deref currentUser;
          let commentData :=
            Build_CommentData (User.id cu) (User.name cu) commentText in
          onPageF (onAddComment postId commentData);;
          reset)
         (fun _ => ret tt))
      (setIsSubmitting false).

(** The cells of [Comment]; the callback of its modal is the closure of
    [handleDelete], kept as the properties it captured. *)
Record Cells := mkCells {
  isEditing : bool;
  isDeleting : bool;
  modalState : ConfirmModal.ModalState (@CommentComponent.Props S)
}.

Definition initial : Cells := mkCells false false ConfirmModal.Closed.

Definition onPage {A} (m : M S A) : M (Cells * S) A :=
  focus snd (fun s t => (fst t, s)) m.

Definition setIsEditing (b : bool) : M (Cells * S) unit :=
  set_page (fun t =>
    (mkCells b (isDeleting (fst t)) (modalState (fst t)), snd t)).

Definition setIsDeleting (b : bool) : M (Cells * S) unit :=
  set_page (fun t =>
    (mkCells (isEditing (fst t)) b (modalState (fst t)), snd t)).

Definition setModalState
    (f : ConfirmModal.ModalState (@CommentComponent.Props S) ->
         ConfirmModal.ModalState (@CommentComponent.Props S))
    : M (Cells * S) unit :=
  set_page (fun t =>
    (mkCells (isEditing (fst t)) (isDeleting (fst t))
             (f (modalState (fst t))),
     snd t)).

(** The body of the [onConfirm] closure of [handleDelete]. *)
Definition onConfirm (p : @CommentComponent.Props S) : M (Cells * S) unit :=
  try_finally
    (try_catch
       (setIsDeleting true;;
        if CommentComponent.known (CommentComponent.commentType p) then
          cu ← deref (CommentComponent.currentUser p);
          request
            (DeleteComment (CommentComponent.commentType p)
               (CommentComponent.postId p)
               (Comment.id (CommentComponent.comment p))
               (User.id cu) (CommentComponent.token p))
            (deleteComment gw (CommentComponent.commentType p)
               (CommentComponent.postId p)
               (Comment.id (CommentComponent.comment p))
               (User.id cu) (CommentComponent.token p));;
          detached
            (onPage (CommentComponent.onCommentDeleted p
                       (CommentComponent.postId p)
                       (Comment.id (CommentComponent.comment p))));;
          toast_success "Comment deleted"
        else
          toast_error "Invalid comment type")
       (fun _ => toast_error "Failed to delete comment"))
    (setIsDeleting false).

Definition handleDelete (p : @CommentComponent.Props S) : M (Cells * S) unit :=
  setModalState
    (ConfirmModal.openModal
       (ConfirmModal.mkConfig
          "Delete Comment"
          "Are you sure you want to delete this comment? This action cannot be undone."
          "Delete" "Cancel" "danger" p)).

Definition handleUpdate (p : @CommentComponent.Props S)
    (updatedContent : string) : M (Cells * S) unit :=
  if blank updatedContent then ret tt
  else
    try_catch
      (let updatedComment :=
         Comment.edit updatedContent now (CommentComponent.comment p) in
       if CommentComponent.known (CommentComponent.commentType p) then
         request
           (UpdateComment (CommentComponent.commentType p)
              (CommentComponent.postId p)
              (Comment.id (CommentComponent.comment p))
              updatedComment (CommentComponent.token p))
           (updateComment gw (CommentComponent.commentType p)
              (CommentComponent.postId p)
              (Comment.id (CommentComponent.comment p))
              updatedComment (CommentComponent.token p));;
         detached
           (onPage (CommentComponent.onCommentUpdated p
                      (CommentComponent.postId p)
                      (Comment.id (CommentComponent.comment p))
                      updatedContent));;
         setIsEditing false;;
         toast_success "Comment updated"
       else
         toast_error "Invalid comment type")
      (fun _ => toast_error "Failed to update comment").

(** [comment.userId === currentUser?.id] *)
Definition isAuthor (p : @CommentComponent.Props S) : bool :=
  bool_decide (Some (Comment.userId (CommentComponent.comment p))
               = User.id <$> CommentComponent.currentUser p).

(** [postUserId === currentUser?.id] *)
Definition isPostOwner (postUserId : Prim) (p : @CommentComponent.Props S)
    : bool :=
  bool_decide (Some postUserId = User.id <$> CommentComponent.currentUser p).

(** What the user can do on a comment. *)
Inductive Action :=
| ClickEdit
| ClickDelete
| SubmitEdit (updatedContent : string)
| CancelEdit
| Press (c : ConfirmModal.Click).

Fixpoint effects (os : list (ConfirmModal.Output (@CommentComponent.Props S)))
    : M (Cells * S) unit :=
  match os with
  | [] => ret tt
  | ConfirmModal.Invoke p :: os' => detached (onConfirm p);; effects os'
  | ConfirmModal.Close :: os' =>
      setModalState ConfirmModal.closeModal;; effects os'
  end.

(** One action.  The edit button is rendered for the author, the delete
    button for the author and for the owner of the post; both are
    disabled while the comment is edited or deleted; the form that saves
    or cancels is rendered while the comment is edited. *)
Definition act (postUserId : Prim) (p : @CommentComponent.Props S)
    (a : Action) : M (Cells * S) unit :=
  t ← get_page;
  let enabled := negb (isEditing (fst t) || isDeleting (fst t)) in
  match a with
  | ClickEdit =>
      if isAuthor p && enabled then setIsEditing true else ret tt
  | ClickDelete =>
      if (isAuthor p || isPostOwner postUserId p) && enabled
      then handleDelete p else ret tt
  | SubmitEdit updatedContent =>
      if isEditing (fst t) then handleUpdate p updatedContent else ret tt
  | CancelEdit =>
      if isEditing (fst t) then setIsEditing false else ret tt
  | Press c =>
      effects (snd (ConfirmModal.step (modalState (fst t))
                      (ConfirmModal.Press c)))
  end.

Fixpoint acts (postUserId : Prim) (p : @CommentComponent.Props S)
    (l : list Action) : M (Cells * S) unit :=
  match l with
  | [] => ret tt
  | a :: l' => detached (act postUserId p a);; acts postUserId p l'
  end.

End View.
End CommentView.

(** The requests that update a comment. *)
Definition is_update (r : Request) : bool :=
  match r with UpdateComment _ _ _ _ _ => true | _ => false end.

(** No notification of success and no request after a request that
    failed; [failed] tells that one has failed. *)
Fixpoint quiet_after_failure (failed : bool) (tr : list Event) : bool :=
  match tr with
  | [] => true
  | Toasted t :: tr' =>
      negb (failed && bool_decide (kind t = TSuccess))
      && quiet_after_failure failed tr'
  | Requested _ ok :: tr' =>
      negb failed && quiet_after_failure (negb ok) tr'
  | Asked _ _ :: tr' => quiet_after_failure failed tr'
  end.

(** The actions of typing values into fields of the event form. *)
Definition changes (cs : list (EventsView.Field * string))
    : list EventsView.Action :=
  map (fun c => EventsView.Change (fst c) (snd c)) cs.

(** ** More inputs for examples *)

Module Samples.

(** A resource with its three fields, and an item without any. *)
Definition tree_notes : Item.t :=
  Item.mk (PNum 5) (PStr "u1") "Una"
    [("title", "Notes on Trees"); ("description", "AVL and B-trees");
     ("url", "https://example.org/trees")] 0 0 [] [].

Definition graph_notes : Item.t :=
  Item.mk (PNum 6) (PStr "u0") "Olu"
    [("title", "Graphs"); ("description", "Shortest paths");
     ("url", "https://example.org/graphs")] 0 0 [] [].

Definition loaded : ResourcesPage.State :=
  ResourcesPage.mkState [tree_notes; graph_notes] false None false "" "" ""
    None "" "" "".

(** An event with the id 0. *)
Definition event0 : Item.t :=
  Item.mk (PNum 0) (PStr "u1") "Una"
    [("title", "Kick-off"); ("description", "First meeting");
     ("date", "2025-05-01"); ("location", "Library");
     ("category", "study"); ("maxParticipants", "10")] 0 0 [] [].

Definition event3 : Item.t :=
  Item.mk (PNum 3) (PStr "u1") "Una"
    [("title", "Kick-off"); ("description", "First meeting");
     ("date", "2025-05-01"); ("location", "Library");
     ("category", "study"); ("maxParticipants", "10")] 0 0 [] [].

(** The events page after a load, with its modal closed. *)
Definition events_shown : EventsView.State :=
  EventsView.mkState (EventsPage.mkState [event3] false None false None)
                     EventsView.emptyForm.

(** The properties of the first comment of plan 2, as the learning plan
    page hands them down, for a viewer. *)
Definition props7 (currentUser : option User.t)
    : @CommentComponent.Props LearningPlanPage.State :=
  Reconciler.props currentUser 10 Examples.comment7 (PNum 2) LEARNING_PLANS.

(** The same for the second comment of plan 2, written by u0 on the
    plan of u1. *)
Definition comment8 : Comment.t :=
  Comment.mk (PNum 8) (PStr "u0") "Olu" "second" 6 6.

Definition props8 (currentUser : option User.t)
    : @CommentComponent.Props LearningPlanPage.State :=
  Reconciler.props currentUser 10 comment8 (PNum 2) LEARNING_PLANS.

(** A user who wrote neither plan 2 nor its comments. *)
Definition u2 : User.t := User.mk (PStr "u2") "Tam" "" "token-u2".

End Samples.

(** * Properties *)

(** ** The by-id map (C3) *)

Module RefFacts.
Import Ref.

Lemma copy_pure f : pure (copy f).
Proof.
  intros h l. unfold copy. destruct (h !! l); simpl.
  - by eexists.
  - exists []. by rewrite app_nil_r.
Qed.

Lemma const_pure data : pure (const data).
Proof. intros h l. exists []. simpl. by rewrite app_nil_r. Qed.

Lemma patchById_cons id updater h l rest :
  patchById id updater h (l :: rest) =
  let hl :=
    match h !! l with
    | Some o => if decide (Item.id o = id) then updater h l else (h, l)
    | None => (h, l)
    end in
  let r := patchById id updater (fst hl) rest in
  (fst r, snd hl :: snd r).
Proof.
  simpl. destruct (match h !! l with Some _ => _ | None => _ end) as [h1 l'].
  simpl. by destruct (patchById id updater h1 rest).
Qed.

(** The heap only grows. *)
Lemma patchById_extends id updater :
  pure updater ->
  forall items h, exists ext, fst (patchById id updater h items) = h ++ ext.
Proof.
  intros Hp items. induction items as [|l rest IH]; intros h.
  - exists []. simpl. by rewrite app_nil_r.
  - rewrite patchById_cons. cbn zeta. simpl fst.
    set (hl := match h !! l with Some _ => _ | None => _ end).
    assert (exists e1, fst hl = h ++ e1) as [e1 He1].
    { subst hl. destruct (h !! l) as [o|]; [destruct (decide _)|].
      - apply Hp.
      - exists []. simpl. by rewrite app_nil_r.
      - exists []. simpl. by rewrite app_nil_r. }
    destruct (IH (fst hl)) as [e2 He2].
    exists (e1 ++ e2). rewrite He2, He1. by rewrite app_assoc.
Qed.

Lemma extends_lookup (h ext : Heap) l (o : Item.t) :
  h !! l = Some o -> (h ++ ext) !! l = Some o.
Proof. apply lookup_app_l_Some. Qed.

(** C3: the by-id map used by comment update, comment delete and item
    update returns an array of the same length in which every item whose
    id differs from the given id is the very same object as before, with
    the same contents; and no object that existed before the call is
    written to, whatever the updater allocates. *)
Theorem patchById_frame (id : Prim) (updater : Updater) (h : Heap)
    (items : list loc) :
  pure updater ->
  length (snd (patchById id updater h items)) = length items /\
  (forall i l o,
     items !! i = Some l -> h !! l = Some o -> Item.id o <> id ->
     snd (patchById id updater h items) !! i = Some l /\
     fst (patchById id updater h items) !! l = Some o) /\
  (forall l o,
     h !! l = Some o -> fst (patchById id updater h items) !! l = Some o).
Proof.
  intros Hp.
  assert (Hframe : forall l o, h !! l = Some o ->
            fst (patchById id updater h items) !! l = Some o).
  { intros l o Hl. destruct (patchById_extends id updater Hp items h)
      as [ext ->]. by apply extends_lookup. }
  split; [|split]; [| |exact Hframe].
  - revert h Hframe. induction items as [|l rest IH]; intros h _; [done|].
    rewrite patchById_cons. cbn zeta. simpl. f_equal. apply IH.
    intros l0 o0 H0.
    destruct (patchById_extends id updater Hp rest
                (fst match h !! l with
                     | Some o => if decide (Item.id o = id)
                                 then updater h l else (h, l)
                     | None => (h, l) end)) as [ext ->].
    by apply extends_lookup.
  - intros i l o Hi Hl Hne. split; [|by apply Hframe].
    clear Hframe. revert h i Hi Hl.
    induction items as [|l0 rest IH]; intros h i Hi Hl; [done|].
    rewrite patchById_cons. cbn zeta. simpl snd.
    destruct i as [|i]; simpl in Hi |- *.
    + injection Hi as ->. rewrite Hl.
      by destruct (decide (Item.id o = id)).
    + apply IH; [done|].
      set (hl := match h !! l0 with Some _ => _ | None => _ end).
      assert (exists e1, fst hl = h ++ e1) as [e1 ->].
      { subst hl. destruct (h !! l0) as [o0|]; [destruct (decide _)|].
        - apply Hp.
        - exists []. simpl. by rewrite app_nil_r.
        - exists []. simpl. by rewrite app_nil_r. }
      by apply extends_lookup.
Qed.

End RefFacts.

(** A concrete store: two items, the first is patched, the second is the
    same object at the same address afterwards. *)
Lemma patchById_frame_witness :
  Ref.pure (Ref.copy (Item.with_comments [])) /\
  snd (Ref.patchById (PNum 1) (Ref.copy (Item.with_comments []))
         [Examples.plan1; Examples.plan2] [0; 1]) !! 1 = Some 1 /\
  fst (Ref.patchById (PNum 1) (Ref.copy (Item.with_comments []))
         [Examples.plan1; Examples.plan2] [0; 1]) !! 1
    = Some Examples.plan2.
Proof.
  split; [apply RefFacts.copy_pure|].
  apply (proj1 (proj2 (RefFacts.patchById_frame (PNum 1)
                         (Ref.copy (Item.with_comments []))
                         [Examples.plan1; Examples.plan2] [0; 1]
                         (RefFacts.copy_pure _)))
           1 1 Examples.plan2); [reflexivity|reflexivity|discriminate].
Defined.

(** ** Running a handler *)

Ltac unfold_monad :=
  unfold run, detached, window_confirm, request, deref, toast_error,
    toast_success, emit, set_page, get_page, try_finally, try_catch, throw,
    mbind, M_bind, bind, mret, M_ret, ret in *.

Ltac unfold_handlers :=
  unfold Reconciler.exec, Reconciler.summary, Reconciler.props,
    LearningPlanPage.handlePlanUpdated, LearningPlanPage.fetchLearningPlans,
    LearningPlanPage.handlePlanSubmit, LearningPlanPage.handleLike,
    LearningPlanPage.handleAddComment, LearningPlanPage.handleUpdateComment,
    LearningPlanPage.handleDeleteComment, LearningPlanPage.handleDelete,
    LearningPlanPage.press, LearningPlanPage.effects, LearningPlanPage.effect,
    LearningPlanPage.onConfirm,
    LearningPlanPage.setLearningPlans, LearningPlanPage.setLoading,
    LearningPlanPage.setIsSubmitting, LearningPlanPage.setEditingPlan,
    LearningPlanPage.setModalState, LearningPlanPage.reset,
    CommentComponent.onSubmit, CommentComponent.handleUpdate,
    CommentComponent.handleDelete, CommentComponent.press,
    CommentComponent.effects, CommentComponent.onConfirm,
    EventsPage.mount, EventsPage.handleSubmit, EventsPage.handleDelete,
    EventsPage.handleRegister, EventsPage.setEvents, EventsPage.setLoading,
    EventsPage.setError, EventsPage.setModalOpen, EventsPage.setEditData,
    ResourcesPage.fetchResources, ResourcesPage.handleCreate,
    ResourcesPage.handleUpdate, ResourcesPage.handleDelete,
    ResourcesPage.setResources, ResourcesPage.setLoading,
    ResourcesPage.setError, ResourcesPage.closeCreate,
    ResourcesPage.setEditingId, ResourcesPage.normalize,
    ResourcesPage.get_resources in *.

(** Follow the run through every branch it can take. *)
Ltac split_run :=
  repeat (cbn in *;
    match goal with
    | |- context [match ?x with _ => _ end] =>
        lazymatch x with
        | context [match _ with _ => _ end] => fail
        | _ => destruct x eqn:?
        end
    end);
  cbn in *.

(** ** The primitives on small inputs *)

Example blank_spaces : blank "  " = true.
Proof. reflexivity. Qed.

Example blank_title : blank " Plan " = false.
Proof. reflexivity. Qed.

Example truthy_zero : truthy (PNum 0) = false.
Proof. reflexivity. Qed.

Example truthy_id : truthy (PStr "64ab") = true.
Proof. reflexivity. Qed.

(** [1 === "1"] is false. *)
Example strict_types : bool_decide (PNum 1 = PStr "1") = false.
Proof. reflexivity. Qed.

Example normalize_object :
  fst (run (ResourcesPage.normalize
              (BObj [("count", BNum 1);
                     ("resources", BArr [Examples.plan1])]))
           ResourcesPage.initial)
  = Returned [Examples.plan1].
Proof. reflexivity. Qed.

Example normalize_string :
  fst (run (ResourcesPage.normalize (BStr "")) ResourcesPage.initial)
  = Returned [].
Proof. reflexivity. Qed.

Example normalize_null :
  fst (run (ResourcesPage.normalize BNull) ResourcesPage.initial)
  = Thrown TypeError.
Proof. reflexivity. Qed.

(** The page's modal: delete of item 1 confirmed, against a server that
    answers. *)
Example delete_confirmed :
  let r := Reconciler.exec Examples.online (Some Examples.u1)
             (Reconciler.PlanDelete (PNum 1) ConfirmModal.ConfirmButton
                Examples.page12) in
  Reconciler.after r = [Examples.plan2] /\
  Reconciler.events r
    = [Requested (DeleteLearningPlan (PNum 1) "token-u1") true;
       Toasted (Build_Toast TSuccess "Learning plan deleted")].
Proof. by vm_compute. Qed.

(** ... and cancelled. *)
Example delete_cancelled :
  let r := Reconciler.exec Examples.online (Some Examples.u1)
             (Reconciler.PlanDelete (PNum 1) ConfirmModal.CancelButton
                Examples.page12) in
  Reconciler.after r = [Examples.plan1; Examples.plan2] /\
  Reconciler.events r = [].
Proof. by vm_compute. Qed.

(** A comment of item 2 is edited: only its content and time change. *)
Example comment_edited :
  let r := Reconciler.exec Examples.online (Some Examples.u1)
             (Reconciler.CommentUpdate 9 10 Examples.comment7 (PNum 2)
                LEARNING_PLANS "edited" Examples.page12) in
  Reconciler.after r
    = [Examples.plan1;
       Item.with_comments
         [Comment.mk (PNum 7) (PStr "u1") "Una" "edited" 5 10;
          Comment.mk (PNum 8) (PStr "u0") "Olu" "second" 6 6]
         Examples.plan2] /\
  calls_of (Reconciler.events r)
    = [UpdateComment LEARNING_PLANS (PNum 2) (PNum 7)
         (Comment.mk (PNum 7) (PStr "u1") "Una" "edited" 5 9)
         (Some "token-u1")].
Proof. by vm_compute. Qed.

Lemma lookup_map {A B} (f : A -> B) (l : list A) i :
  map f l !! i = f <$> (l !! i).
Proof. revert i. induction l as [|x l IH]; intros [|i]; simpl; auto. Qed.

(** ** Like-toggle (C1, C4) *)

Lemma existsb_likes (u : Prim) (likes : list Like.t) :
  existsb (fun like => bool_decide (Like.userId like = u)) likes = true <->
  Exists (fun like => Like.userId like = u) likes.
Proof.
  rewrite existsb_exists, Exists_exists. split.
  - intros (x & Hin & Hx). exists x. split; [by apply list_elem_of_In|].
    by apply bool_decide_eq_true in Hx.
  - intros (x & Hin & Hx). exists x. split; [by apply list_elem_of_In|].
    by apply bool_decide_eq_true.
Qed.

Lemma isLiked_found cu planId plans item :
  find (fun p => bool_decide (Item.id p = planId)) plans = Some item ->
  LearningPlanPage.isLiked cu planId plans = true <->
  Exists (fun like => Like.userId like = User.id cu) (Item.likes item).
Proof.
  intros Hf. unfold LearningPlanPage.isLiked. rewrite Hf.
  apply existsb_likes.
Qed.

Lemma find_patch planId (g : Item.t -> Item.t) (l : list Item.t) :
  (forall x, Item.id x = planId -> Item.id (g x) = planId) ->
  find (fun p => bool_decide (Item.id p = planId))
       (map (fun plan => if decide (Item.id plan = planId) then g plan
                         else plan) l)
  = g <$> find (fun p => bool_decide (Item.id p = planId)) l.
Proof.
  intros Hg. induction l as [|x l IH]; [done|]. simpl.
  destruct (decide (Item.id x = planId)) as [e|n].
  - by rewrite !bool_decide_eq_true_2 by auto.
  - by rewrite !bool_decide_eq_false_2 by auto.
Qed.

Lemma likers_unlike (u v : Prim) (p : Item.t) :
  u ∈ likers (Item.with_likes
                (filter (fun like => Like.userId like <> v) (Item.likes p)) p)
  <-> u ∈ likers p /\ u <> v.
Proof.
  unfold likers. cbn. rewrite !list_elem_of_In, !in_map_iff. split.
  - intros (x & <- & Hin). apply list_elem_of_In, list_elem_of_filter in Hin.
    destruct Hin as [Hne Hin]. split; [|done].
    exists x. split; [done|]. by apply list_elem_of_In.
  - intros [(x & <- & Hin) Hne]. exists x. split; [done|].
    apply list_elem_of_In, list_elem_of_filter. split; [done|].
    by apply list_elem_of_In.
Qed.

Lemma liked_likers (v : Prim) (p : Item.t) :
  Exists (fun like => Like.userId like = v) (Item.likes p) <-> v ∈ likers p.
Proof.
  unfold likers. rewrite Exists_exists, list_elem_of_In, in_map_iff.
  split; intros (x & H1 & H2); exists x.
  - split; [done|]. by apply list_elem_of_In.
  - split; [by apply list_elem_of_In|done].
Qed.

Lemma handleLike_unlike gw cu planId s b :
  LearningPlanPage.isLiked cu planId (LearningPlanPage.learningPlans s)
    = true ->
  removeLike gw planId (User.id cu) (User.token cu) = Ok b ->
  snd (run (LearningPlanPage.handleLike gw (Some cu) planId) s) =
  mkWorld
    (LearningPlanPage.mkState
       (map (fun plan =>
               if decide (Item.id plan = planId) then
                 Item.with_likes
                   (filter (fun like => Like.userId like <> User.id cu)
                           (Item.likes plan)) plan
               else plan) (LearningPlanPage.learningPlans s))
       (LearningPlanPage.loading s) (LearningPlanPage.isSubmitting s)
       (LearningPlanPage.editingPlan s) (LearningPlanPage.modalState s)
       (LearningPlanPage.resets s))
    [Requested (RemoveLike planId (User.id cu) (User.token cu)) true].
Proof.
  intros Hl Hr. unfold_handlers. unfold_monad. cbn. by rewrite Hl, Hr.
Qed.

Lemma handleLike_like gw cu planId s r :
  LearningPlanPage.isLiked cu planId (LearningPlanPage.learningPlans s)
    = false ->
  addLike gw planId (Like.mk (User.id cu) (User.name cu)) (User.token cu)
    = Ok r ->
  snd (run (LearningPlanPage.handleLike gw (Some cu) planId) s) =
  mkWorld
    (LearningPlanPage.mkState
       (map (fun plan => if decide (Item.id plan = planId) then r else plan)
            (LearningPlanPage.learningPlans s))
       (LearningPlanPage.loading s) (LearningPlanPage.isSubmitting s)
       (LearningPlanPage.editingPlan s) (LearningPlanPage.modalState s)
       (LearningPlanPage.resets s))
    [Requested (AddLike planId (Like.mk (User.id cu) (User.name cu))
                        (User.token cu)) true].
Proof.
  intros Hl Hr. unfold_handlers. unfold_monad. cbn. by rewrite Hl, Hr.
Qed.

(** C1: a like-toggle by a signed-in viewer on an item of the store.  If
    the item's likes hold an entry of the viewer, remove-like is the one
    request, and every item with that id is replaced by a copy whose
    likes are the old ones without the viewer's entries; if they hold
    none, add-like is the one request, and the item is replaced by the
    item the server answers with.  Items with another id stay as they
    are, the store keeps its length, and nothing is notified. *)
Theorem handleLike_toggle gw (cu : User.t) planId
    (s : LearningPlanPage.State) (item : Item.t) :
  find (fun p => bool_decide (Item.id p = planId))
       (LearningPlanPage.learningPlans s) = Some item ->
  let w := snd (run (LearningPlanPage.handleLike gw (Some cu) planId) s) in
  let store := LearningPlanPage.learningPlans s in
  let store' := LearningPlanPage.learningPlans (page w) in
  let liked :=
    Exists (fun like => Like.userId like = User.id cu) (Item.likes item) in
  (liked ->
   succeeded (removeLike gw planId (User.id cu) (User.token cu)) ->
   calls w = [RemoveLike planId (User.id cu) (User.token cu)] /\
   toasts w = [] /\
   length store' = length store /\
   forall i p, store !! i = Some p ->
     (Item.id p = planId ->
      store' !! i =
        Some (Item.with_likes
                (filter (fun like => Like.userId like <> User.id cu)
                        (Item.likes p)) p)) /\
     (Item.id p <> planId -> store' !! i = Some p)) /\
  (~ liked ->
   forall r,
     addLike gw planId (Like.mk (User.id cu) (User.name cu)) (User.token cu)
       = Ok r ->
     calls w = [AddLike planId (Like.mk (User.id cu) (User.name cu))
                        (User.token cu)] /\
     toasts w = [] /\
     length store' = length store /\
     forall i p, store !! i = Some p ->
       (Item.id p = planId -> store' !! i = Some r) /\
       (Item.id p <> planId -> store' !! i = Some p)).
Proof.
  intros Hfind w store store' liked. subst w store store' liked.
  pose proof (isLiked_found cu planId _ _ Hfind) as Hliked.
  split.
  - intros Hl Hok. apply Hliked in Hl.
    destruct (removeLike gw planId (User.id cu) (User.token cu)) as [b|]
      eqn:Hb; [|done].
    rewrite (handleLike_unlike gw cu planId s b Hl Hb). cbn.
    repeat split; try done.
    + by rewrite length_map.
    + intros Heq. rewrite lookup_map, H. cbn. by rewrite decide_True.
    + intros Hne. rewrite lookup_map, H. cbn. by rewrite decide_False.
  - intros Hl r Hr.
    assert (LearningPlanPage.isLiked cu planId
              (LearningPlanPage.learningPlans s) = false) as Hf.
    { apply not_true_is_false. intros Ht. by apply Hl, Hliked. }
    rewrite (handleLike_like gw cu planId s r Hf Hr). cbn.
    repeat split; try done.
    + by rewrite length_map.
    + intros Heq. rewrite lookup_map, H. cbn. by rewrite decide_True.
    + intros Hne. rewrite lookup_map, H. cbn. by rewrite decide_False.
Qed.

(** The scenario of the specification: the store is [[{id: 1, likes: []}]],
    the viewer is ["u1"], the gateway answers add-like with
    [{id: 1, likes: [{userId: "u1"}]}]; the store becomes
    [[{id: 1, likes: [{userId: "u1"}]}]]. *)
Lemma handleLike_toggle_witness :
  find (fun p => bool_decide (Item.id p = PNum 1))
       (LearningPlanPage.learningPlans Examples.page1)
    = Some Examples.plan1 /\
  LearningPlanPage.learningPlans
    (page (snd (run (LearningPlanPage.handleLike Examples.likes_server
                       (Some Examples.u1) (PNum 1)) Examples.page1)))
    !! 0 = Some Examples.plan1_liked /\
  length (LearningPlanPage.learningPlans
            (page (snd (run (LearningPlanPage.handleLike
                               Examples.likes_server
                               (Some Examples.u1) (PNum 1))
                            Examples.page1)))) = 1.
Proof.
  split; [reflexivity|].
  destruct (proj2 (handleLike_toggle Examples.likes_server Examples.u1
                     (PNum 1) Examples.page1 Examples.plan1 eq_refl)
              ltac:(by intros H; inversion H)
              Examples.plan1_liked eq_refl)
    as (_ & _ & Hlen & Hitems).
  split; [|exact Hlen].
  exact (proj1 (Hitems 0 Examples.plan1 eq_refl) eq_refl).
Defined.

(** C4: toggling the like of an item twice, each toggle run to its end
    against a server that answers add-like with the item and exactly its
    former likers plus the viewer, leaves the item with the users who
    liked it at the start. *)
Theorem like_toggle_twice gw1 gw2 (cu : User.t) planId
    (s : LearningPlanPage.State) (item : Item.t) :
  find (fun p => bool_decide (Item.id p = planId))
       (LearningPlanPage.learningPlans s) = Some item ->
  faithful gw1 cu planId (LearningPlanPage.learningPlans s) ->
  let s1 := page (snd (run (LearningPlanPage.handleLike gw1 (Some cu) planId)
                           s)) in
  faithful gw2 cu planId (LearningPlanPage.learningPlans s1) ->
  let s2 := page (snd (run (LearningPlanPage.handleLike gw2 (Some cu) planId)
                           s1)) in
  exists item2,
    find (fun p => bool_decide (Item.id p = planId))
         (LearningPlanPage.learningPlans s2) = Some item2 /\
    forall u, u ∈ likers item2 <-> u ∈ likers item.
Proof.
  intros Hfind [Hrm1 Hadd1] s1 [Hrm2 Hadd2] s2.
  pose proof (isLiked_found cu planId _ _ Hfind) as Hliked.
  rewrite liked_likers in Hliked.
  destruct (LearningPlanPage.isLiked cu planId
              (LearningPlanPage.learningPlans s)) eqn:E1.
  - (* unlike, then like *)
    assert (Hin : User.id cu ∈ likers item) by by apply Hliked.
    destruct (removeLike gw1 planId (User.id cu) (User.token cu))
      as [b|] eqn:Eb; [|done].
    assert (Hs1 := f_equal (fun w => LearningPlanPage.learningPlans (page w))
                     (handleLike_unlike gw1 cu planId s b E1 Eb)).
    cbn in Hs1. fold s1 in Hs1.
    assert (Hf1 : find (fun p => bool_decide (Item.id p = planId))
                    (LearningPlanPage.learningPlans s1)
                  = Some (Item.with_likes
                            (filter
                               (fun like => Like.userId like <> User.id cu)
                               (Item.likes item)) item)).
    { rewrite Hs1, find_patch by done. by rewrite Hfind. }
    destruct (Hadd2 _ Hf1) as (r & Hr & Hid & Hlk).
    assert (E2 : LearningPlanPage.isLiked cu planId
                   (LearningPlanPage.learningPlans s1) = false).
    { apply not_true_is_false. intros Ht.
      apply (isLiked_found cu planId _ _ Hf1), liked_likers, likers_unlike
        in Ht. by destruct Ht. }
    assert (Hs2 := f_equal (fun w => LearningPlanPage.learningPlans (page w))
                     (handleLike_like gw2 cu planId s1 r E2 Hr)).
    cbn in Hs2. fold s2 in Hs2.
    exists r. split.
    + rewrite Hs2, (find_patch planId (fun _ => r)) by done. by rewrite Hf1.
    + intros u. rewrite Hlk, likers_unlike.
      destruct (decide (u = User.id cu)) as [->|]; tauto.
  - (* like, then unlike *)
    assert (Hnin : User.id cu ∉ likers item).
    { intros Hin. apply Hliked in Hin. congruence. }
    destruct (Hadd1 _ Hfind) as (r & Hr & Hid & Hlk).
    assert (Hs1 := f_equal (fun w => LearningPlanPage.learningPlans (page w))
                     (handleLike_like gw1 cu planId s r E1 Hr)).
    cbn in Hs1. fold s1 in Hs1.
    assert (Hf1 : find (fun p => bool_decide (Item.id p = planId))
                    (LearningPlanPage.learningPlans s1) = Some r).
    { rewrite Hs1, (find_patch planId (fun _ => r)) by done.
      by rewrite Hfind. }
    assert (E2 : LearningPlanPage.isLiked cu planId
                   (LearningPlanPage.learningPlans s1) = true).
    { apply (isLiked_found cu planId _ _ Hf1), liked_likers, Hlk. by right. }
    destruct (removeLike gw2 planId (User.id cu) (User.token cu))
      as [b|] eqn:Eb; [|done].
    assert (Hs2 := f_equal (fun w => LearningPlanPage.learningPlans (page w))
                     (handleLike_unlike gw2 cu planId s1 b E2 Eb)).
    cbn in Hs2. fold s2 in Hs2.
    eexists. split.
    + rewrite Hs2, find_patch by done. by rewrite Hf1.
    + intros u. rewrite likers_unlike, Hlk.
      split; [intros [[?| ->] ?]; [done|congruence]|].
      intros Hu. split; [by left|]. intros ->. by apply Hnin.
Qed.

Lemma likes_server_faithful (likes : list Like.t) :
  (forall u, u ∈ map Like.userId likes -> u = PStr "u1") ->
  faithful Examples.likes_server Examples.u1 (PNum 1)
    [Item.with_likes likes Examples.plan1].
Proof.
  intros Hl. split; [exact I|].
  intros item Hf. injection Hf as <-.
  exists Examples.plan1_liked. split; [reflexivity|]. split; [reflexivity|].
  intros u. unfold likers. cbn. rewrite list_elem_of_singleton.
  split; [by right|]. intros [H| ->]; [by apply Hl|done].
Qed.

(** Item 1, liked by nobody, is liked and then unliked by ["u1"]. *)
Lemma like_toggle_twice_witness :
  find (fun p => bool_decide (Item.id p = PNum 1))
       (LearningPlanPage.learningPlans Examples.page1)
    = Some Examples.plan1 /\
  exists item2,
    find (fun p => bool_decide (Item.id p = PNum 1))
         (LearningPlanPage.learningPlans
            (page (snd (run (LearningPlanPage.handleLike
                               Examples.likes_server (Some Examples.u1)
                               (PNum 1))
                            (page (snd (run (LearningPlanPage.handleLike
                                               Examples.likes_server
                                               (Some Examples.u1) (PNum 1))
                                            Examples.page1)))))))
      = Some item2 /\
    forall u, u ∈ likers item2 <-> u ∈ likers Examples.plan1.
Proof.
  split; [reflexivity|].
  apply (like_toggle_twice Examples.likes_server Examples.likes_server
           Examples.u1 (PNum 1) Examples.page1 Examples.plan1 eq_refl).
  - apply (likes_server_faithful []). by intros u H; inversion H.
  - apply (likes_server_faithful [Like.mk (PStr "u1") "Una"]).
    intros u H. by apply list_elem_of_singleton in H.
Defined.

(** ** Failures of the gateway (C2) *)




(** ** Actions without a current user (C5) *)

(** C5, as the code has it: with no current user, plan create,
    like-toggle and comment add (which test for the user first), and
    resource create, resource update and the confirmed deletes of a plan,
    a resource or a comment (where the read of a field of the missing
    user throws inside the handler's [try]) issue no request, show
    exactly one notification, an error, leave the store as it was and end
    normally. *)
Theorem no_user_no_request gw op :
  Reconciler.stops_without_user op = true ->
  let r := Reconciler.exec gw None op in
  calls_of (Reconciler.events r) = [] /\
  length (toasts_of (Reconciler.events r)) = 1 /\
  Forall is_error (toasts_of (Reconciler.events r)) /\
  Reconciler.after r = Reconciler.before r /\
  Reconciler.raised r = false.
Proof.
  destruct op; try discriminate; intros Hs.
  all: try (destruct c; try discriminate).
  all: try (destruct answer; try discriminate).
  all: unfold_handlers; unfold_monad; split_run.
  all: repeat split; try reflexivity.
  all: by repeat constructor.
Qed.

(** Like-toggle without a current user. *)
Lemma no_user_no_request_witness :
  let r := Reconciler.exec Examples.online None
             (Reconciler.PlanLike (PNum 1) Examples.page1) in
  Reconciler.events r
    = [Toasted (Build_Toast TError "You must be logged in to like this plan")]
  /\ calls_of (Reconciler.events r) = [] /\
  Reconciler.after r = [Examples.plan1].
Proof.
  destruct (no_user_no_request Examples.online
              (Reconciler.PlanLike (PNum 1) Examples.page1) eq_refl)
    as (Hcalls & _ & _ & Hstore & _).
  split; [reflexivity|]. split; [exact Hcalls|exact Hstore].
Defined.

(** C5 as the specification words it fails for the handlers that
    neither test for the user nor read a field of it inside a [try]:
    without a current user, the delete, the submit and the register of an
    event end with a [TypeError] and show nothing; the update of a
    comment sends its request; the local patch of a comment changes the
    store and shows nothing; the comment form shows nothing. *)
Lemma no_user_unguarded :
  (let r := Reconciler.exec Examples.online None
              (Reconciler.EventDelete (PNum 1) Examples.events12) in
   Reconciler.events r = [] /\ Reconciler.raised r = true) /\
  (let r := Reconciler.exec Examples.online None
              (Reconciler.EventSubmit Examples.new_event Examples.events12) in
   Reconciler.events r = [] /\ Reconciler.raised r = true) /\
  (let r := Reconciler.exec Examples.online None
              (Reconciler.EventRegister (PNum 1) Examples.events12) in
   Reconciler.events r = [] /\ Reconciler.raised r = true) /\
  (let r := Reconciler.exec Examples.online None
              (Reconciler.CommentUpdate 9 9 Examples.comment7 (PNum 2)
                 LEARNING_PLANS "edited" Examples.page12) in
   calls_of (Reconciler.events r)
     = [UpdateComment LEARNING_PLANS (PNum 2) (PNum 7)
          (Comment.edit "edited" 9 Examples.comment7) None] /\
   length (calls_of (Reconciler.events r)) = 1) /\
  (let r := Reconciler.exec Examples.online None
              (Reconciler.PlanDeleteComment (PNum 2) (PNum 7)
                 Examples.page12) in
   Reconciler.events r = [] /\
   Reconciler.after r
     = [Examples.plan1;
        Item.with_comments [Comment.mk (PNum 8) (PStr "u0") "Olu" "second" 6 6]
          Examples.plan2]) /\
  (let r := Reconciler.exec Examples.online None
              (Reconciler.CommentSubmit (PNum 2) "hello" Examples.page12) in
   Reconciler.events r = [] /\ Reconciler.raised r = false).
Proof. by vm_compute. Qed.

(** ** Deleting an item (C6) *)

Lemma removeById_spec id (l : list Item.t) :
  (forall x, x ∈ removeById id l <-> x ∈ l /\ Item.id x <> id) /\
  removeById id l `sublist_of` l.
Proof.
  unfold removeById. split.
  - intros x. rewrite list_elem_of_filter. tauto.
  - apply sublist_filter.
Qed.

Lemma removeById_absent id (l : list Item.t) :
  id ∉ ids l -> removeById id l = l.
Proof.
  unfold removeById, ids. induction l as [|x l IH]; [done|].
  change (map Item.id (x :: l)) with (Item.id x :: map Item.id l).
  rewrite not_elem_of_cons. intros [Hne Hnin].
  rewrite filter_cons_True by done. by rewrite IH.
Qed.

(** With unique ids, deleting removes one item. *)
Lemma removeById_one id (l : list Item.t) :
  NoDup (ids l) -> id ∈ ids l ->
  length (removeById id l) + 1 = length l.
Proof.
  unfold ids. induction l as [|x l IH].
  - intros _ H. inversion H.
  - change (map Item.id (x :: l)) with (Item.id x :: map Item.id l).
    rewrite NoDup_cons, elem_of_cons. intros [Hx Hnd] Hin.
    destruct (decide (Item.id x = id)) as [<-|Hne].
    + unfold removeById at 1. rewrite filter_cons_False by (intros H; done).
      fold (removeById (Item.id x) l).
      rewrite removeById_absent by done. cbn [length]. lia.
    + unfold removeById at 1. rewrite filter_cons_True by done.
      fold (removeById id l). cbn [length].
      destruct Hin as [->|Hin]; [done|]. specialize (IH Hnd Hin). lia.
Qed.

(** C6, as the code has it.  A learning plan: [handleDelete] opens the
    modal and does nothing else; a press of the confirm button sends the
    delete and, when it succeeds, removes the items with that id, and
    when it fails leaves the store and shows one error; a press anywhere
    else sends nothing and leaves the store.  A resource: the native
    confirmation comes first; declined, nothing is sent and the store
    stays; accepted, as for a plan.  An event: the delete is sent at
    once, with no confirmation, and the store follows as for a plan.
    Removing by id keeps exactly the items with another id, in their
    order; with unique ids it removes one item. *)
Theorem delete_item gw (cu : User.t) id :
  (forall s,
     let w := snd (run (LearningPlanPage.handleDelete (Some cu) id) s) in
     trace w = [] /\
     LearningPlanPage.learningPlans (page w)
       = LearningPlanPage.learningPlans s /\
     ConfirmModal.isOpen (LearningPlanPage.modalState (page w)) = true) /\
  (forall s c,
     let r := Reconciler.exec gw (Some cu) (Reconciler.PlanDelete id c s) in
     (c = ConfirmModal.ConfirmButton ->
      calls_of (Reconciler.events r)
        = [DeleteLearningPlan id (User.token cu)] /\
      (succeeded (deleteLearningPlan gw id (User.token cu)) ->
       Reconciler.after r = removeById id (Reconciler.before r)) /\
      (failed (deleteLearningPlan gw id (User.token cu)) ->
       Reconciler.after r = Reconciler.before r /\
       toasts_of (Reconciler.events r)
         = [Build_Toast TError "Failed to delete learning plan"])) /\
     (c <> ConfirmModal.ConfirmButton ->
      Reconciler.events r = [] /\
      Reconciler.after r = Reconciler.before r)) /\
  (forall s answer,
     let r := Reconciler.exec gw (Some cu)
                (Reconciler.ResourceDelete answer id s) in
     (exists rest,
        Reconciler.events r
          = Asked "Are you sure you want to delete this resource?" answer
              :: rest) /\
     (answer = false ->
      calls_of (Reconciler.events r) = [] /\
      Reconciler.after r = Reconciler.before r) /\
     (answer = true ->
      calls_of (Reconciler.events r) = [ResourcesDelete id (User.id cu)] /\
      (succeeded (resourcesDelete gw id (User.id cu)) ->
       Reconciler.after r = removeById id (Reconciler.before r)) /\
      (failed (resourcesDelete gw id (User.id cu)) ->
       Reconciler.after r = Reconciler.before r /\
       toasts_of (Reconciler.events r)
         = [Build_Toast TError "Failed to delete resource"]))) /\
  (forall s,
     let r := Reconciler.exec gw (Some cu) (Reconciler.EventDelete id s) in
     (exists ok rest,
        Reconciler.events r
          = Requested (EventsDelete id (User.id cu)) ok :: rest) /\
     (succeeded (eventsDelete gw id (User.id cu)) ->
      Reconciler.after r = removeById id (Reconciler.before r)) /\
     (failed (eventsDelete gw id (User.id cu)) ->
      Reconciler.after r = Reconciler.before r /\
      toasts_of (Reconciler.events r)
        = [Build_Toast TError "Failed to delete event."])) /\
  (forall l,
     (forall x, x ∈ removeById id l <-> x ∈ l /\ Item.id x <> id) /\
     removeById id l `sublist_of` l /\
     (NoDup (ids l) -> id ∈ ids l ->
      length (removeById id l) + 1 = length l)).
Proof.
  split; [|split; [|split; [|split]]].
  - intros s. by unfold_handlers; unfold_monad; cbn.
  - intros s c. split.
    + intros ->. unfold_handlers; unfold_monad; split_run; by repeat split.
    + intros Hc. destruct c; try done.
      all: unfold_handlers; unfold_monad; by cbn.
  - intros s answer. split; [|split].
    + unfold_handlers; unfold_monad; split_run; by eexists.
    + intros ->. unfold_handlers; unfold_monad; by cbn.
    + intros ->. unfold_handlers; unfold_monad; split_run; by repeat split.
  - intros s. unfold_handlers; unfold_monad. split_run.
    all: split; [by eexists _, _|]; by repeat split.
  - intros l. destruct (removeById_spec id l) as [H1 H2].
    split; [exact H1|]. split; [exact H2|]. apply removeById_one.
Qed.

(** The delete of item 1 of two, confirmed in the modal, on a server that
    answers. *)
Lemma delete_item_witness :
  succeeded (deleteLearningPlan Examples.online (PNum 1) "token-u1") /\
  Reconciler.after
    (Reconciler.exec Examples.online (Some Examples.u1)
       (Reconciler.PlanDelete (PNum 1) ConfirmModal.ConfirmButton
          Examples.page12))
    = [Examples.plan2] /\
  length (removeById (PNum 1) [Examples.plan1; Examples.plan2]) + 1 = 2.
Proof.
  split; [exact I|].
  destruct (delete_item Examples.online Examples.u1 (PNum 1))
    as (_ & Hplan & _ & _ & Hremove).
  split.
  - destruct (Hplan Examples.page12 ConfirmModal.ConfirmButton) as [Hc _].
    destruct (Hc eq_refl) as (_ & Hok & _). exact (Hok I).
  - destruct (Hremove [Examples.plan1; Examples.plan2]) as (_ & _ & Hone).
    apply Hone.
    + unfold ids. cbn. apply NoDup_cons. split.
      * intros H. apply list_elem_of_singleton in H. discriminate H.
      * apply NoDup_singleton.
    + unfold ids. cbn. apply elem_of_cons. by left.
Defined.

(** C6 as the specification words it fails for the delete of an
    event: with a current user, the first thing that happens is the
    request, no confirmation is asked for, and the item is gone. *)
Lemma event_delete_unconfirmed :
  let r := Reconciler.exec Examples.online (Some Examples.u1)
             (Reconciler.EventDelete (PNum 1) Examples.events12) in
  Reconciler.events r
    = [Requested (EventsDelete (PNum 1) (PStr "u1")) true;
       Toasted (Build_Toast TSuccess "Event deleted successfully!")] /\
  Reconciler.before r = [Examples.plan1; Examples.plan2] /\
  Reconciler.after r = [Examples.plan2].
Proof. by vm_compute. Qed.

(** ** Comments (C7) *)

(** C7: comment add sends one request and replaces every item with the
    id asked about by the item the server answers with.  Comment update
    and comment delete send one request each, the update with the
    comment carrying the new content, the delete with the id of the
    user; once the server has answered with success they patch the
    comments of that item by comment id: the edited comment has the new
    content and the time of the patch as its time of update and is
    otherwise as before, the deleted one is filtered out, and the other
    fields of the item stay; the body of the answer ([body], any) is
    not read.  Items with another id stay as they are. *)
Theorem comment_policies gw (cu : User.t) (postId : Prim)
    (s : LearningPlanPage.State) :
  (forall commentData r,
     addComment gw postId commentData (User.token cu) = Ok r ->
     let o := Reconciler.exec gw (Some cu)
                (Reconciler.PlanAddComment postId commentData s) in
     Reconciler.events o
       = [Requested (AddComment postId commentData (User.token cu)) true] /\
     Reconciler.raised o = false /\
     length (Reconciler.after o) = length (Reconciler.before o) /\
     forall i p, Reconciler.before o !! i = Some p ->
       (Item.id p = postId -> Reconciler.after o !! i = Some r) /\
       (Item.id p <> postId -> Reconciler.after o !! i = Some p)) /\
  (forall now now' comment ty updatedContent body,
     CommentComponent.known ty = true ->
     blank updatedContent = false ->
     updateComment gw ty postId (Comment.id comment)
       (Comment.mk (Comment.id comment) (Comment.userId comment)
          (Comment.userName comment) updatedContent
          (Comment.createdAt comment) now)
       (Some (User.token cu))
       = Ok body ->
     let o := Reconciler.exec gw (Some cu)
                (Reconciler.CommentUpdate now now' comment postId ty
                   updatedContent s) in
     Reconciler.events o
       = [Requested
            (UpdateComment ty postId (Comment.id comment)
               (Comment.mk (Comment.id comment) (Comment.userId comment)
                  (Comment.userName comment) updatedContent
                  (Comment.createdAt comment) now)
               (Some (User.token cu)))
            true;
          Toasted (Build_Toast TSuccess "Comment updated")] /\
     Reconciler.raised o = false /\
     length (Reconciler.after o) = length (Reconciler.before o) /\
     forall i p, Reconciler.before o !! i = Some p ->
       (Item.id p <> postId -> Reconciler.after o !! i = Some p) /\
       (Item.id p = postId ->
        exists cs,
          Reconciler.after o !! i
            = Some (Item.mk (Item.id p) (Item.userId p) (Item.userName p)
                      (Item.fields p) (Item.createdAt p) (Item.updatedAt p)
                      (Item.likes p) cs) /\
          length cs = length (Item.comments p) /\
          forall j c, Item.comments p !! j = Some c ->
            (Comment.id c = Comment.id comment ->
             cs !! j
               = Some (Comment.mk (Comment.id c) (Comment.userId c)
                         (Comment.userName c) updatedContent
                         (Comment.createdAt c) now')) /\
            (Comment.id c <> Comment.id comment -> cs !! j = Some c))) /\
  (forall comment ty body,
     CommentComponent.known ty = true ->
     deleteComment gw ty postId (Comment.id comment) (User.id cu)
       (Some (User.token cu)) = Ok body ->
     let o := Reconciler.exec gw (Some cu)
                (Reconciler.CommentDelete comment postId ty
                   ConfirmModal.ConfirmButton s) in
     Reconciler.events o
       = [Requested
            (DeleteComment ty postId (Comment.id comment) (User.id cu)
               (Some (User.token cu)))
            true;
          Toasted (Build_Toast TSuccess "Comment deleted")] /\
     Reconciler.raised o = false /\
     length (Reconciler.after o) = length (Reconciler.before o) /\
     forall i p, Reconciler.before o !! i = Some p ->
       (Item.id p <> postId -> Reconciler.after o !! i = Some p) /\
       (Item.id p = postId ->
        Reconciler.after o !! i
          = Some (Item.mk (Item.id p) (Item.userId p) (Item.userName p)
                    (Item.fields p) (Item.createdAt p) (Item.updatedAt p)
                    (Item.likes p)
                    (filter (fun c => Comment.id c <> Comment.id comment)
                            (Item.comments p))))).
Proof.
  split; [|split].
  - intros commentData r Hr. unfold_handlers; unfold_monad. cbn.
    rewrite Hr. cbn. split; [done|]. split; [done|].
    split; [by rewrite length_map|].
    intros i p Hp. rewrite lookup_map, Hp. cbn. split; intros H.
    + by rewrite decide_True.
    + by rewrite decide_False.
  - intros now now' comment ty updatedContent body Hk Hb Hr.
    unfold_handlers; unfold_monad. unfold Comment.edit. cbn.
    rewrite Hb, Hk. cbn.
    rewrite Hr. cbn. split; [done|]. split; [done|].
    split; [by rewrite length_map|].
    intros i p Hp. rewrite lookup_map, Hp. cbn. split; intros H.
    + by rewrite decide_False.
    + rewrite decide_True by done. eexists. split; [reflexivity|].
      split; [by rewrite length_map|].
      intros j c Hc. rewrite lookup_map, Hc. cbn. split; intros H'.
      * by rewrite decide_True.
      * by rewrite decide_False.
  - intros comment ty body Hk Hr.
    unfold_handlers; unfold_monad. cbn. rewrite Hk. cbn.
    rewrite Hr. cbn. split; [done|]. split; [done|].
    split; [by rewrite length_map|].
    intros i p Hp. rewrite lookup_map, Hp. cbn. split; intros H.
    + by rewrite decide_False.
    + by rewrite decide_True.
Qed.

(** The first comment of item 2 is edited by its author. *)
Lemma comment_policies_witness :
  updateComment Examples.online LEARNING_PLANS (PNum 2) (PNum 7)
    (Comment.mk (PNum 7) (PStr "u1") "Una" "edited" 5 9) (Some "token-u1")
    = Ok BNull /\
  Reconciler.events
    (Reconciler.exec Examples.online (Some Examples.u1)
       (Reconciler.CommentUpdate 9 10 Examples.comment7 (PNum 2)
          LEARNING_PLANS "edited" Examples.page12))
    = [Requested
         (UpdateComment LEARNING_PLANS (PNum 2) (PNum 7)
            (Comment.mk (PNum 7) (PStr "u1") "Una" "edited" 5 9)
            (Some "token-u1"))
         true;
       Toasted (Build_Toast TSuccess "Comment updated")] /\
  Reconciler.after
    (Reconciler.exec Examples.online (Some Examples.u1)
       (Reconciler.CommentUpdate 9 10 Examples.comment7 (PNum 2)
          LEARNING_PLANS "edited" Examples.page12))
    !! 0 = Some Examples.plan1 /\
  exists cs,
    Reconciler.after
      (Reconciler.exec Examples.online (Some Examples.u1)
         (Reconciler.CommentUpdate 9 10 Examples.comment7 (PNum 2)
            LEARNING_PLANS "edited" Examples.page12))
      !! 1 = Some (Item.mk (PNum 2) (PStr "u1") "Una" [] 0 0 [] cs) /\
    cs !! 0 = Some (Comment.mk (PNum 7) (PStr "u1") "Una" "edited" 5 10) /\
    cs !! 1 = Some (Comment.mk (PNum 8) (PStr "u0") "Olu" "second" 6 6).
Proof.
  split; [reflexivity|].
  destruct (comment_policies Examples.online Examples.u1 (PNum 2)
              Examples.page12) as (_ & Hupdate & _).
  destruct (Hupdate 9%Z 10%Z Examples.comment7 LEARNING_PLANS "edited" BNull
              eq_refl eq_refl eq_refl) as (Hevents & _ & _ & Hitems).
  split; [exact Hevents|].
  split; [apply (proj1 (Hitems 0 Examples.plan1 eq_refl)); discriminate|].
  destruct (proj2 (Hitems 1 Examples.plan2 eq_refl) eq_refl)
    as (cs & Hcs & _ & Hcomments).
  exists cs. split; [exact Hcs|]. split.
  - exact (proj1 (Hcomments 0 Examples.comment7 eq_refl) eq_refl).
  - apply (proj2 (Hcomments 1 Samples.comment8 eq_refl)). discriminate.
Defined.

(** ** The confirmation modal (C8) *)

Module ModalFacts.
Import ConfirmModal.

Lemma steps_app {C} (st : ModalState C) (a b : list (Input C)) :
  steps st (a ++ b) =
  (fst (steps (fst (steps st a)) b),
   snd (steps st a) ++ snd (steps (fst (steps st a)) b)).
Proof.
  revert st. induction a as [|i a IH]; intros st.
  - cbn. by destruct (steps st b).
  - cbn. destruct (step st i) as [st1 o1]. rewrite IH.
    destruct (steps st1 a) as [st2 o2]. cbn. by rewrite app_assoc.
Qed.

Lemma well_closed_app {C} (p : bool) (a b : list (Output C)) :
  well_closed p a = true -> well_closed false b = true ->
  well_closed p (a ++ b) = true.
Proof.
  revert p. induction a as [|o a IH]; intros p Ha Hb.
  - cbn in *. by destruct p.
  - destruct o; cbn in *.
    + apply andb_true_iff in Ha as [Hp Ha]. rewrite Hp. cbn. by apply IH.
    + by apply IH.
Qed.

(** What one input makes the modal do. *)
Lemma step_cases {C} (st : ModalState C) (i : Input C) :
  (exists config, i = OpenModal config /\ step st i = (Open config, [])) \/
  (exists c, i = Press c /\ st = Closed /\ step st i = (Closed, [])) \/
  (exists config, i = Press Panel /\ st = Open config /\
     step st i = (Open config, [])) \/
  (exists config, i = Press ConfirmButton /\ st = Open config /\
     step st i = (Closed, [Invoke (onConfirm config); Close])) \/
  (exists config c, i = Press c /\ c <> ConfirmButton /\ st = Open config /\
     step st i = (Closed, [Close])).
Proof.
  destruct i as [config|c].
  - left. by exists config.
  - right. destruct st as [|config]; [left; by exists c|right].
    destruct c; cbn.
    + right; right. by exists config, Backdrop.
    + left. by exists config.
    + right; right. by exists config, CloseButton.
    + right; right. by exists config, CancelButton.
    + right; left. by exists config.
Qed.

Lemma steps_well_closed {C} (st : ModalState C) (inputs : list (Input C)) :
  well_closed false (snd (steps st inputs)) = true.
Proof.
  revert st. induction inputs as [|i inputs IH]; intros st; [done|].
  cbn. destruct (step st i) as [st1 o1] eqn:E1. specialize (IH st1).
  destruct (steps st1 inputs) as [st2 o2]. cbn in *.
  apply well_closed_app; [|done].
  destruct (step_cases st i) as
    [(?&?&H)|[(?&?&?&H)|[(?&?&?&H)|[(?&?&?&H)|(?&?&?&?&?&H)]]]];
    rewrite H in E1; by injection E1 as <- <-.
Qed.

Lemma steps_invoked {C} (st : ModalState C) (inputs : list (Input C))
    (callback : C) :
  Invoke callback ∈ snd (steps st inputs) ->
  exists config,
    onConfirm config = callback /\
    (st = Open config \/ config ∈ opened inputs).
Proof.
  revert st. induction inputs as [|i inputs IH]; intros st.
  - cbn. intros H. inversion H.
  - cbn. destruct (step st i) as [st1 o1] eqn:E1. specialize (IH st1).
    destruct (steps st1 inputs) as [st2 o2]. cbn in *.
    rewrite elem_of_app. intros [Hin|Hin].
    + destruct (step_cases st i) as
        [(?&?&H)|[(?&?&?&H)|[(?&?&?&H)|[(cfg&?&?&H)|(?&?&?&?&?&H)]]]];
        rewrite H in E1; injection E1 as <- <-.
      1-3: by inversion Hin.
      * apply elem_of_cons in Hin as [Hin|Hin].
        -- injection Hin as ->. exists cfg. split; [done|by left].
        -- apply list_elem_of_singleton in Hin. discriminate.
      * apply list_elem_of_singleton in Hin. discriminate.
    + destruct (IH Hin) as (cfg & Hcb & [Hst|Hop]).
      * exists cfg. split; [done|].
        destruct (step_cases st i) as
          [(c0&->&H)|[(?&->&?&H)|[(c0&->&->&H)|[(?&->&?&H)|(?&?&->&?&?&H)]]]];
          rewrite H in E1; injection E1 as <- <-; try discriminate.
        -- injection Hst as <-. right. cbn. apply elem_of_cons. by left.
        -- injection Hst as <-. by left.
      * exists cfg. split; [done|]. right.
        destruct i; cbn; [apply elem_of_cons; by right|done].
Qed.

(** C8: whatever the modal went through, a press of the confirm button
    invokes the callback that was captured by the last [openModal] and
    then closes; every invocation in a run is followed at once by a
    close; a callback that is invoked was captured by an [openModal] of
    the run (or by the state the run began in); [openModal] replaces the
    configuration that was there, and a configuration that was replaced
    is never invoked by a later press; a press elsewhere invokes
    nothing. *)
Theorem confirm_then_close {C} (st : ModalState C)
    (inputs : list (Input C)) :
  well_closed false (snd (steps st inputs)) = true /\
  (forall callback,
     Invoke callback ∈ snd (steps st inputs) ->
     exists config,
       onConfirm config = callback /\
       (st = Open config \/ config ∈ opened inputs)) /\
  (forall config, fst (steps st (inputs ++ [OpenModal config])) = Open config)
  /\
  (forall config,
     steps st (inputs ++ [OpenModal config; Press ConfirmButton]) =
     (Closed,
      snd (steps st inputs) ++ [Invoke (onConfirm config); Close])) /\
  (forall config config',
     steps st (inputs ++ [OpenModal config; OpenModal config';
                          Press ConfirmButton]) =
     (Closed,
      snd (steps st inputs) ++ [Invoke (onConfirm config'); Close])) /\
  (forall config c,
     c <> ConfirmButton ->
     forall callback,
       Invoke callback ∈ snd (steps st (inputs ++ [OpenModal config; Press c]))
       -> Invoke callback ∈ snd (steps st inputs)).
Proof.
  split; [apply steps_well_closed|].
  split; [apply steps_invoked|].
  split; [|split; [|split]].
  - intros config. by rewrite steps_app.
  - intros config. by rewrite steps_app.
  - intros config config'. by rewrite steps_app.
  - intros config c Hc callback. rewrite steps_app. cbn.
    rewrite elem_of_app. intros [H|H]; [done|].
    destruct c; cbn in H; try done.
    all: try (apply list_elem_of_singleton in H; discriminate).
    inversion H.
Qed.

End ModalFacts.

(** The modal is opened twice and confirmed: the callback of the second
    opening runs, then the modal closes; the first is never invoked. *)
Lemma confirm_then_close_witness :
  ConfirmModal.steps ConfirmModal.Closed
    [ConfirmModal.OpenModal (Examples.ask 1);
     ConfirmModal.OpenModal (Examples.ask 2);
     ConfirmModal.Press ConfirmModal.ConfirmButton]
  = (ConfirmModal.Closed, [ConfirmModal.Invoke 2; ConfirmModal.Close]) /\
  ConfirmModal.well_closed false [ConfirmModal.Invoke 2; ConfirmModal.Close]
  = true.
Proof.
  destruct (ModalFacts.confirm_then_close (C:=nat) ConfirmModal.Closed [])
    as (_ & _ & _ & _ & Htwice & _).
  split; [exact (Htwice (Examples.ask 1) (Examples.ask 2))|].
  exact (proj1 (ModalFacts.confirm_then_close
                  (ConfirmModal.Open (Examples.ask 2))
                  [ConfirmModal.Press ConfirmModal.ConfirmButton])).
Defined.

(** ** The invariants of the store (C9) *)

Lemma map_fmap {A B} (f : A -> B) (l : list A) : map f l = f <$> l.
Proof. by induction l as [|x l IH]; cbn; [|rewrite IH]. Qed.

Lemma keeps_refl x : keeps_comment_order x x.
Proof. by split. Qed.

Lemma preserved_same gw l : store_inv l -> preserved gw l l.
Proof.
  intros H. split; [done|]. intros x Hx. right. exists x.
  split; [done|apply keeps_refl].
Qed.

(** A by-id map whose updater keeps the id and the likes invariant. *)
Lemma preserved_patch gw (P : Item.t -> Prop) `{forall x, Decision (P x)}
    (g : Item.t -> Item.t) (l : list Item.t) :
  (forall x, x ∈ l -> P x -> item_inv x ->
     Item.id (g x) = Item.id x /\ item_inv (g x) /\
     (from_server gw (g x) \/ keeps_comment_order x (g x))) ->
  store_inv l ->
  preserved gw l (map (fun x => if decide (P x) then g x else x) l).
Proof.
  intros Hg [Hnd Hall]. split; [split|].
  - replace (ids (map (fun x => if decide (P x) then g x else x) l))
      with (ids l); [done|].
    unfold ids. rewrite map_map. apply map_ext_in. intros x Hx.
    destruct (decide (P x)) as [HP|]; [|done].
    apply list_elem_of_In in Hx. rewrite Forall_forall in Hall.
    by destruct (Hg x Hx HP (Hall x Hx)) as (-> & _).
  - rewrite Forall_forall in Hall |- *. intros x' Hx'.
    apply list_elem_of_In, in_map_iff in Hx' as (x & <- & Hx).
    apply list_elem_of_In in Hx.
    destruct (decide (P x)) as [HP|]; [|by apply Hall].
    by destruct (Hg x Hx HP (Hall x Hx)) as (_ & ? & _).
  - intros x' Hx'.
    apply list_elem_of_In, in_map_iff in Hx' as (x & <- & Hx).
    apply list_elem_of_In in Hx. rewrite Forall_forall in Hall.
    destruct (decide (P x)) as [HP|].
    + destruct (Hg x Hx HP (Hall x Hx)) as (_ & _ & [Hs|Hk]); [by left|].
      right. by exists x.
    + right. exists x. split; [done|apply keeps_refl].
Qed.

Lemma preserved_filter gw (P : Item.t -> Prop) `{forall x, Decision (P x)}
    (l : list Item.t) :
  store_inv l -> preserved gw l (filter P l).
Proof.
  intros [Hnd Hall]. split; [split|].
  - unfold ids in *. rewrite map_fmap in *.
    eapply sublist_NoDup; [exact Hnd|]. apply fmap_sublist, sublist_filter.
  - rewrite Forall_forall in Hall |- *. intros x Hx.
    apply list_elem_of_filter in Hx as [_ Hx]. by apply Hall.
  - intros x Hx. apply list_elem_of_filter in Hx as [_ Hx].
    right. exists x. split; [done|apply keeps_refl].
Qed.

Lemma preserved_cons gw r (l : list Item.t) :
  item_inv r -> Item.id r ∉ ids l -> from_server gw r ->
  store_inv l -> preserved gw l (r :: l).
Proof.
  intros Hr Hid Hs [Hnd Hall]. split; [split|].
  - unfold ids in *. cbn. by apply NoDup_cons.
  - by constructor.
  - intros x Hx. apply elem_of_cons in Hx as [->|Hx]; [by left|].
    right. exists x. split; [done|apply keeps_refl].
Qed.

Lemma preserved_server gw (l l' : list Item.t) :
  store_inv l' -> (forall x, x ∈ l' -> from_server gw x) ->
  preserved gw l l'.
Proof. intros H1 H2. split; [done|]. intros x Hx. left. by apply H2. Qed.

Lemma item_inv_unlike u x :
  item_inv x ->
  item_inv (Item.with_likes
              (filter (fun like => Like.userId like <> u) (Item.likes x)) x).
Proof.
  unfold item_inv, likers. cbn. rewrite !map_fmap. intros H.
  eapply sublist_NoDup; [exact H|]. apply fmap_sublist, sublist_filter.
Qed.

Lemma keeps_edit x commentId content now :
  keeps_comment_order x
    (Item.with_comments
       (map (fun comment =>
               if decide (Comment.id comment = commentId)
               then Comment.edit content now comment else comment)
            (Item.comments x)) x).
Proof.
  split; [done|]. unfold commentIds. cbn. rewrite map_map.
  erewrite map_ext; [done|]. intros c. cbn. by destruct (decide _).
Qed.

Lemma keeps_remove x commentId :
  keeps_comment_order x
    (Item.with_comments
       (filter (fun comment => Comment.id comment <> commentId)
               (Item.comments x)) x).
Proof.
  split; [done|]. unfold commentIds. cbn. rewrite !map_fmap.
  apply fmap_sublist, sublist_filter.
Qed.

Lemma fs_list gw token l x :
  getAllLearningPlans gw token = Ok l -> x ∈ l -> from_server gw x.
Proof. intros. left. eauto. Qed.
Lemma fs_create gw a b c x :
  createLearningPlan gw a b c = Ok x -> from_server gw x.
Proof. intros. right; left. eauto. Qed.
Lemma fs_like gw a b c x : addLike gw a b c = Ok x -> from_server gw x.
Proof. intros. do 2 right; left. eauto. Qed.
Lemma fs_comment gw a b c x : addComment gw a b c = Ok x -> from_server gw x.
Proof. intros. do 3 right; left. eauto. Qed.
Lemma fs_events gw l x : eventsGet gw = Ok l -> x ∈ l -> from_server gw x.
Proof. intros. do 4 right; left. eauto. Qed.
Lemma fs_resources gw l x :
  resourcesGet gw = Ok (BArr l) -> x ∈ l -> from_server gw x.
Proof. intros. do 5 right; left. eauto. Qed.
Lemma fs_resources_obj gw props l x :
  resourcesGet gw = Ok (BObj props) ->
  ResourcesPage.property "resources" props = Some (BArr l) ->
  x ∈ l -> from_server gw x.
Proof. intros. do 6 right; left. eauto. Qed.
Lemma fs_post gw a b x : resourcesPost gw a b = Ok x -> from_server gw x.
Proof. intros. do 7 right; left. eauto. Qed.
Lemma fs_put gw a b c x : resourcesPut gw a b c = Ok x -> from_server gw x.
Proof. intros. do 8 right. eauto. Qed.

Lemma store_inv_nil : store_inv [].
Proof. split; constructor. Qed.

Lemma item_inv_with_comments cs x :
  item_inv x -> item_inv (Item.with_comments cs x).
Proof. done. Qed.

(** One leaf of the case analysis of a run: the store after it, against
    what the server is assumed to answer. *)
Ltac preserved_leaf Hinv Hwb :=
  match goal with
  | |- preserved _ ?l ?l => by apply preserved_same
  | |- preserved _ _ [] =>
      apply preserved_server; [apply store_inv_nil|by intros x Hx; inversion Hx]
  | |- preserved _ _ (filter _ _) => by apply preserved_filter
  | H : getAllLearningPlans _ _ = Ok ?d |- preserved _ _ ?d =>
      apply preserved_server;
      [exact (wb_list _ _ Hwb _ _ H)|intros x Hx; exact (fs_list _ _ _ _ H Hx)]
  | H : eventsGet _ = Ok ?d |- preserved _ _ ?d =>
      apply preserved_server;
      [exact (wb_events _ _ Hwb _ H)|intros x Hx; exact (fs_events _ _ _ H Hx)]
  | H : resourcesGet _ = Ok (BArr ?d) |- preserved _ _ ?d =>
      apply preserved_server;
      [exact (wb_resources _ _ Hwb _ H)
      |intros x Hx; exact (fs_resources _ _ _ H Hx)]
  | H : resourcesGet _ = Ok (BObj ?ps),
    H' : ResourcesPage.property _ ?ps = Some (BArr ?d)
    |- preserved _ _ ?d =>
      apply preserved_server;
      [exact (wb_resources_obj _ _ Hwb _ _ H H')
      |intros x Hx; exact (fs_resources_obj _ _ _ _ H H' Hx)]
  | H : createLearningPlan _ _ _ _ = Ok ?d |- preserved _ _ (?d :: _) =>
      destruct (wb_create _ _ Hwb _ _ _ _ H);
      apply preserved_cons; [done|done|exact (fs_create _ _ _ _ _ H)|done]
  | H : resourcesPost _ _ _ = Ok ?d |- preserved _ _ (?d :: _) =>
      destruct (wb_post _ _ Hwb _ _ _ H);
      apply preserved_cons; [done|done|exact (fs_post _ _ _ _ H)|done]
  | H : addLike _ ?i _ _ = Ok ?d |- preserved ?gw _ (map _ _) =>
      destruct (wb_like _ _ Hwb _ _ _ _ H);
      apply (preserved_patch gw (fun plan => Item.id plan = i) (fun _ => d));
      [|done]; intros x Hx HP Hix;
      split; [congruence|]; split; [done|]; left; exact (fs_like _ _ _ _ _ H)
  | H : addComment _ ?i _ _ = Ok ?d |- preserved ?gw _ (map _ _) =>
      destruct (wb_comment _ _ Hwb _ _ _ _ H);
      apply (preserved_patch gw (fun plan => Item.id plan = i) (fun _ => d));
      [|done]; intros x Hx HP Hix;
      split; [congruence|]; split; [done|]; left;
      exact (fs_comment _ _ _ _ _ H)
  | H : resourcesPut _ ?e _ _ = Ok ?d |- preserved ?gw _ (map _ _) =>
      apply (preserved_patch gw (fun r => Some (Item.id r) = e) (fun _ => d));
      [|done]; intros x Hx HP Hix; rewrite <- HP in H;
      destruct (wb_put _ _ Hwb _ _ _ _ H);
      split; [done|]; split; [done|]; left; exact (fs_put _ _ _ _ _ H)
  | |- preserved ?gw _
         (map (fun plan => if decide (Item.id plan = ?i) then
                             Item.with_likes (filter ?P _) plan
                           else plan) _) =>
      apply (preserved_patch gw (fun plan => Item.id plan = i)
               (fun plan => Item.with_likes (filter P (Item.likes plan)) plan));
      [|done]; intros x Hx HP Hix;
      split; [done|]; split; [by apply item_inv_unlike|]; right; by split
  | |- preserved ?gw _
         (map (fun plan => if decide (Item.id plan = ?i) then
                             Item.with_comments (map ?f _) plan
                           else plan) _) =>
      apply (preserved_patch gw (fun plan => Item.id plan = i)
               (fun plan => Item.with_comments (map f (Item.comments plan))
                                               plan));
      [|done]; intros x Hx HP Hix;
      split; [done|]; split; [done|]; right; apply keeps_edit
  | |- preserved ?gw _
         (map (fun plan => if decide (Item.id plan = ?i) then
                             Item.with_comments (filter ?P _) plan
                           else plan) _) =>
      apply (preserved_patch gw (fun plan => Item.id plan = i)
               (fun plan => Item.with_comments (filter P (Item.comments plan))
                                               plan));
      [|done]; intros x Hx HP Hix;
      split; [done|]; split; [done|]; right; apply keeps_remove
  end.

(** C9: every operation of the reconciler keeps the invariants of the
    store, for a server whose answers are well formed and are about the
    item asked for (a created item has an unused id): ids stay unique and
    no item has two likes of one user.  Every item of the store after the
    operation either came from the server or is an item of the store
    before, under its id, whose comments are comments it had, in the
    order they had. *)
Theorem invariants_preserved gw currentUser op :
  let r := Reconciler.exec gw currentUser op in
  store_inv (Reconciler.before r) ->
  well_behaved gw (Reconciler.before r) ->
  store_inv (Reconciler.after r) /\
  forall x', x' ∈ Reconciler.after r ->
    from_server gw x' \/
    exists x, x ∈ Reconciler.before r /\
      Item.id x' = Item.id x /\ commentIds x' `sublist_of` commentIds x.
Proof.
  intros r.
  change (store_inv (Reconciler.before r) ->
          well_behaved gw (Reconciler.before r) ->
          preserved gw (Reconciler.before r) (Reconciler.after r)).
  subst r.
  destruct op; unfold_handlers; unfold_monad; split_run;
    intros Hinv Hwb.
  all: preserved_leaf Hinv Hwb.
Qed.

Lemma likes_server_well_behaved store :
  well_behaved Examples.likes_server store.
Proof.
  split; try discriminate.
  intros planId likeData token r. cbn.
    destruct (bool_decide (planId = PNum 1)) eqn:E; [|discriminate].
    apply bool_decide_eq_true in E as ->. intros [= <-].
    split; [|done]. unfold item_inv, likers. cbn. apply NoDup_singleton.
Qed.

(** Item 1 is liked by ["u1"] on a server that answers with the item. *)
Lemma invariants_preserved_witness :
  store_inv [Examples.plan1] /\
  well_behaved Examples.likes_server [Examples.plan1] /\
  store_inv (Reconciler.after
               (Reconciler.exec Examples.likes_server (Some Examples.u1)
                  (Reconciler.PlanLike (PNum 1) Examples.page1))) /\
  Reconciler.after
    (Reconciler.exec Examples.likes_server (Some Examples.u1)
       (Reconciler.PlanLike (PNum 1) Examples.page1))
    = [Examples.plan1_liked].
Proof.
  assert (Hinv : store_inv [Examples.plan1]).
  { split; [apply NoDup_singleton|]. repeat constructor. }
  split; [exact Hinv|].
  split; [apply likes_server_well_behaved|].
  split; [|reflexivity].
  exact (proj1 (invariants_preserved Examples.likes_server
                  (Some Examples.u1)
                  (Reconciler.PlanLike (PNum 1) Examples.page1)
                  Hinv (likes_server_well_behaved _))).
Defined.

(** ** The list of resources (C10) *)

(** What [fetchResources] does with an answer, by its shape: an array is
    the new store; so is the array under [resources] of an object; any
    other body but [null] empties the store. *)
Lemma fetchResources_shapes gw s body :
  resourcesGet gw = Ok body ->
  let w := snd (run (ResourcesPage.fetchResources gw) s) in
  (forall l, body = BArr l -> ResourcesPage.resources (page w) = l) /\
  (forall props l,
     body = BObj props ->
     ResourcesPage.property "resources" props = Some (BArr l) ->
     ResourcesPage.resources (page w) = l) /\
  ((forall l, body <> BArr l) ->
   (forall props l,
      body = BObj props ->
      ResourcesPage.property "resources" props <> Some (BArr l)) ->
   body <> BNull ->
   ResourcesPage.resources (page w) = []).
Proof.
  intros Hb. unfold_handlers; unfold_monad. cbn. rewrite Hb.
  split; [|split].
  - by intros l ->.
  - intros props l -> Hp. cbn. by rewrite Hp.
  - intros Harr Hobj Hnull. destruct body as [| | | |l|props]; try done.
    + by destruct (Harr l).
    + cbn. destruct (ResourcesPage.property "resources" props)
        as [[| | | |l|]|] eqn:E; try done.
      by destruct (Hobj props l eq_refl).
Qed.

(** C10 at the body [null]: reading [data.resources] throws inside the
    [try]; the store is not set to the empty list but left as it was, the
    error is recorded and the failure of the load is notified. *)
Lemma fetchResources_null_body :
  let w := snd (run (ResourcesPage.fetchResources Examples.null_server)
                    Examples.resources12) in
  calls w = [ResourcesGet] /\
  failures w = [] /\
  ResourcesPage.resources (page w) = [Examples.plan1; Examples.plan2] /\
  ResourcesPage.error (page w) = Some TypeError /\
  toasts w = [Build_Toast TError "Failed to load resources"].
Proof. by vm_compute. Qed.

(** ** The by-id map on references and on values *)

Lemma reads_extends (h ext : Ref.Heap) items values :
  Ref.reads h items values -> Ref.reads (h ++ ext) items values.
Proof.
  unfold Ref.reads. intros H. eapply Forall2_impl; [exact H|].
  intros l o Hl. by apply lookup_app_l_Some.
Qed.

Lemma copy_reads f (h : Ref.Heap) l o :
  h !! l = Some o ->
  fst (Ref.copy f h l) !! snd (Ref.copy f h l) = Some (f o).
Proof.
  intros Hl. unfold Ref.copy, Ref.alloc. rewrite Hl. cbn [fst snd].
  by apply list_lookup_middle.
Qed.

(** The array of references that the by-id map returns stands for the
    list of values that the by-id map on values returns, when the
    updater on references stands for the updater on values in every heap
    that the run can reach from [h0]. *)
Lemma patchById_refines id updater f (h0 : Ref.Heap) :
  Ref.pure updater ->
  (forall ext l o, (h0 ++ ext) !! l = Some o ->
     fst (updater (h0 ++ ext) l) !! snd (updater (h0 ++ ext) l)
       = Some (f o)) ->
  forall items ext values,
    Ref.reads (h0 ++ ext) items values ->
    Ref.reads (fst (Ref.patchById id updater (h0 ++ ext) items))
              (snd (Ref.patchById id updater (h0 ++ ext) items))
              (patchById id f values).
Proof.
  intros Hp Hf items. induction items as [|l rest IH]; intros ext values Hr.
  - inversion Hr; subst. constructor.
  - inversion Hr as [|? o ? values' Hl Hrest]; subst.
    rewrite RefFacts.patchById_cons. cbn zeta. cbn [fst snd].
    rewrite Hl. unfold patchById. cbn [map].
    fold (patchById id f values').
    destruct (decide (Item.id o = id)) as [Heq|Hne].
    + destruct (Hp (h0 ++ ext) l) as [e1 He1].
      destruct (RefFacts.patchById_extends id updater Hp rest
                  (fst (updater (h0 ++ ext) l))) as [e2 He2].
      constructor.
      * rewrite He2. apply lookup_app_l_Some. by apply Hf.
      * rewrite He1, <- app_assoc. apply IH. rewrite app_assoc.
        by apply reads_extends.
    + destruct (RefFacts.patchById_extends id updater Hp rest (h0 ++ ext))
        as [e2 He2].
      constructor.
      * cbn. rewrite He2. by apply lookup_app_l_Some.
      * by apply IH.
Qed.

(** The handlers of the page compute what the maps on references stand
    for. *)
Lemma handleUpdateComment_refines now planId commentId updatedContent
    (s : LearningPlanPage.State) h items :
  Ref.reads h items (LearningPlanPage.learningPlans s) ->
  Ref.reads
    (fst (Ref.handleUpdateComment now planId commentId updatedContent h
            items))
    (snd (Ref.handleUpdateComment now planId commentId updatedContent h
            items))
    (LearningPlanPage.learningPlans
       (page (snd (run (LearningPlanPage.handleUpdateComment now planId
                          commentId updatedContent) s)))).
Proof.
  intros Hr. unfold Ref.handleUpdateComment.
  rewrite <- (app_nil_r h) in Hr |- *.
  eapply (patchById_refines planId _ _ h (RefFacts.copy_pure _)) in Hr;
    [exact Hr|].
  intros ext l o. apply copy_reads.
Qed.

Lemma handleDeleteComment_refines planId commentId
    (s : LearningPlanPage.State) h items :
  Ref.reads h items (LearningPlanPage.learningPlans s) ->
  Ref.reads
    (fst (Ref.handleDeleteComment planId commentId h items))
    (snd (Ref.handleDeleteComment planId commentId h items))
    (LearningPlanPage.learningPlans
       (page (snd (run (LearningPlanPage.handleDeleteComment planId
                          commentId) s)))).
Proof.
  intros Hr. unfold Ref.handleDeleteComment.
  rewrite <- (app_nil_r h) in Hr |- *.
  eapply (patchById_refines planId _ _ h (RefFacts.copy_pure _)) in Hr;
    [exact Hr|].
  intros ext l o. apply copy_reads.
Qed.

(** The map of [ResourcesPage.handleUpdate], for an answer [data] that
    is an object of the heap. *)
Lemma handleUpdate_refines editingId data (o : Item.t)
    (resources : list Item.t) (h : Ref.Heap) items :
  h !! data = Some o ->
  Ref.reads h items resources ->
  Ref.reads
    (fst (Ref.handleUpdate editingId data h items))
    (snd (Ref.handleUpdate editingId data h items))
    (map (fun r => if decide (Some (Item.id r) = Some editingId) then o
                   else r) resources).
Proof.
  intros Hd Hr. unfold Ref.handleUpdate.
  rewrite <- (app_nil_r h) in Hr |- *.
  eapply (patchById_refines editingId _ (fun _ => o) h
            (RefFacts.const_pure data)) in Hr.
  - unfold patchById in Hr.
    erewrite map_ext; [exact Hr|]. intros r. cbn.
    destruct (decide (Item.id r = editingId)) as [->|Hne].
    + by rewrite decide_True.
    + rewrite decide_False; [done|]. by intros [= ?].
  - intros ext l o0 _. cbn. by apply lookup_app_l_Some.
Qed.

(** * Further properties of the pages *)

(** ** More of the learning plan page *)

(** X1: with a current user, a plan whose title or description is empty
    or white space only is not sent: the run issues no request, shows the
    one error, and leaves every cell of the page as it was. *)
Theorem plan_submit_blank gw (cu : User.t) data
    (s : LearningPlanPage.State) :
  blank (pf_title data) || blank (pf_description data) = true ->
  run (LearningPlanPage.handlePlanSubmit gw (Some cu) data) s =
  (Returned tt,
   mkWorld s
     [Toasted (Build_Toast TError "Title and description are required")]).
Proof.
  intros Hb. unfold_handlers; unfold_monad. cbn. by rewrite Hb.
Qed.

Lemma plan_submit_blank_witness :
  blank " " || blank "Week 1: arrays" = true /\
  run (LearningPlanPage.handlePlanSubmit Examples.online (Some Examples.u1)
         (Build_PlanForm " " "Week 1: arrays" "" "")) Examples.page1 =
  (Returned tt,
   mkWorld Examples.page1
     [Toasted (Build_Toast TError "Title and description are required")]).
Proof.
  split; [reflexivity|].
  exact (plan_submit_blank Examples.online Examples.u1
           (Build_PlanForm " " "Week 1: arrays" "" "") Examples.page1
           eq_refl).
Defined.

(** X2: a plan with title and description, sent by a current user.  When
    the server answers with the created item, the item is put in front of
    the store, the form is reset once and success is shown; when the
    request fails, the store and the form stay and one error is shown.
    Either way one request was made, the handler ends normally and the
    form is enabled again. *)
Theorem plan_submit_outcomes gw (cu : User.t) data
    (s : LearningPlanPage.State) :
  blank (pf_title data) || blank (pf_description data) = false ->
  let planData :=
    Build_PlanData (User.id cu) (User.name cu) (User.profileImage cu) data in
  let rq := CreateLearningPlan (User.id cu) planData (User.token cu) in
  let r := run (LearningPlanPage.handlePlanSubmit gw (Some cu) data) s in
  fst r = Returned tt /\
  calls (snd r) = [rq] /\
  LearningPlanPage.isSubmitting (page (snd r)) = false /\
  (forall item,
     createLearningPlan gw (User.id cu) planData (User.token cu) = Ok item ->
     LearningPlanPage.learningPlans (page (snd r))
       = item :: LearningPlanPage.learningPlans s /\
     LearningPlanPage.resets (page (snd r))
       = S (LearningPlanPage.resets s) /\
     toasts (snd r)
       = [Build_Toast TSuccess "Learning plan shared successfully"]) /\
  (failed (createLearningPlan gw (User.id cu) planData (User.token cu)) ->
   LearningPlanPage.learningPlans (page (snd r))
     = LearningPlanPage.learningPlans s /\
   LearningPlanPage.resets (page (snd r)) = LearningPlanPage.resets s /\
   toasts (snd r) = [Build_Toast TError "Failed to share learning plan"]).
Proof.
  intros Hb planData rq r. subst planData rq r.
  unfold_handlers; unfold_monad. cbn. rewrite Hb.
  destruct (createLearningPlan gw _ _ _) as [item|e] eqn:E; cbn.
  - split; [done|]. split; [done|]. split; [done|]. split; [|done].
    by intros item' [= <-].
  - split; [done|]. split; [done|]. split; [done|]. by split.
Qed.

Lemma plan_submit_outcomes_witness :
  blank "Trees" || blank "Week 2" = false /\
  LearningPlanPage.learningPlans
    (page (snd (run (LearningPlanPage.handlePlanSubmit Examples.online
                       (Some Examples.u1)
                       (Build_PlanForm "Trees" "Week 2" "" ""))
                    Examples.page12)))
    = [Examples.plan1; Examples.plan1; Examples.plan2].
Proof.
  split; [reflexivity|].
  destruct (plan_submit_outcomes Examples.online Examples.u1
              (Build_PlanForm "Trees" "Week 2" "" "") Examples.page12
              eq_refl) as (_ & _ & _ & Hok & _).
  exact (proj1 (Hok Examples.plan1 eq_refl)).
Defined.

(** X3: what each page shows after its first load, from the state it is
    created in.  The learning plan page asks for the list whether or not
    there is a user; when the answer is a failure it shows the note for
    an empty feed (and one error notification), as it does for an empty
    list.  The events page shows the text of the failure and notifies
    nothing.  The resources page, for a user, shows neither loading note
    nor listing but the error, and notifies once.  None of the loads
    leaves its page loading, and none throws. *)
Theorem first_load_views gw currentUser :
  (let r := run (LearningPlanPage.fetchLearningPlans gw currentUser)
                LearningPlanPage.initial in
   fst r = Returned tt /\
   calls (snd r) = [GetAllLearningPlans (User.token <$> currentUser)] /\
   (forall l, getAllLearningPlans gw (User.token <$> currentUser) = Ok l ->
      toasts (snd r) = [] /\
      LearningPlanView.render (page (snd r)) =
        match l with [] => LearningPlanView.NoPlans
                   | _ => LearningPlanView.Cards l end) /\
   (failed (getAllLearningPlans gw (User.token <$> currentUser)) ->
      toasts (snd r) = [Build_Toast TError "Failed to load learning plans"]
      /\ LearningPlanView.render (page (snd r)) = LearningPlanView.NoPlans))
  /\
  (let r := run (EventsPage.mount gw) EventsPage.initial in
   fst r = Returned tt /\
   toasts (snd r) = [] /\
   (forall l, eventsGet gw = Ok l ->
      EventsView.render (EventsView.mkState (page (snd r))
                                            EventsView.emptyForm)
        = EventsView.Cards l None) /\
   (forall e, eventsGet gw = Fail e ->
      EventsView.render (EventsView.mkState (page (snd r))
                                            EventsView.emptyForm)
        = EventsView.ErrorText (GatewayFailure e))) /\
  (forall cu searchQuery e,
     currentUser = Some cu -> resourcesGet gw = Fail e ->
     let r := run (ResourcesView.effect gw false currentUser)
                  ResourcesPage.initial in
     fst r = Returned tt /\
     toasts (snd r) = [Build_Toast TError "Failed to load resources"] /\
     ResourcesView.render false currentUser searchQuery (page (snd r))
       = Some (ResourcesView.Shown
                 (ResourcesView.mkPage false (Some (GatewayFailure e))
                                       None))).
Proof.
  split; [|split].
  - unfold_handlers; unfold_monad. cbn.
    destruct (getAllLearningPlans gw _) as [l|e]; cbn.
    + split; [done|]. split; [done|]. split; [|done].
      intros l' [= <-]. split; [done|]. by destruct l.
    + split; [done|]. split; [done|]. by split.
  - unfold_handlers; unfold_monad. cbn.
    destruct (eventsGet gw) as [l|e]; cbn.
    + split; [done|]. split; [done|]. split; [|done]. by intros l' [= <-].
    + split; [done|]. split; [done|]. split; [done|]. by intros e' [= <-].
  - intros cu q e -> He. unfold ResourcesView.effect. cbn.
    unfold_handlers; unfold_monad. cbn. by rewrite He.
Qed.

(** X4: a like-toggle for an id that no item of the store has.  The
    viewer counts as not having liked it: add-like is requested, and
    whatever the answer, no item of the store changes; a failure is
    notified, a success is not. *)
Theorem like_missing_item gw (cu : User.t) planId
    (s : LearningPlanPage.State) :
  find (fun p => bool_decide (Item.id p = planId))
       (LearningPlanPage.learningPlans s) = None ->
  let r := run (LearningPlanPage.handleLike gw (Some cu) planId) s in
  let rq := AddLike planId (Like.mk (User.id cu) (User.name cu))
                    (User.token cu) in
  fst r = Returned tt /\
  calls (snd r) = [rq] /\
  LearningPlanPage.learningPlans (page (snd r))
    = LearningPlanPage.learningPlans s /\
  (succeeded (addLike gw planId (Like.mk (User.id cu) (User.name cu))
                      (User.token cu)) ->
   toasts (snd r) = []) /\
  (failed (addLike gw planId (Like.mk (User.id cu) (User.name cu))
                   (User.token cu)) ->
   toasts (snd r) = [Build_Toast TError "Failed to process like"]).
Proof.
  intros Hf r rq. subst r rq.
  assert (Hmap : forall (x : Item.t) l,
            find (fun p => bool_decide (Item.id p = planId)) l = None ->
            map (fun plan => if decide (Item.id plan = planId) then x
                             else plan) l = l).
  { intros x l. induction l as [|y l IH]; [done|]. cbn.
    destruct (bool_decide (Item.id y = planId)) eqn:E; [discriminate|].
    apply bool_decide_eq_false in E. intros H.
    rewrite decide_False by done. by rewrite IH. }
  unfold_handlers; unfold_monad. cbn.
  unfold LearningPlanPage.isLiked. rewrite Hf.
  destruct (addLike gw _ _ _) as [x|e]; cbn.
  - rewrite Hmap by done. split; [done|]. split; [done|]. by split.
  - split; [done|]. split; [done|]. by split.
Qed.

Lemma like_missing_item_witness :
  find (fun p => bool_decide (Item.id p = PNum 9))
       (LearningPlanPage.learningPlans Examples.page12) = None /\
  calls (snd (run (LearningPlanPage.handleLike Examples.online
                     (Some Examples.u1) (PNum 9)) Examples.page12))
    = [AddLike (PNum 9) (Like.mk (PStr "u1") "Una") "token-u1"] /\
  LearningPlanPage.learningPlans
    (page (snd (run (LearningPlanPage.handleLike Examples.online
                       (Some Examples.u1) (PNum 9)) Examples.page12)))
    = [Examples.plan1; Examples.plan2].
Proof.
  split; [reflexivity|].
  destruct (like_missing_item Examples.online Examples.u1 (PNum 9)
              Examples.page12 eq_refl) as (_ & Hc & Hs & _).
  split; [exact Hc|exact Hs].
Defined.

Lemma first_load_views_witness :
  resourcesGet Examples.offline = Fail NetworkError /\
  ResourcesView.render false (Some Examples.u1) "tree"
    (page (snd (run (ResourcesView.effect Examples.offline false
                       (Some Examples.u1)) ResourcesPage.initial)))
  = Some (ResourcesView.Shown
            (ResourcesView.mkPage false
               (Some (GatewayFailure NetworkError)) None)).
Proof.
  split; [reflexivity|].
  destruct (first_load_views Examples.offline (Some Examples.u1))
    as (_ & _ & Hres).
  exact (proj2 (proj2 (Hres Examples.u1 "tree" NetworkError eq_refl
                         eq_refl))).
Defined.

(** The page after the local delete of a comment. *)
Lemma handleDeleteComment_page planId commentId
    (s : LearningPlanPage.State) :
  page (snd (run (LearningPlanPage.handleDeleteComment planId commentId) s))
  = LearningPlanPage.mkState
      (patchById planId
         (fun plan =>
            Item.with_comments
              (filter (fun c => Comment.id c <> commentId)
                      (Item.comments plan))
              plan)
         (LearningPlanPage.learningPlans s))
      (LearningPlanPage.loading s) (LearningPlanPage.isSubmitting s)
      (LearningPlanPage.editingPlan s) (LearningPlanPage.modalState s)
      (LearningPlanPage.resets s).
Proof. reflexivity. Qed.

Lemma handleDeleteComment_store planId commentId
    (s : LearningPlanPage.State) :
  LearningPlanPage.learningPlans
    (page (snd (run (LearningPlanPage.handleDeleteComment planId commentId)
                    s)))
  = patchById planId
      (fun plan =>
         Item.with_comments
           (filter (fun c => Comment.id c <> commentId) (Item.comments plan))
           plan)
      (LearningPlanPage.learningPlans s).
Proof. reflexivity. Qed.

Lemma patchById_ids id (f : Item.t -> Item.t) l :
  (forall x, Item.id (f x) = Item.id x) ->
  ids (patchById id f l) = ids l.
Proof.
  intros Hf. unfold ids, patchById. rewrite map_map. apply map_ext.
  intros x. by destruct (decide (Item.id x = id)).
Qed.

Lemma patchById_twice id (f g : Item.t -> Item.t) l :
  (forall x, Item.id (g x) = Item.id x) ->
  patchById id f (patchById id g l) = patchById id (fun x => f (g x)) l.
Proof.
  intros Hg. unfold patchById. rewrite map_map. apply map_ext.
  intros x. destruct (decide (Item.id x = id)) as [e|n].
  - rewrite decide_True; [done|]. by rewrite Hg.
  - by rewrite decide_False.
Qed.

Lemma removeById_patchById id (f : Item.t -> Item.t) l :
  (forall x, Item.id (f x) = Item.id x) ->
  removeById id (patchById id f l) = removeById id l.
Proof.
  intros Hf. unfold removeById, patchById.
  induction l as [|x l IH]; [done|]. cbn [map].
  destruct (decide (Item.id x = id)) as [e|n].
  - rewrite !filter_cons_False; [done| |]; intros H; apply H;
      [done|by rewrite Hf].
  - rewrite !filter_cons_True by done. by rewrite IH.
Qed.

(** X5: after the local delete of a comment, no item with the id of the
    plan holds a comment with that id any more; the items of the store
    are the same items, by id and in order, and each keeps its likes;
    deleting the same comment again changes nothing. *)
Theorem comment_delete_gone planId commentId (s : LearningPlanPage.State) :
  let s1 := page (snd (run (LearningPlanPage.handleDeleteComment planId
                              commentId) s)) in
  let s2 := page (snd (run (LearningPlanPage.handleDeleteComment planId
                              commentId) s1)) in
  (forall x, x ∈ LearningPlanPage.learningPlans s1 ->
     Item.id x = planId -> commentId ∉ commentIds x) /\
  ids (LearningPlanPage.learningPlans s1)
    = ids (LearningPlanPage.learningPlans s) /\
  map Item.likes (LearningPlanPage.learningPlans s1)
    = map Item.likes (LearningPlanPage.learningPlans s) /\
  trace (snd (run (LearningPlanPage.handleDeleteComment planId commentId) s))
    = [] /\
  s2 = s1.
Proof.
  intros s1 s2. subst s1 s2.
  split; [|split; [|split; [|split]]].
  - intros x Hx Hid. rewrite handleDeleteComment_store in Hx.
    unfold patchById in Hx.
    apply list_elem_of_In, in_map_iff in Hx as (y & Hy & _).
    destruct (decide (Item.id y = planId)) as [e|n].
    + subst x. unfold commentIds. cbn.
      rewrite list_elem_of_In, in_map_iff. intros (c & Hc & Hin).
      apply list_elem_of_In, list_elem_of_filter in Hin. by destruct Hin.
    + subst x. done.
  - rewrite handleDeleteComment_store. by apply patchById_ids.
  - rewrite handleDeleteComment_store. unfold patchById.
    rewrite map_map. apply map_ext. intros x. by destruct (decide _).
  - reflexivity.
  - rewrite !handleDeleteComment_page.
    cbn [LearningPlanPage.learningPlans LearningPlanPage.loading
         LearningPlanPage.isSubmitting LearningPlanPage.editingPlan
         LearningPlanPage.modalState LearningPlanPage.resets].
    f_equal.
    rewrite patchById_twice by done. unfold patchById. apply map_ext.
    intros x. destruct (decide _); [|done]. cbn. unfold Item.with_comments.
    cbn. f_equal. apply list_filter_filter_l. tauto.
Qed.

(** X6: a patch of the comments of a plan, followed by the confirmed
    delete of that plan, leaves the store that the delete alone leaves:
    the delete removes the patched item with the rest of its id. *)
Theorem delete_absorbs_patches gw (cu : User.t) id now commentId content
    (s : LearningPlanPage.State) :
  succeeded (deleteLearningPlan gw id (User.token cu)) ->
  let delete :=
    (LearningPlanPage.handleDelete (Some cu) id;;
     LearningPlanPage.press gw ConfirmModal.ConfirmButton)
    : M LearningPlanPage.State unit in
  let store m := LearningPlanPage.learningPlans (page (snd (run m s))) in
  store (LearningPlanPage.handleUpdateComment now id commentId content;;
         delete)
    = store delete /\
  store (LearningPlanPage.handleDeleteComment id commentId;; delete)
    = store delete /\
  store delete = removeById id (LearningPlanPage.learningPlans s).
Proof.
  intros Hok delete store. subst delete store.
  unfold_handlers; unfold_monad. cbn.
  destruct (deleteLearningPlan gw id (User.token cu)) as [b|]; [|done].
  cbn. split; [|split; [|done]].
  - apply (removeById_patchById id
             (fun plan =>
                Item.with_comments
                  (map (fun comment =>
                          if decide (Comment.id comment = commentId)
                          then Comment.edit content now comment
                          else comment) (Item.comments plan)) plan)).
    done.
  - apply (removeById_patchById id
             (fun plan =>
                Item.with_comments
                  (filter (fun comment => Comment.id comment <> commentId)
                          (Item.comments plan)) plan)).
    done.
Qed.

Lemma delete_absorbs_patches_witness :
  succeeded (deleteLearningPlan Examples.online (PNum 2) "token-u1") /\
  LearningPlanPage.learningPlans
    (page (snd (run (LearningPlanPage.handleDeleteComment (PNum 2) (PNum 7);;
                     LearningPlanPage.handleDelete (Some Examples.u1)
                       (PNum 2);;
                     LearningPlanPage.press Examples.online
                       ConfirmModal.ConfirmButton)
                    Examples.page12)))
  = [Examples.plan1].
Proof.
  split; [exact I|].
  destruct (delete_absorbs_patches Examples.online Examples.u1 (PNum 2)
              0%Z (PNum 7) "" Examples.page12 I) as (_ & H2 & H3).
  exact (eq_trans H2 H3).
Defined.

(** X7: the confirm button deletes from the store as it was when the
    modal was opened.  Whatever the store holds when the button is
    pressed ([plans']), after a successful delete the store is the store
    of that earlier moment without the deleted plan: changes made in
    between are undone. *)
Theorem confirm_uses_snapshot gw (cu : User.t) id
    (s : LearningPlanPage.State) (plans' : list Item.t) :
  succeeded (deleteLearningPlan gw id (User.token cu)) ->
  let opened :=
    page (snd (run (LearningPlanPage.handleDelete (Some cu) id) s)) in
  let later :=
    LearningPlanPage.mkState plans'
      (LearningPlanPage.loading opened) (LearningPlanPage.isSubmitting opened)
      (LearningPlanPage.editingPlan opened)
      (LearningPlanPage.modalState opened) (LearningPlanPage.resets opened)
  in
  LearningPlanPage.learningPlans
    (page (snd (run (LearningPlanPage.press gw ConfirmModal.ConfirmButton)
                    later)))
  = removeById id (LearningPlanPage.learningPlans s).
Proof.
  intros Hok opened later. subst opened later.
  unfold_handlers; unfold_monad. cbn.
  by destruct (deleteLearningPlan gw id (User.token cu)).
Qed.

(** The modal for plan 1 is opened, the first comment of plan 2 is
    deleted, the delete of plan 1 is confirmed: the comment is back. *)
Lemma confirm_uses_snapshot_witness :
  succeeded (deleteLearningPlan Examples.online (PNum 1) "token-u1") /\
  LearningPlanPage.learningPlans
    (page (snd (run (LearningPlanPage.handleDelete (Some Examples.u1)
                       (PNum 1);;
                     LearningPlanPage.handleDeleteComment (PNum 2) (PNum 7);;
                     LearningPlanPage.press Examples.online
                       ConfirmModal.ConfirmButton)
                    Examples.page12)))
  = [Examples.plan2].
Proof.
  split; [exact I|].
  exact (confirm_uses_snapshot Examples.online Examples.u1 (PNum 1)
           Examples.page12
           [Examples.plan1;
            Item.with_comments
              [Comment.mk (PNum 8) (PStr "u0") "Olu" "second" 6 6]
              Examples.plan2] I).
Defined.

(** X8: when the delete of one plan and then of another is asked for
    before the modal is answered, the confirm button sends one request,
    for the second plan; the first plan stays, and the modal is closed. *)
Theorem last_delete_wins gw (cu : User.t) id1 id2
    (s : LearningPlanPage.State) :
  let r := run (LearningPlanPage.handleDelete (Some cu) id1;;
                LearningPlanPage.handleDelete (Some cu) id2;;
                LearningPlanPage.press gw ConfirmModal.ConfirmButton) s in
  calls (snd r) = [DeleteLearningPlan id2 (User.token cu)] /\
  LearningPlanPage.modalState (page (snd r)) = ConfirmModal.Closed /\
  (succeeded (deleteLearningPlan gw id2 (User.token cu)) ->
   LearningPlanPage.learningPlans (page (snd r))
     = removeById id2 (LearningPlanPage.learningPlans s)) /\
  (failed (deleteLearningPlan gw id2 (User.token cu)) ->
   LearningPlanPage.learningPlans (page (snd r))
     = LearningPlanPage.learningPlans s).
Proof.
  unfold_handlers; unfold_monad. cbn.
  destruct (deleteLearningPlan gw id2 (User.token cu)); cbn.
  - split; [done|]. split; [done|]. by split.
  - split; [done|]. split; [done|]. by split.
Qed.

(** ** More of the resources page *)

(** X9: nothing on the resources page clears a recorded error.  Once a
    load has failed, create, update, delete and the start of an edit
    leave the error as it is, and so does a later load that succeeds: the
    page keeps showing the error and no listing, although the store is
    filled. *)
Theorem resources_error_sticks gw (cu : User.t) (s : ResourcesPage.State)
    (e : Exn) :
  ResourcesPage.error s = Some e ->
  let after (m : M ResourcesPage.State unit) := page (snd (run m s)) in
  ResourcesPage.error (after (ResourcesPage.handleCreate gw (Some cu)))
    = Some e /\
  ResourcesPage.error (after (ResourcesPage.handleUpdate gw (Some cu)))
    = Some e /\
  (forall answer id,
     ResourcesPage.error
       (after (ResourcesPage.handleDelete gw (Some cu) answer id)) = Some e)
  /\
  (forall resource,
     ResourcesPage.error (after (ResourcesPage.startEdit resource)) = Some e)
  /\
  (forall l searchQuery,
     resourcesGet gw = Ok (BArr l) ->
     ResourcesPage.resources (after (ResourcesPage.fetchResources gw)) = l /\
     ResourcesPage.error (after (ResourcesPage.fetchResources gw)) = Some e
     /\
     ResourcesView.render false (Some cu) searchQuery
       (after (ResourcesPage.fetchResources gw))
     = Some (ResourcesView.Shown
               (ResourcesView.mkPage false (Some e) None))).
Proof.
  intros He after. subst after.
  split; [|split; [|split; [|split]]].
  - unfold_handlers; unfold_monad. by split_run.
  - unfold_handlers; unfold_monad. by split_run.
  - intros answer id. unfold_handlers; unfold_monad. by split_run.
  - done.
  - intros l q Hl. unfold ResourcesView.render.
    unfold_handlers; unfold_monad. cbn. rewrite Hl. cbn.
    rewrite He. by cbn.
Qed.

Lemma resources_error_sticks_witness :
  let failed_once :=
    page (snd (run (ResourcesPage.fetchResources Examples.offline)
                   ResourcesPage.initial)) in
  let answers :=
    Examples.answering (fun _ => true) Examples.plan1 []
      (BArr [Examples.plan1]) in
  ResourcesPage.error failed_once = Some (GatewayFailure NetworkError) /\
  ResourcesPage.resources
    (page (snd (run (ResourcesPage.fetchResources answers) failed_once)))
    = [Examples.plan1] /\
  ResourcesView.render false (Some Examples.u1) ""
    (page (snd (run (ResourcesPage.fetchResources answers) failed_once)))
  = Some (ResourcesView.Shown
            (ResourcesView.mkPage false
               (Some (GatewayFailure NetworkError)) None)).
Proof.
  cbv zeta. split; [reflexivity|].
  destruct (resources_error_sticks
              (Examples.answering (fun _ => true) Examples.plan1 []
                 (BArr [Examples.plan1]))
              Examples.u1
              (page (snd (run (ResourcesPage.fetchResources Examples.offline)
                              ResourcesPage.initial)))
              (GatewayFailure NetworkError) eq_refl)
    as (_ & _ & _ & _ & Hfetch).
  destruct (Hfetch [Examples.plan1] "" eq_refl) as (Hl & _ & Hv).
  split; [exact Hl|exact Hv].
Defined.

(** X12: creating a resource.  One request carries the three fields of
    the form.  When it succeeds, the answer is put in front of the store
    and the form is closed and emptied; when it fails, every cell of the
    page, the form with what was typed included, is as before, and one
    error is shown. *)
Theorem resource_create_form gw (cu : User.t) (s : ResourcesPage.State) :
  let r := run (ResourcesPage.handleCreate gw (Some cu)) s in
  let payload :=
    Build_ResourcePayload (ResourcesPage.newTitle s)
      (ResourcesPage.newDescription s) (ResourcesPage.newUrl s) in
  calls (snd r) = [ResourcesPost (User.id cu) payload] /\
  (forall item,
     resourcesPost gw (User.id cu) payload = Ok item ->
     ResourcesPage.resources (page (snd r))
       = item :: ResourcesPage.resources s /\
     ResourcesPage.showCreate (page (snd r)) = false /\
     (ResourcesPage.newTitle (page (snd r)),
      ResourcesPage.newDescription (page (snd r)),
      ResourcesPage.newUrl (page (snd r))) = ("", "", "") /\
     toasts (snd r) = [Build_Toast TSuccess "Resource created"]) /\
  (failed (resourcesPost gw (User.id cu) payload) ->
   page (snd r) = s /\
   toasts (snd r) = [Build_Toast TError "Failed to create"]).
Proof.
  unfold_handlers; unfold_monad. cbn.
  destruct (resourcesPost gw _ _) as [item|err]; cbn.
  - split; [done|]. split; [|done]. by intros item' [= <-].
  - split; [done|]. split; [done|]. intros _. split; [|done].
    by destruct s.
Qed.

(** X13: editing a resource.  After [startEdit] on a resource, the update
    goes to the id of that resource, with the fields the form was filled
    with.  When it succeeds, the items with that id are replaced by the
    answer and the edit form is closed; when it fails, the page is as
    [startEdit] left it, the form still open, and one error is shown.  An
    update while no resource is being edited is still sent, with no id,
    and changes no item whatever the answer. *)
Theorem resource_edit_round_trip gw (cu : User.t) (resource : Item.t)
    (s : ResourcesPage.State) :
  let s1 := page (snd (run (ResourcesPage.startEdit resource) s)) in
  let r := run (ResourcesPage.handleUpdate gw (Some cu)) s1 in
  let payload :=
    Build_ResourcePayload (Item.field "title" resource)
      (Item.field "description" resource) (Item.field "url" resource) in
  calls (snd r)
    = [ResourcesPut (Some (Item.id resource)) (User.id cu) payload] /\
  (forall item,
     resourcesPut gw (Some (Item.id resource)) (User.id cu) payload
       = Ok item ->
     ResourcesPage.resources (page (snd r))
       = patchById (Item.id resource) (fun _ => item)
           (ResourcesPage.resources s) /\
     ResourcesPage.editingId (page (snd r)) = None) /\
  (failed (resourcesPut gw (Some (Item.id resource)) (User.id cu) payload) ->
   page (snd r) = s1 /\
   toasts (snd r) = [Build_Toast TError "Failed to update"]) /\
  (forall s0,
     ResourcesPage.editingId s0 = None ->
     let r0 := run (ResourcesPage.handleUpdate gw (Some cu)) s0 in
     length (calls (snd r0)) = 1 /\
     Forall (fun rq => exists u p, rq = ResourcesPut None u p)
            (calls (snd r0)) /\
     ResourcesPage.resources (page (snd r0)) = ResourcesPage.resources s0).
Proof.
  split; [|split; [|split]].
  - unfold_handlers; unfold_monad. cbn. by destruct (resourcesPut gw _ _ _).
  - intros item Hi. unfold_handlers; unfold_monad. cbn. rewrite Hi. cbn.
    split; [|done]. unfold patchById. apply map_ext. intros x.
    destruct (decide (Item.id x = Item.id resource)) as [->|n].
    + by rewrite decide_True.
    + rewrite decide_False; [done|]. by intros [= ?].
  - unfold_handlers; unfold_monad. cbn.
    by destruct (resourcesPut gw _ _ _).
  - intros s0 Hn. unfold_handlers; unfold_monad. cbn. rewrite Hn.
    destruct (resourcesPut gw None _ _) as [item|err]; cbn.
    + split; [done|]. split; [repeat constructor; by eexists _, _|].
      rewrite <- (map_id (ResourcesPage.resources s0)) at 2.
      apply map_ext. intros x. by rewrite decide_False.
    + split; [done|]. split; [repeat constructor; by eexists _, _|done].
Qed.

(** ** Strings *)

Lemma startsWith_spec s q :
  Str.startsWith s q = true <-> exists post, s = (q ++ post)%string.
Proof.
  revert s. induction q as [|b q IH]; intros s.
  - destruct s; cbn; split; eauto.
  - destruct s as [|a s]; cbn.
    + split; [done|]. by intros [post H].
    + rewrite andb_true_iff, Ascii.eqb_eq, IH. split.
      * intros [-> [post ->]]. by exists post.
      * intros [post [= -> ->]]. split; [done|]. by exists post.
Qed.

(** [s.includes(q)] holds exactly when [q] occurs in [s]. *)
Lemma includes_spec s q :
  Str.includes s q = true <->
  exists pre post, s = (pre ++ q ++ post)%string.
Proof.
  induction s as [|a s IH].
  - change (Str.includes "" q) with (Str.startsWith "" q || false).
    rewrite orb_false_r, startsWith_spec. split.
    + intros [post H]. by exists "", post.
    + intros (pre & post & H). destruct pre; [by exists post|done].
  - change (Str.includes (String a s) q)
      with (Str.startsWith (String a s) q || Str.includes s q).
    rewrite orb_true_iff, startsWith_spec, IH. split.
    + intros [[post H]|(pre & post & ->)].
      * by exists "", post.
      * by exists (String a pre), post.
    + intros (pre & post & H). destruct pre as [|c pre]; cbn in H.
      * left. by exists post.
      * right. injection H as -> ->. by exists pre, post.
Qed.

Lemma includes_empty s : Str.includes s "" = true.
Proof. apply includes_spec. by exists "", s. Qed.

Lemma toLowerChar_idem c :
  Str.toLowerChar (Str.toLowerChar c) = Str.toLowerChar c.
Proof. by destruct c as [[] [] [] [] [] [] [] []]. Qed.

Lemma toLowerCase_idem s :
  Str.toLowerCase (Str.toLowerCase s) = Str.toLowerCase s.
Proof.
  induction s as [|c s IH]; [done|]. cbn. by rewrite toLowerChar_idem, IH.
Qed.

Lemma chars_app s t : Str.chars (s ++ t)%string = Str.chars s ++ Str.chars t.
Proof. induction s as [|c s IH]; [done|]. simpl. by f_equal. Qed.

Lemma underscored_no_space inRun s :
  Forall (fun c => is_space c = false) (Str.chars (Str.underscored inRun s)).
Proof.
  revert inRun. induction s as [|c s IH]; intros inRun; cbn; [constructor|].
  destruct (is_space c) eqn:E.
  - destruct inRun; [apply IH|]. cbn. constructor; [done|apply IH].
  - cbn. constructor; [done|apply IH].
Qed.

Lemma underscored_id inRun s :
  Forall (fun c => is_space c = false) (Str.chars s) ->
  Str.underscored inRun s = s.
Proof.
  revert inRun. induction s as [|c s IH]; intros inRun; cbn; [done|].
  intros H. inversion H as [|? ? Hc Hs]; subst. rewrite Hc.
  by rewrite IH.
Qed.

Lemma underscored_length inRun s :
  String.length (Str.underscored inRun s) <= String.length s.
Proof.
  revert inRun. induction s as [|c s IH]; intros inRun; cbn; [done|].
  destruct (is_space c).
  - destruct inRun; cbn.
    + specialize (IH true). lia.
    + specialize (IH true). lia.
  - cbn. specialize (IH false). lia.
Qed.

Lemma length_string_app s t :
  String.length (s ++ t)%string = String.length s + String.length t.
Proof. induction s as [|c s IH]; [done|]. simpl. by f_equal. Qed.

(** X11: the name a resource is saved under holds no white space,
    whatever the title; it is the title followed by [_resource.pdf] when
    the title holds none, and is never longer than that. *)
Theorem fileName_safe (title : string) :
  Forall (fun c => is_space c = false)
         (Str.chars (ResourcesView.fileName title)) /\
  (Forall (fun c => is_space c = false) (Str.chars title) ->
   ResourcesView.fileName title = (title ++ "_resource.pdf")%string) /\
  String.length (ResourcesView.fileName title)
    <= String.length title + 13 /\
  exists name,
    ResourcesView.fileName title = (name ++ "_resource.pdf")%string.
Proof.
  unfold ResourcesView.fileName. split; [|split; [|split]].
  - rewrite chars_app. apply Forall_app. split.
    + apply underscored_no_space.
    + by repeat constructor.
  - intros H. by rewrite underscored_id.
  - rewrite length_string_app. cbn.
    pose proof (underscored_length false title). lia.
  - by eexists.
Qed.

Lemma fileName_safe_witness :
  Forall (fun c => is_space c = false) (Str.chars "Graphs") /\
  ResourcesView.fileName "Graphs" = "Graphs_resource.pdf" /\
  ResourcesView.fileName " Intro  to trees " = "_Intro_to_trees__resource.pdf".
Proof.
  assert (H : Forall (fun c => is_space c = false) (Str.chars "Graphs"))
    by by repeat constructor.
  split; [exact H|].
  split; [exact (proj1 (proj2 (fileName_safe "Graphs")) H)|reflexivity].
Defined.

(** ** The search of the resources page *)

Lemma filtered_cons q r l :
  ResourcesView.filtered q (r :: l) =
  match ResourcesView.matches q r with
  | None => None
  | Some b =>
      match ResourcesView.filtered q l with
      | None => None
      | Some rest => Some (if b then r :: rest else rest)
      end
  end.
Proof. reflexivity. Qed.

Lemma matches_lower q r :
  ResourcesView.matches (Str.toLowerCase q) r = ResourcesView.matches q r.
Proof. unfold ResourcesView.matches. by rewrite toLowerCase_idem. Qed.

Lemma filtered_lower q l :
  ResourcesView.filtered (Str.toLowerCase q) l = ResourcesView.filtered q l.
Proof.
  induction l as [|r l IH]; [done|].
  by rewrite !filtered_cons, matches_lower, IH.
Qed.

(** A resource passes when the query occurs in its title or in its
    description, the case of letters apart. *)
Lemma matches_true q r :
  ResourcesView.matches q r = Some true <->
  exists title,
    prop "title" r = Some title /\
    ((exists pre post,
        Str.toLowerCase title = (pre ++ Str.toLowerCase q ++ post)%string)
     \/
     (exists description pre post,
        prop "description" r = Some description /\
        Str.toLowerCase description
          = (pre ++ Str.toLowerCase q ++ post)%string)).
Proof.
  unfold ResourcesView.matches.
  destruct (prop "title" r) as [title|]; [|split; [done|by intros (?&?&_)]].
  destruct (Str.includes (Str.toLowerCase title) (Str.toLowerCase q)) eqn:E.
  - split; [|done]. intros _. exists title. split; [done|]. left.
    by apply includes_spec.
  - assert (Hn : ~ exists pre post,
               Str.toLowerCase title
                 = (pre ++ Str.toLowerCase q ++ post)%string).
    { intros H. apply includes_spec in H. congruence. }
    destruct (prop "description" r) as [description|].
    + split.
      * intros [= H]. exists title. split; [done|]. right.
        apply includes_spec in H as (pre & post & H).
        by exists description, pre, post.
      * intros (t & [= <-] & [H|(d & pre & post & [= <-] & H)]); [done|].
        f_equal. apply includes_spec. by exists pre, post.
    + split; [done|]. intros (t & [= <-] & [H|(d & ? & ? & ? & _)]); done.
Qed.

(** X10: the search of the resources page, when it renders.  The cards
    are resources of the store in the order of the store; a resource has
    a card exactly when the query occurs in its title or its description,
    the case of letters apart; the case of the letters of the query makes
    no difference. *)
Theorem search_filter (searchQuery : string) (resources shown : list Item.t) :
  ResourcesView.filtered searchQuery resources = Some shown ->
  shown `sublist_of` resources /\
  (forall r,
     r ∈ shown <->
     r ∈ resources /\
     exists title,
       prop "title" r = Some title /\
       ((exists pre post,
           Str.toLowerCase title
             = (pre ++ Str.toLowerCase searchQuery ++ post)%string)
        \/
        (exists description pre post,
           prop "description" r = Some description /\
           Str.toLowerCase description
             = (pre ++ Str.toLowerCase searchQuery ++ post)%string))) /\
  ResourcesView.filtered (Str.toLowerCase searchQuery) resources
    = Some shown.
Proof.
  intros Hf. split; [|split]; [| |by rewrite filtered_lower].
  - revert shown Hf. induction resources as [|r l IH]; intros shown Hf.
    + by injection Hf as <-.
    + rewrite filtered_cons in Hf.
      destruct (ResourcesView.matches searchQuery r) as [b|]; [|done].
      destruct (ResourcesView.filtered searchQuery l) as [rest|]; [|done].
      injection Hf as <-. specialize (IH rest eq_refl).
      destruct b; [by apply sublist_skip|by apply sublist_cons].
  - intros r0. rewrite <- matches_true.
    revert shown Hf. induction resources as [|r l IH]; intros shown Hf.
    + injection Hf as <-. split; [by intros H; inversion H|].
      intros [H _]. inversion H.
    + rewrite filtered_cons in Hf.
      destruct (ResourcesView.matches searchQuery r) as [b|] eqn:Eb;
        [|done].
      destruct (ResourcesView.filtered searchQuery l) as [rest|]; [|done].
      injection Hf as <-. specialize (IH rest eq_refl).
      destruct b.
      * rewrite !elem_of_cons, IH. split.
        -- intros [->|[H1 H2]]; [by split; [left|]|]. split; [by right|done].
        -- intros [[->|H1] H2]; [by left|]. right. by split.
      * rewrite elem_of_cons, IH. split.
        -- intros [H1 H2]. split; [by right|done].
        -- intros [[->|H1] H2]; [congruence|]. by split.
Qed.

(** The search for [tree] among two resources. *)
Lemma search_filter_witness :
  ResourcesView.filtered "TREE" [Samples.tree_notes; Samples.graph_notes]
    = Some [Samples.tree_notes] /\
  [Samples.tree_notes] `sublist_of`
    [Samples.tree_notes; Samples.graph_notes] /\
  ResourcesView.filtered "tree" [Samples.tree_notes; Samples.graph_notes]
    = Some [Samples.tree_notes].
Proof.
  split; [reflexivity|].
  destruct (search_filter "TREE" [Samples.tree_notes; Samples.graph_notes]
              [Samples.tree_notes] eq_refl) as (Hsub & _ & Hlow).
  split; [exact Hsub|exact Hlow].
Defined.

Lemma filtered_none q l :
  ResourcesView.filtered q l = None <->
  exists r, r ∈ l /\ ResourcesView.matches q r = None.
Proof.
  induction l as [|r l IH].
  - split; [done|]. intros (r & H & _). inversion H.
  - rewrite filtered_cons.
    destruct (ResourcesView.matches q r) as [b|] eqn:Eb.
    + destruct (ResourcesView.filtered q l) as [rest|].
      * split; [done|]. intros (r0 & Hin & Hm).
        apply elem_of_cons in Hin as [->|Hin]; [congruence|].
        assert (Some rest = None) as H0; [|done].
        apply IH. by exists r0.
      * split; [|done]. intros _.
        destruct (proj1 IH eq_refl) as (r0 & Hin & Hm).
        exists r0. split; [by right|done].
    + split; [|done]. intros _. exists r. split; [by left|done].
Qed.

(** X14: the edges of the search.  The empty query keeps every resource,
    when each has a title.  The listing fails to render exactly when the
    filter is run on a resource that lacks the property it reads: one
    without a title, or one without a description whose title does not
    hold the query.  A query that nothing passes, on a store that is not
    empty, gives a listing with no card, not the note for an empty
    store. *)
Theorem search_edges (searchQuery : string) (resources : list Item.t) :
  (Forall (fun r => prop "title" r <> None) resources ->
   ResourcesView.filtered "" resources = Some resources) /\
  (ResourcesView.filtered searchQuery resources = None <->
   exists r, r ∈ resources /\
     (prop "title" r = None \/
      prop "description" r = None /\
      ResourcesView.matches searchQuery r <> Some true)) /\
  (forall cu s,
     ResourcesPage.resources s = resources ->
     ResourcesPage.loading s = false -> ResourcesPage.error s = None ->
     ResourcesView.filtered searchQuery resources = Some [] ->
     ResourcesView.render false (Some cu) searchQuery s =
     Some (ResourcesView.Shown
             (ResourcesView.mkPage false None
                (Some (match resources with
                       | [] => ResourcesView.NoResources
                       | _ => ResourcesView.Cards []
                       end))))).
Proof.
  split; [|split].
  - induction resources as [|r l IH]; [done|]. intros H.
    inversion H as [|? ? Hr Hl]; subst. rewrite filtered_cons.
    unfold ResourcesView.matches.
    destruct (prop "title" r) as [t|]; [|done].
    change (Str.toLowerCase "") with "". rewrite includes_empty.
    by rewrite IH.
  - rewrite filtered_none. split.
    + intros (r & Hin & Hm). exists r. split; [done|].
      unfold ResourcesView.matches in Hm |- *.
      destruct (prop "title" r) as [t|]; [|by left]. right.
      destruct (Str.includes _ _); [done|].
      by destruct (prop "description" r).
    + intros (r & Hin & [Ht|[Hd Hm]]); exists r; (split; [done|]).
      * unfold ResourcesView.matches. by rewrite Ht.
      * unfold ResourcesView.matches in Hm |- *.
        destruct (prop "title" r) as [t|]; [|done].
        destruct (Str.includes _ _); [done|]. by rewrite Hd.
  - intros cu s Hres Hl He Hf. unfold ResourcesView.render.
    rewrite Hl, He, Hres. cbn.
    destruct resources as [|r l]; [done|]. cbn [length Nat.eqb].
    by rewrite Hf.
Qed.

Lemma search_edges_witness :
  ResourcesView.filtered "" [Samples.tree_notes; Samples.graph_notes]
    = Some [Samples.tree_notes; Samples.graph_notes] /\
  ResourcesView.filtered "tree" [Samples.tree_notes; Examples.plan1] = None
  /\
  ResourcesView.render false (Some Examples.u1) "zebra" Samples.loaded
    = Some (ResourcesView.Shown
              (ResourcesView.mkPage false None
                 (Some (ResourcesView.Cards [])))).
Proof.
  destruct (search_edges "zebra" [Samples.tree_notes; Samples.graph_notes])
    as (Hall & _ & Hrender).
  split; [|split].
  - apply Hall. repeat constructor; discriminate.
  - reflexivity.
  - exact (Hrender Examples.u1 Samples.loaded eq_refl eq_refl eq_refl
             eq_refl).
Defined.

(** ** The events page and its modal *)

Lemma detached_run {S} (m : M S unit) (w : World S) :
  detached m w = (Returned tt, snd (detached m w)).
Proof.
  unfold detached, try_catch, ret.
  by destruct (m w) as [[[]|e] w'].
Qed.

Lemma events_acts_cons gw cu a l w :
  EventsView.acts gw cu (a :: l) w
  = EventsView.acts gw cu l (snd (detached (EventsView.act gw cu a) w)).
Proof.
  cbn [EventsView.acts]. unfold mbind, M_bind, bind.
  by rewrite detached_run.
Qed.

Lemma events_acts_app gw cu l1 l2 w :
  EventsView.acts gw cu (l1 ++ l2) w
  = EventsView.acts gw cu l2 (snd (EventsView.acts gw cu l1 w)).
Proof.
  revert w. induction l1 as [|a l1 IH]; intros w; [done|].
  change ((a :: l1) ++ l2) with (a :: (l1 ++ l2)).
  by rewrite !events_acts_cons, IH.
Qed.

Lemma typed_changes_id cs f :
  ev_id (EventsView.typed (changes cs) f) = ev_id f.
Proof.
  revert f. induction cs as [|[n v] cs IH]; intros f; [done|].
  cbn. rewrite IH. by destruct n.
Qed.

Lemma modalShown_form p f f' :
  EventsView.modalShown (EventsView.mkState p f)
  = EventsView.modalShown (EventsView.mkState p f').
Proof.
  unfold EventsView.modalShown, EventsView.render. cbn.
  destruct (EventsPage.loading p); [done|].
  destruct (EventsPage.error p); [done|].
  by destruct (EventsPage.modalOpen p).
Qed.

Lemma events_acts_changes gw cu cs w :
  EventsView.modalShown (page w) = true ->
  EventsView.acts gw cu (changes cs) w
  = (Returned tt,
     mkWorld (EventsView.mkState (EventsView.eventsPage (page w))
                (EventsView.typed (changes cs) (EventsView.form (page w))))
             (trace w)).
Proof.
  revert w. induction cs as [|[n v] cs IH]; intros w Hm.
  - by destruct w as [[p f] tr].
  - change (changes ((n, v) :: cs))
      with (EventsView.Change n v :: changes cs).
    rewrite events_acts_cons.
    assert (snd (detached (EventsView.act gw cu (EventsView.Change n v)) w)
            = mkWorld (EventsView.mkState (EventsView.eventsPage (page w))
                         (EventsView.handleChange n v
                            (EventsView.form (page w))))
                      (trace w)) as ->.
    { unfold EventsView.act, EventsView.setForm. unfold_monad. cbn.
      by rewrite Hm. }
    rewrite IH; [done|]. cbn [page].
    rewrite <- Hm. destruct w as [[p f] tr]. apply modalShown_form.
Qed.

(** X15: editing an event.  After a click on the edit button of an
    event, any typing and a submit, the first request is the update of
    that very event, with the event's fields as changed by the typing,
    when the id of the event is truthy; for an event with the id 0 or the
    empty id the request creates a new event instead.  Whatever the
    answers, the modal is closed afterwards and its form is emptied. *)
Theorem edit_then_submit gw (cu : User.t) (s : EventsView.State)
    (e : Item.t) (cs : list (EventsView.Field * string)) :
  EventsView.shown s = true ->
  let data := EventsView.typed (changes cs) (EventsView.editDataOf e) in
  let w :=
    snd (run (EventsView.acts gw (Some cu)
                (EventsView.ClickEdit e :: changes cs ++ [EventsView.Submit]))
             s) in
  head (calls w)
    = Some (if truthy (Item.id e)
            then EventsPut (Item.id e) (User.id cu) data
            else EventsPost (User.id cu) data) /\
  EventsView.modalShown (page w) = false /\
  EventsPage.editData (EventsView.eventsPage (page w)) = None /\
  EventsView.form (page w) = EventsView.emptyForm.
Proof.
  intros Hs data w. subst w. unfold run.
  rewrite events_acts_cons, events_acts_app.
  assert (snd (detached (EventsView.act gw (Some cu) (EventsView.ClickEdit e))
                 (mkWorld s []))
          = mkWorld (EventsView.mkState
                       (EventsPage.mkState
                          (EventsPage.events (EventsView.eventsPage s))
                          (EventsPage.loading (EventsView.eventsPage s))
                          (EventsPage.error (EventsView.eventsPage s))
                          true (Some (EventsView.editDataOf e)))
                       (EventsView.editDataOf e)) []) as ->.
  { unfold EventsView.act, EventsView.setForm, EventsView.onPage, focus.
    unfold_handlers. unfold_monad. cbn. by rewrite Hs. }
  assert (EventsPage.loading (EventsView.eventsPage s) = false /\
          EventsPage.error (EventsView.eventsPage s) = None) as [Hl He].
  { unfold EventsView.shown, EventsView.render in Hs.
    destruct (EventsPage.loading _); [done|].
    by destruct (EventsPage.error _). }
  rewrite events_acts_changes.
  2: { unfold EventsView.modalShown, EventsView.render. cbn.
       by rewrite Hl, He. }
  cbn [snd page trace EventsView.eventsPage EventsView.form].
  fold data.
  assert (ev_id data = Some (Item.id e)) as Hid.
  { unfold data. by rewrite typed_changes_id. }
  clearbody data.
  unfold EventsView.acts, EventsView.act, EventsView.setForm,
    EventsView.onPage, focus, EventsView.modalShown, EventsView.render,
    EventsView.cleared, EventsPage.has_id, calls.
  unfold_handlers. unfold_monad. cbn. rewrite Hl, He, Hid. cbn.
  destruct (truthy (Item.id e)); split_run; done.
Qed.

Lemma edit_then_submit_witness :
  head (calls (snd (run (EventsView.acts Examples.online (Some Examples.u1)
                           [EventsView.ClickEdit Samples.event0;
                            EventsView.Change EventsView.title "Kick-off!";
                            EventsView.Submit])
                        Samples.events_shown)))
  = Some (EventsPost (PStr "u1")
            (EventsView.handleChange EventsView.title "Kick-off!"
               (EventsView.editDataOf Samples.event0))) /\
  EventsView.form
    (page (snd (run (EventsView.acts Examples.online (Some Examples.u1)
                       [EventsView.ClickEdit Samples.event0;
                        EventsView.Change EventsView.title "Kick-off!";
                        EventsView.Submit])
                    Samples.events_shown)))
  = EventsView.emptyForm.
Proof.
  destruct (edit_then_submit Examples.online Examples.u1 Samples.events_shown
              Samples.event0 [(EventsView.title, "Kick-off!")] eq_refl)
    as (Hcall & _ & _ & Hform).
  split; [exact Hcall|exact Hform].
Defined.

(** X16: the form of a create is not emptied.  When no event is being
    edited, after a click on the create button, any typing and a submit,
    the request is the create with what was typed; the modal is closed,
    and a further click on the create button shows the form with the
    values that were submitted, not an empty form. *)
Theorem create_form_kept gw (cu : User.t) (s : EventsView.State)
    (cs : list (EventsView.Field * string)) :
  EventsView.shown s = true ->
  EventsPage.editData (EventsView.eventsPage s) = None ->
  ev_id (EventsView.form s) = None ->
  let data := EventsView.typed (changes cs) (EventsView.form s) in
  let submitted :=
    snd (run (EventsView.acts gw (Some cu)
                (EventsView.ClickCreate :: changes cs ++ [EventsView.Submit]))
             s) in
  let again :=
    snd (EventsView.acts gw (Some cu) [EventsView.ClickCreate] submitted) in
  head (calls submitted) = Some (EventsPost (User.id cu) data) /\
  EventsView.modalShown (page submitted) = false /\
  EventsView.render (page again)
    = EventsView.Cards (EventsPage.events (EventsView.eventsPage (page again)))
                       (Some (false, data)).
Proof.
  intros Hs Hed Hf data submitted again. subst again submitted. unfold run.
  rewrite events_acts_cons, events_acts_app.
  destruct s as [[evs ld err mo ed] f]. cbn in Hed, Hf, data. subst ed.
  unfold EventsView.shown, EventsView.render in Hs. cbn in Hs.
  destruct ld; [done|]. destruct err; [done|]. clear Hs.
  assert (snd (detached (EventsView.act gw (Some cu) EventsView.ClickCreate)
                 (mkWorld (EventsView.mkState
                             (EventsPage.mkState evs false None mo None) f)
                          []))
          = mkWorld (EventsView.mkState
                       (EventsPage.mkState evs false None true None) f) [])
    as -> by done.
  rewrite events_acts_changes. 2: done.
  cbn [snd page trace EventsView.eventsPage EventsView.form].
  fold data.
  assert (ev_id data = None) as Hid.
  { unfold data. by rewrite typed_changes_id. }
  clearbody data.
  unfold EventsView.acts, EventsView.act, EventsView.setForm,
    EventsView.onPage, focus, EventsView.modalShown, EventsView.shown,
    EventsView.render, EventsView.cleared, EventsPage.has_id, calls.
  unfold_handlers. unfold_monad. cbn. rewrite Hid. cbn.
  split_run; done.
Qed.

Lemma create_form_kept_witness :
  EventsView.render
    (page (snd (EventsView.acts Examples.online (Some Examples.u1)
                  [EventsView.ClickCreate]
                  (snd (run (EventsView.acts Examples.online
                               (Some Examples.u1)
                               [EventsView.ClickCreate;
                                EventsView.Change EventsView.title "Quiz";
                                EventsView.Submit])
                            Samples.events_shown)))))
  = EventsView.Cards [Examples.plan1]
      (Some (false,
             EventsView.handleChange EventsView.title "Quiz"
               EventsView.emptyForm)).
Proof.
  destruct (create_form_kept Examples.online Examples.u1 Samples.events_shown
              [(EventsView.title, "Quiz")] eq_refl eq_refl eq_refl)
    as (_ & _ & Hview).
  etransitivity; [exact Hview|reflexivity].
Defined.

Lemma calls_of_snoc tr e :
  calls_of (tr ++ [e])
  = calls_of tr ++ match e with Requested r _ => [r] | _ => [] end.
Proof.
  unfold calls_of. rewrite omap_app. by destruct e.
Qed.

Ltac unfold_events_view :=
  unfold EventsView.act, EventsView.setForm, EventsView.onPage, focus,
    EventsView.modalShown, EventsView.shown, EventsView.render,
    EventsView.cleared, EventsPage.has_id in *.

Set Warnings "-clear-no-such-hyp".

Lemma events_act_step gw cu a w :
  let w' := snd (detached (EventsView.act gw cu a) w) in
  (forall i, ev_id (EventsView.form (page w')) = Some i ->
     ev_id (EventsView.form (page w)) = Some i \/
     exists e, a = EventsView.ClickEdit e /\ Item.id e = i) /\
  (forall i u d, EventsPut i u d ∈ calls_of (trace w') ->
     EventsPut i u d ∈ calls_of (trace w) \/
     a = EventsView.Submit /\ d = EventsView.form (page w) /\
     ev_id d = Some i /\ truthy i = true /\ Some u = User.id <$> cu).
Proof.
  destruct w as [[[evs ld err mo ed] f] tr].
  destruct a; unfold_events_view; unfold_handlers; unfold_monad;
    split_run; simplify_eq/=; rewrite ?calls_of_snoc, ?app_nil_r.
  all: split;
    [intros i0 Hi
    |intros i0 u0 d0; change (omap _ tr) with (calls_of tr);
     rewrite ?elem_of_app, ?list_elem_of_singleton; intros Hin].
  all: try match goal with n : EventsView.Field |- _ => destruct n end.
  all: try match goal with d : option EventForm |- _ => destruct d end.
  all: try (cbn in *; naive_solver).
  all: try (rewrite ?elem_of_app, ?elem_of_cons, ?elem_of_nil in Hin;
            cbn in *; naive_solver).
Qed.

Lemma events_acts_put gw cu l :
  forall (w : World EventsView.State) (P : Prim -> Prop),
  (forall i, ev_id (EventsView.form (page w)) = Some i -> P i) ->
  forall i u d,
  EventsPut i u d ∈ calls_of (trace (snd (EventsView.acts gw cu l w))) ->
  EventsPut i u d ∈ calls_of (trace w) \/
  truthy i = true /\ ev_id d = Some i /\ Some u = User.id <$> cu /\
  (P i \/ exists e, EventsView.ClickEdit e ∈ l /\ Item.id e = i).
Proof.
  induction l as [|a l IH]; intros w P HP i u d Hin; [by left|].
  rewrite events_acts_cons in Hin.
  destruct (events_act_step gw cu a w) as [Hform Hput].
  apply (IH _ (fun i => P i \/
                 exists e, a = EventsView.ClickEdit e /\ Item.id e = i))
    in Hin.
  - destruct Hin as [Hin|(Ht & Hd & Hu & [[HPi|(e & -> & He)]|(e & He & Hi)])].
    + apply Hput in Hin as [Hin|(-> & -> & Hd & Ht & Hu)]; [by left|].
      right. repeat split; try done. left. by apply HP.
    + right. repeat split; try done. by left.
    + right. repeat split; try done. right. exists e. split; [by left|done].
    + right. repeat split; try done. right. exists e. split; [by right|done].
  - intros j Hj. apply Hform in Hj as [Hj|Hj]; [left; by apply HP|by right].
Qed.

(** X17: an update reaches the server only for an event that was opened
    for editing.  Start with a form that carries no id, as the page
    does.  Whatever is clicked, typed and submitted afterwards, by a user
    or by nobody, and whatever the server answers: every update request
    sent is addressed to the truthy id of an event whose edit button was
    clicked, carries that id in its data, and is sent in the name of the
    current user. *)
Theorem update_only_edited gw (cu : option User.t)
    (l : list EventsView.Action) (s : EventsView.State) :
  ev_id (EventsView.form s) = None ->
  forall i u d,
  EventsPut i u d ∈ calls (snd (run (EventsView.acts gw cu l) s)) ->
  truthy i = true /\ ev_id d = Some i /\ Some u = User.id <$> cu /\
  exists e, EventsView.ClickEdit e ∈ l /\ Item.id e = i.
Proof.
  intros Hs i u d Hin. unfold calls, run in Hin.
  apply (events_acts_put gw cu l _ (fun _ => False)) in Hin.
  - destruct Hin as [Hin|(Ht & Hd & Hu & [[]|He])]; [by inversion Hin|done].
  - cbn. intros j Hj. congruence.
Qed.

Lemma update_only_edited_witness :
  EventsPut (PNum 3) (PStr "u1")
    (EventsView.handleChange EventsView.location "Hall"
       (EventsView.editDataOf Samples.event3))
  ∈ calls (snd (run (EventsView.acts Examples.online (Some Examples.u1)
                       [EventsView.ClickEdit Samples.event3;
                        EventsView.Change EventsView.location "Hall";
                        EventsView.Submit])
                    Samples.events_shown)) /\
  truthy (PNum 3) = true /\
  exists e,
    EventsView.ClickEdit e
    ∈ [EventsView.ClickEdit Samples.event3;
       EventsView.Change EventsView.location "Hall";
       EventsView.Submit] /\
    Item.id e = PNum 3.
Proof.
  assert (EventsPut (PNum 3) (PStr "u1")
            (EventsView.handleChange EventsView.location "Hall"
               (EventsView.editDataOf Samples.event3))
          ∈ calls (snd (run (EventsView.acts Examples.online
                               (Some Examples.u1)
                               [EventsView.ClickEdit Samples.event3;
                                EventsView.Change EventsView.location "Hall";
                                EventsView.Submit])
                            Samples.events_shown))) as Hin
    by (vm_compute; left).
  split; [exact Hin|].
  destruct (update_only_edited Examples.online (Some Examples.u1) _
              Samples.events_shown eq_refl _ _ _ Hin) as (Ht & _ & _ & He).
  split; [exact Ht|exact He].
Defined.

(** ** The comment component with its cells *)

Ltac unfold_comment_view :=
  unfold CommentView.act, CommentView.handleUpdate, CommentView.handleDelete,
    CommentView.onConfirm, CommentView.setIsEditing,
    CommentView.setIsDeleting, CommentView.setModalState, CommentView.onPage,
    CommentView.onSubmit, CommentView.onPageF, CommentView.setIsSubmitting,
    CommentView.reset, focus in *.

Lemma comment_acts_cons {S} gw now pu (p : @CommentComponent.Props S) a l w :
  CommentView.acts gw now pu p (a :: l) w
  = CommentView.acts gw now pu p l
      (snd (detached (CommentView.act gw now pu p a) w)).
Proof.
  cbn [CommentView.acts]. unfold mbind, M_bind, bind.
  by rewrite detached_run.
Qed.

(** X18: a viewer who is neither the author of a comment nor the owner
    of its post, a visitor without a session included, cannot act on the
    comment.  Whatever such a viewer clicks or submits, in any order: no
    request is sent, nothing is notified, and the cells of the comment
    and the state of the page stay as they were. *)
Theorem stranger_changes_nothing {S} gw now (postUserId : Prim)
    (p : @CommentComponent.Props S) (l : list CommentView.Action) (s : S) :
  CommentView.isAuthor p = false ->
  CommentView.isPostOwner postUserId p = false ->
  run (CommentView.acts gw now postUserId p l) (CommentView.initial, s)
  = (Returned tt, mkWorld (CommentView.initial, s) []).
Proof.
  intros Ha Ho. unfold run. induction l as [|a l IH]; [done|].
  rewrite comment_acts_cons.
  assert (snd (detached (CommentView.act gw now postUserId p a)
                 (mkWorld (CommentView.initial, s) []))
          = mkWorld (CommentView.initial, s) []) as ->; [|exact IH].
  destruct a; unfold CommentView.act; unfold_monad; cbn;
    rewrite ?Ha, ?Ho; done.
Qed.

Lemma stranger_changes_nothing_witness :
  run (CommentView.acts Examples.online 10 (PStr "u1")
         (Samples.props7 (Some Samples.u2))
         [CommentView.ClickEdit; CommentView.SubmitEdit "mine now";
          CommentView.ClickDelete;
          CommentView.Press ConfirmModal.ConfirmButton])
      (CommentView.initial, Examples.page12)
  = (Returned tt, mkWorld (CommentView.initial, Examples.page12) []) /\
  run (CommentView.acts Examples.online 10 (PStr "u1")
         (Samples.props7 None)
         [CommentView.ClickDelete;
          CommentView.Press ConfirmModal.ConfirmButton])
      (CommentView.initial, Examples.page12)
  = (Returned tt, mkWorld (CommentView.initial, Examples.page12) []).
Proof.
  split.
  - exact (stranger_changes_nothing Examples.online 10 (PStr "u1")
             (Samples.props7 (Some Samples.u2)) _ Examples.page12
             eq_refl eq_refl).
  - exact (stranger_changes_nothing Examples.online 10 (PStr "u1")
             (Samples.props7 None) _ Examples.page12 eq_refl eq_refl).
Defined.

(** X20: the editor of a comment closes exactly when the save went
    through.  The author opens the editor and submits a text: the editor
    is closed afterwards when the text is not blank, the type of the
    comment is known and the request succeeded, also when the callback
    of the page fails; in every other case the editor stays open and the
    state of the page is untouched. *)
Theorem editor_closes_on_success {S} gw now (postUserId : Prim)
    (p : @CommentComponent.Props S) (updatedContent : string) (s : S) :
  CommentView.isAuthor p = true ->
  let w :=
    snd (run (CommentView.acts gw now postUserId p
                [CommentView.ClickEdit;
                 CommentView.SubmitEdit updatedContent])
             (CommentView.initial, s)) in
  let saved :=
    negb (blank updatedContent)
    && CommentComponent.known (CommentComponent.commentType p)
    && match updateComment gw (CommentComponent.commentType p)
               (CommentComponent.postId p)
               (Comment.id (CommentComponent.comment p))
               (Comment.edit updatedContent now (CommentComponent.comment p))
               (CommentComponent.token p)
       with Ok _ => true | Fail _ => false end in
  CommentView.isEditing (fst (page w)) = negb saved /\
  CommentView.isDeleting (fst (page w)) = false /\
  (saved = false -> snd (page w) = s /\ length (calls w) <= 1).
Proof.
  intros Ha w saved. subst w saved. unfold run.
  rewrite !comment_acts_cons. cbn [CommentView.acts].
  assert (snd (detached (CommentView.act gw now postUserId p
                           CommentView.ClickEdit)
                 (mkWorld (CommentView.initial, s) []))
          = mkWorld (CommentView.mkCells true false ConfirmModal.Closed, s)
                    []) as ->.
  { unfold CommentView.act; unfold_monad; cbn. by rewrite Ha. }
  unfold calls. unfold_comment_view; unfold_monad. cbn.
  destruct (blank updatedContent); [cbn; split_and!; [done..|auto]|].
  destruct (CommentComponent.known _); [|cbn; split_and!; [done..|auto]].
  destruct (updateComment _ _ _ _ _ _); split_run; split_and!;
    try done; auto.
Qed.

Lemma editor_closes_on_success_witness :
  CommentView.isEditing
    (fst (page (snd (run (CommentView.acts Examples.online 10 (PStr "u1")
                            (Samples.props7 (Some Examples.u1))
                            [CommentView.ClickEdit;
                             CommentView.SubmitEdit "first, revised"])
                         (CommentView.initial, Examples.page12)))))
  = false /\
  CommentView.isEditing
    (fst (page (snd (run (CommentView.acts Examples.offline 10 (PStr "u1")
                            (Samples.props7 (Some Examples.u1))
                            [CommentView.ClickEdit;
                             CommentView.SubmitEdit "first, revised"])
                         (CommentView.initial, Examples.page12)))))
  = true.
Proof.
  split.
  - exact (proj1 (editor_closes_on_success Examples.online 10 (PStr "u1")
                    (Samples.props7 (Some Examples.u1)) "first, revised"
                    Examples.page12 eq_refl)).
  - exact (proj1 (editor_closes_on_success Examples.offline 10 (PStr "u1")
                    (Samples.props7 (Some Examples.u1)) "first, revised"
                    Examples.page12 eq_refl)).
Defined.

Lemma comment_act_step gw now now' pu (cu : option User.t) comment postId ty
    a (w : World (CommentView.Cells * LearningPlanPage.State)) :
  let p := Reconciler.props cu now' comment postId ty in
  let good (c : CommentView.Cells) :=
    CommentView.isEditing c = false /\
    forall config, CommentView.modalState c = ConfirmModal.Open config ->
      ConfirmModal.onConfirm config = p /\
      CommentView.isPostOwner pu p = true in
  CommentView.isAuthor p = false ->
  good (fst (page w)) ->
  let w' := snd (detached (CommentView.act gw now pu p a) w) in
  good (fst (page w')) /\
  forall r, r ∈ calls_of (trace w') ->
    r ∈ calls_of (trace w) \/
    exists u, cu = Some u /\ pu = User.id u /\
      r = DeleteComment ty postId (Comment.id comment) (User.id u)
            (Some (User.token u)).
Proof.
  intros p good Ha [He Hm] w'. subst w' good.
  destruct w as [[[ie dl ms] s] tr]. cbn in He, Hm. subst ie.
  destruct a.
  - unfold CommentView.act; unfold_monad; cbn. rewrite Ha. cbn.
    split; [split; [done|exact Hm]|by left].
  - unfold CommentView.act, CommentView.handleDelete,
      CommentView.setModalState; unfold_monad; cbn. rewrite Ha. cbn.
    destruct (CommentView.isPostOwner pu p) eqn:Ho; cbn.
    + destruct dl; cbn.
      * split; [split; [done|exact Hm]|by left].
      * split; [|by left]. split; [done|]. by intros config [= <-].
    + split; [split; [done|exact Hm]|by left].
  - unfold CommentView.act; unfold_monad; cbn.
    split; [split; [done|exact Hm]|by left].
  - unfold CommentView.act; unfold_monad; cbn.
    split; [split; [done|exact Hm]|by left].
  - destruct ms as [|config].
    { unfold CommentView.act; unfold_monad; cbn.
      split; [split; [done|done]|by left]. }
    destruct (Hm config eq_refl) as [Hp Ho].
    unfold CommentView.isPostOwner in Ho. apply bool_decide_eq_true in Ho.
    destruct cu as [u|]; [|done]. cbn in Ho. injection Ho as ->.
    destruct config as [t m ct cat ty' cb]. cbn in Hp. subst cb.
    destruct c.
    all: unfold CommentView.act, CommentView.effects; unfold_comment_view;
      unfold_handlers; unfold_monad; cbn.
    1-4: by (split; [split; [done|done]|by left]).
    destruct (CommentComponent.known ty); cbn.
    + destruct (deleteComment gw ty postId (Comment.id comment) (User.id u)
                  (Some (User.token u))); cbn.
      * split; [split; [done|done]|]. intros r.
        rewrite !calls_of_snoc, app_nil_r, elem_of_app,
          list_elem_of_singleton.
        intros [Hr| ->]; [by left|]. right. by exists u.
      * split; [split; [done|done]|]. intros r.
        rewrite !calls_of_snoc, app_nil_r, elem_of_app,
          list_elem_of_singleton.
        intros [Hr| ->]; [by left|]. right. by exists u.
    + split; [split; [done|done]|]. intros r.
      rewrite !calls_of_snoc, app_nil_r. by left.
Qed.

Lemma comment_acts_requests gw now now' pu (cu : option User.t) comment postId
    ty l :
  let p := Reconciler.props cu now' comment postId ty in
  CommentView.isAuthor p = false ->
  forall w : World (CommentView.Cells * LearningPlanPage.State),
  (CommentView.isEditing (fst (page w)) = false /\
   forall config,
     CommentView.modalState (fst (page w)) = ConfirmModal.Open config ->
     ConfirmModal.onConfirm config = p /\
     CommentView.isPostOwner pu p = true) ->
  let w' := snd (CommentView.acts gw now pu p l w) in
  CommentView.isEditing (fst (page w')) = false /\
  forall r, r ∈ calls_of (trace w') ->
    r ∈ calls_of (trace w) \/
    exists u, cu = Some u /\ pu = User.id u /\
      r = DeleteComment ty postId (Comment.id comment) (User.id u)
            (Some (User.token u)).
Proof.
  intros p Ha. induction l as [|a l IH]; intros w Hw.
  - split; [apply Hw|by left].
  - cbv zeta. rewrite comment_acts_cons.
    destruct (comment_act_step gw now now' pu cu comment postId ty a w Ha Hw)
      as [Hgood Hcalls].
    destruct (IH _ Hgood) as [He Hr]. split; [exact He|].
    intros r Hin. apply Hr in Hin as [Hin|Hin]; [|by right].
    by apply Hcalls.
Qed.

(** X19: only the author of a comment can have it updated.  On the
    learning plan page, for a viewer who is not the author of the
    comment, whatever is clicked and submitted on the comment and
    whatever the server answers: the editor never opens, and every
    request sent is the delete of this very comment, sent by the owner
    of the post under the owner's own id and token.  No update of a
    comment is ever requested. *)
Theorem non_author_only_deletes gw now now' (postUserId : Prim)
    (cu : option User.t) (comment : Comment.t) (postId : Prim)
    (ty : CommentType) (l : list CommentView.Action)
    (s : LearningPlanPage.State) :
  let p := Reconciler.props cu now' comment postId ty in
  CommentView.isAuthor p = false ->
  let w :=
    snd (run (CommentView.acts gw now postUserId p l)
             (CommentView.initial, s)) in
  CommentView.isEditing (fst (page w)) = false /\
  forall r, r ∈ calls w ->
    is_update r = false /\
    exists u, cu = Some u /\ postUserId = User.id u /\
      r = DeleteComment ty postId (Comment.id comment) (User.id u)
            (Some (User.token u)).
Proof.
  intros p Ha w. subst w. unfold run, calls.
  destruct (comment_acts_requests gw now now' postUserId cu comment postId ty
              l Ha (mkWorld (CommentView.initial, s) []))
    as [He Hr]; [by split|].
  split; [exact He|]. intros r Hin.
  apply Hr in Hin as [Hin|(u & Hu & Hp & ->)]; [by inversion Hin|].
  split; [done|]. by exists u.
Qed.

Lemma non_author_only_deletes_witness :
  CommentView.isAuthor (Samples.props8 (Some Examples.u1)) = false /\
  calls (snd (run (CommentView.acts Examples.online 10 (PStr "u1")
                     (Samples.props8 (Some Examples.u1))
                     [CommentView.ClickEdit; CommentView.SubmitEdit "edited";
                      CommentView.ClickDelete;
                      CommentView.Press ConfirmModal.ConfirmButton])
                  (CommentView.initial, Examples.page12)))
  = [DeleteComment LEARNING_PLANS (PNum 2) (PNum 8) (PStr "u1")
       (Some "token-u1")] /\
  CommentView.isEditing
    (fst (page (snd (run (CommentView.acts Examples.online 10 (PStr "u1")
                            (Samples.props8 (Some Examples.u1))
                            [CommentView.ClickEdit;
                             CommentView.SubmitEdit "edited";
                             CommentView.ClickDelete;
                             CommentView.Press ConfirmModal.ConfirmButton])
                         (CommentView.initial, Examples.page12)))))
  = false.
Proof.
  split; [reflexivity|]. split; [reflexivity|].
  exact (proj1 (non_author_only_deletes Examples.online 10 10 (PStr "u1")
                  (Some Examples.u1) Samples.comment8 (PNum 2) LEARNING_PLANS
                  _ Examples.page12 eq_refl)).
Defined.

(** X21: the comment form is emptied exactly when the comment was
    stored.  Submitting a text that is not blank on the learning plan
    page sends one request when there is a user; the form is reset when
    that request succeeded, and keeps its text when it failed or when
    there is no user.  A blank text does nothing at all.  In every case
    the submit ends normally and the button is released. *)
Theorem comment_form_submit gw (cu : option User.t) (postId : Prim)
    (commentText : string) (cells : @CommentView.FormCells)
    (s : LearningPlanPage.State) :
  let r :=
    run (CommentView.onSubmit postId
           (LearningPlanPage.handleAddComment gw cu) cu commentText)
        (cells, s) in
  let stored :=
    negb (blank commentText)
    && match cu with
       | Some u =>
           match addComment gw postId
                   (Build_CommentData (User.id u) (User.name u) commentText)
                   (User.token u)
           with Ok _ => true | Fail _ => false end
       | None => false
       end in
  fst r = Returned tt /\
  CommentView.resets (fst (page (snd r)))
    = (if stored then 1 else 0) + CommentView.resets cells /\
  (blank commentText = true -> snd r = mkWorld (cells, s) []) /\
  (blank commentText = false ->
   CommentView.isSubmitting (fst (page (snd r))) = false /\
   length (calls (snd r)) = match cu with Some _ => 1 | None => 0 end).
Proof.
  intros r stored. subst r stored. unfold calls.
  unfold_comment_view; unfold_handlers; unfold_monad. cbn.
  destruct (blank commentText); [done|].
  destruct cu as [u|]; [|done]. cbn.
  destruct (addComment gw postId _ _); by cbn.
Qed.

Lemma comment_form_submit_witness :
  CommentView.resets
    (fst (page (snd (run (CommentView.onSubmit (PNum 2)
                            (LearningPlanPage.handleAddComment
                               Examples.online (Some Examples.u1))
                            (Some Examples.u1) "third")
                         (CommentView.mkFormCells false 0,
                          Examples.page12)))))
  = 1 /\
  CommentView.resets
    (fst (page (snd (run (CommentView.onSubmit (PNum 2)
                            (LearningPlanPage.handleAddComment
                               Examples.offline (Some Examples.u1))
                            (Some Examples.u1) "third")
                         (CommentView.mkFormCells false 0,
                          Examples.page12)))))
  = 0.
Proof.
  split.
  - exact (proj1 (proj2 (comment_form_submit Examples.online
                           (Some Examples.u1) (PNum 2) "third"
                           (CommentView.mkFormCells false 0)
                           Examples.page12))).
  - exact (proj1 (proj2 (comment_form_submit Examples.offline
                           (Some Examples.u1) (PNum 2) "third"
                           (CommentView.mkFormCells false 0)
                           Examples.page12))).
Defined.
